(** * OpenRazer daemon: the per-device runtime core ([RazerDevice])

    A shallow embedding of [daemon/openrazer_daemon/hardware/device_base.py]
    and the properties of its persistence load, effect restoration, serial
    derivation, suspend/resume, observer bus and close sequence.

    Conventions of the embedding.
    - Python [str] is [string]; the text handled here (zone names, effect
      names, serials, persisted numbers) is ASCII, and bytes above 127 are
      left alone by the case and class functions.
    - Python [int] is [Z]; a Python [float] that is only stored and passed
      on (brightness) is [Q].
    - An exception is a value of [exn]; a function that may raise returns an
      [outcome], a method that also mutates [self] lives in the monad [M].
    - [self.logger] calls and [time.sleep] have no counterpart. *)

From Stdlib Require Import ZArith QArith.QArith_base Ascii String List Bool Lia.
From stdpp Require Import base option list gmap strings.

Local Open Scope Z_scope.

(** ** Exceptions *)

Inductive exn : Type :=
| IndexError
| KeyError
| TypeError
| ValueError
| FileNotFoundError
| PermissionError.

Inductive outcome (A : Type) : Type :=
| Return (a : A)
| Raise (e : exn).
Arguments Return {A} a.
Arguments Raise {A} e.

(** ** Characters and the string methods the device code relies on *)

Module Py.

Definition code (c : ascii) : N := N_of_ascii c.

Definition in_range (lo hi : N) (c : ascii) : bool :=
  ((lo <=? code c) && (code c <=? hi))%N.

Definition is_lower : ascii -> bool := in_range 97 122.
Definition is_upper : ascii -> bool := in_range 65 90.
Definition is_digit : ascii -> bool := in_range 48 57.
Definition is_underscore (c : ascii) : bool := (code c =? 95)%N.
Definition is_space_char (c : ascii) : bool := (code c =? 32)%N.

(** [str.isspace] on ASCII: TAB, LF, VT, FF, CR, the four separators
    0x1c..0x1f and the blank. *)
Definition isspace (c : ascii) : bool :=
  in_range 9 13 c || in_range 28 32 c.

(** [c.upper()] for one ASCII character. *)
Definition upper (c : ascii) : ascii :=
  if is_lower c then ascii_of_N (code c - 32) else c.

(** [len(s)] *)
Fixpoint len (s : string) : nat :=
  match s with
  | EmptyString => O
  | String _ r => S (len r)
  end.

Fixpoint lstrip (s : string) : string :=
  match s with
  | EmptyString => EmptyString
  | String c r => if isspace c then lstrip r else s
  end.

Fixpoint rstrip (s : string) : string :=
  match s with
  | EmptyString => EmptyString
  | String c r =>
      match rstrip r with
      | EmptyString => if isspace c then EmptyString else String c EmptyString
      | r' => String c r'
      end
  end.

(** [s.strip()] *)
Definition strip (s : string) : string := rstrip (lstrip s).

(** [s.split(" ")]: every single blank separates, so two blanks in a row
    give an empty item and the empty string gives one empty item. *)
Fixpoint split_blank (s : string) : list string :=
  match s with
  | EmptyString => [EmptyString]
  | String c r =>
      if is_space_char c then EmptyString :: split_blank r
      else match split_blank r with
           | item :: items => String c item :: items
           | [] => [String c EmptyString]
           end
  end.

(** [s.replace(' ', '_')] *)
Fixpoint replace_blank (s : string) : string :=
  match s with
  | EmptyString => EmptyString
  | String c r =>
      String (if is_space_char c then "_"%char else c) (replace_blank r)
  end.

Definition digit_val (c : ascii) : Z := Z.of_N (code c - 48).

(** The digit part of an [int] literal: digits, single underscores allowed
    between two digits only. [seen] tells that the previous character was a
    digit. *)
Fixpoint int_digits (acc : Z) (seen : bool) (s : string) : option Z :=
  match s with
  | EmptyString => if seen then Some acc else None
  | String c r =>
      if is_digit c then int_digits (10 * acc + digit_val c) true r
      else if is_underscore c && seen then int_digits acc false r
      else None
  end.

(** The whitespace [int] skips around an ASCII literal: TAB, LF, VT, FF, CR
    and the blank. The separators 0x1c..0x1f, which [str.strip] drops, are not
    skipped there: an item that holds one is not a number. *)
Definition is_int_space (c : ascii) : bool :=
  in_range 9 13 c || is_space_char c.

Fixpoint int_lstrip (s : string) : string :=
  match s with
  | EmptyString => EmptyString
  | String c r => if is_int_space c then int_lstrip r else s
  end.

Fixpoint int_rstrip (s : string) : string :=
  match s with
  | EmptyString => EmptyString
  | String c r =>
      match int_rstrip r with
      | EmptyString => if is_int_space c then EmptyString else String c EmptyString
      | r' => String c r'
      end
  end.

(** The number of digits of a literal, which [int] bounds by
    [sys.int_max_str_digits], 4300 unless the interpreter is told otherwise. *)
Fixpoint count_digits (s : string) : N :=
  match s with
  | EmptyString => 0%N
  | String c r => ((if is_digit c then 1 else 0) + count_digits r)%N
  end.

Definition int_max_str_digits : N := 4300.

(** [int(s)] for a string: [None] stands for the [ValueError]. Surrounding
    whitespace is dropped, one sign may precede the digits, and a literal of
    more than [int_max_str_digits] digits is refused. *)
Definition int (s : string) : option Z :=
  let t := int_rstrip (int_lstrip s) in
  if (int_max_str_digits <? count_digits t)%N then None
  else
    match t with
    | String "+"%char r => int_digits 0 false r
    | String "-"%char r => Z.opp <$> int_digits 0 false r
    | _ => int_digits 0 false t
    end.

(** Digits of a natural number, most significant first; capitals above 9. *)
Definition digit_char (d : N) : ascii :=
  if (d <? 10)%N then ascii_of_N (48 + d) else ascii_of_N (55 + d).

Fixpoint digits_of (fuel : nat) (base n : N) (acc : string) : string :=
  match fuel with
  | O => acc
  | S k =>
      let acc' := String (digit_char (n mod base)) acc in
      if (n / base =? 0)%N then acc' else digits_of k base (n / base) acc'
  end.

Definition str_base (base n : N) : string :=
  digits_of (S (N.size_nat n)) base n EmptyString.

Fixpoint zeros (k : nat) (s : string) : string :=
  match k with
  | O => s
  | S k' => String "0"%char (zeros k' s)
  end.

(** [format(z, '04X')] and [format(z, '04d')]: the sign comes first and
    counts in the width, zeros fill up to four characters. *)
Definition format_04 (base : N) (z : Z) : string :=
  let digits := str_base base (Z.abs_N z) in
  if z <? 0 then String "-"%char (zeros (3 - len digits) digits)
  else zeros (4 - len digits) digits.

Definition format_04X : Z -> string := format_04 16.
Definition format_04d : Z -> string := format_04 10.

(** [re.fullmatch(r"[\dA-Z]+", s)] as a truth value. *)
Fixpoint all_serial_chars (s : string) : bool :=
  match s with
  | EmptyString => true
  | String c r => (is_digit c || is_upper c) && all_serial_chars r
  end.

Definition fullmatch_serial (s : string) : bool :=
  match s with
  | EmptyString => false
  | _ => all_serial_chars s
  end.

End Py.

(** [RazerDevice.capitalize_first_char]: [string[0].upper() + string[1:]];
    indexing the empty string raises. *)
Definition capitalize_first_char (s : string) : outcome string :=
  match s with
  | EmptyString => Raise IndexError
  | String c r => Return (String (Py.upper c) r)
  end.

Fixpoint underscores (k : nat) (s : string) : string :=
  match k with
  | O => s
  | S k' => String "_"%char (underscores k' s)
  end.

(** [RazerDevice.handle_underscores]:
    [re.sub(r'[_]+(?P<first>[a-z])', lambda m: m.group('first').upper(), s)].
    [run] counts the underscores read since the last other character: a run
    followed by a small letter is replaced by the capital, any other run
    stays. *)
Fixpoint handle_underscores_run (run : nat) (s : string) : string :=
  match s with
  | EmptyString => underscores run EmptyString
  | String c r =>
      if Py.is_underscore c then handle_underscores_run (S run) r
      else
        match run with
        | S _ =>
            if Py.is_lower c then String (Py.upper c) (handle_underscores_run O r)
            else underscores run (String c (handle_underscores_run O r))
        | O => String c (handle_underscores_run O r)
        end
  end.

Definition handle_underscores (s : string) : string :=
  handle_underscores_run O s.

(** ** Loading the persisted colors of a zone ([__init__], "colors") *)

Definition default_colors : list Z := [0; 255; 0; 0; 255; 255; 0; 0; 255].

(** The [for index, item in enumerate(...)] loop: each item is converted,
    stored into the zone's list in place, then range-checked. The list is the
    zone's own list, so an index past its end is an assignment out of
    range. *)
Fixpoint store_colors (items : list string) (index : nat) (colors : list Z)
  : outcome (list Z) :=
  match items with
  | [] => Return colors
  | item :: rest =>
      match Py.int item with
      | None => Raise ValueError
      | Some v =>
          if (index <? length colors)%nat then
            if (0 <=? v) && (v <=? 255)
            then store_colors rest (S index) (<[index := v]> colors)
            else Raise ValueError
          else Raise IndexError
      end
  end.

(** The body of the [try]: the loop, then the check of the length of the
    zone's list. *)
Definition try_load_colors (s : string) (colors : list Z) : outcome (list Z) :=
  match store_colors (Py.split_blank s) 0 colors with
  | Return colors' =>
      if (length colors' =? 9)%nat then Return colors' else Raise ValueError
  | Raise e => Raise e
  end.

(** The whole [try] statement. [stored] is the value of the key
    [<zone>_colors] in the device's section, [None] when the key is missing
    (the [KeyError] handler, which keeps the list). The [ValueError] handler
    puts the default palette back; any other exception leaves the [try]. *)
Definition load_colors (stored : option string) (colors : list Z)
  : outcome (list Z) :=
  match stored with
  | None => Return colors
  | Some s =>
      match try_load_colors s colors with
      | Raise ValueError => Return default_colors
      | Raise KeyError => Return colors
      | r => r
      end
  end.

(** ** Values, zones and the device object *)

(** A registered observer or parent, compared like a Python object. *)
Definition observer : Type := nat.

(** What is stored in a zone, passed to a setter or sent in a message.
    [VSelf] is the device itself inside an effect event. *)
Inductive value : Type :=
| VNone
| VBool (b : bool)
| VInt (z : Z)
| VFloat (q : Q)
| VStr (s : string)
| VList (l : list Z)
| VSelf.

(** One entry of [self.zone]: the seven keys written by [__init__], and the
    keys added later. *)
Record zone_dict : Type := {
  present : bool;
  active : bool;
  brightness : Q;
  effect : string;
  colors : list Z;
  speed : Z;
  wave_dir : Z;
  others : list (string * value)
}.

(** [self.zone] holds the zone dictionaries and, for a call of
    [set_persistence] without a zone, plain values next to them. *)
Inductive zone_entry : Type :=
| Zone (z : zone_dict)
| Plain (v : value).

(** The [(key, value)] pair handed to [set_persistence]; the six keys with a
    fixed type are told apart, [KOther] carries any other key. ["present"] is
    written by [__init__] alone. *)
Inductive keyval : Type :=
| KActive (b : bool)
| KBrightness (q : Q)
| KEffect (s : string)
| KColors (l : list Z)
| KSpeed (z : Z)
| KWaveDir (z : Z)
| KOther (key : string) (v : value).

Definition key_of (kv : keyval) : string :=
  match kv with
  | KActive _ => "active"
  | KBrightness _ => "brightness"
  | KEffect _ => "effect"
  | KColors _ => "colors"
  | KSpeed _ => "speed"
  | KWaveDir _ => "wave_dir"
  | KOther key _ => key
  end.

Definition value_of (kv : keyval) : value :=
  match kv with
  | KActive b => VBool b
  | KBrightness q => VFloat q
  | KEffect s => VStr s
  | KColors l => VList l
  | KSpeed z => VInt z
  | KWaveDir z => VInt z
  | KOther _ v => v
  end.

(** [self.zone[zone][key] = value] on the zone's dictionary. *)
Definition set_key (kv : keyval) (z : zone_dict) : zone_dict :=
  match kv with
  | KActive b =>
      {| present := present z; active := b; brightness := brightness z;
         effect := effect z; colors := colors z; speed := speed z;
         wave_dir := wave_dir z; others := others z |}
  | KBrightness q =>
      {| present := present z; active := active z; brightness := q;
         effect := effect z; colors := colors z; speed := speed z;
         wave_dir := wave_dir z; others := others z |}
  | KEffect s =>
      {| present := present z; active := active z; brightness := brightness z;
         effect := s; colors := colors z; speed := speed z;
         wave_dir := wave_dir z; others := others z |}
  | KColors l =>
      {| present := present z; active := active z; brightness := brightness z;
         effect := effect z; colors := l; speed := speed z;
         wave_dir := wave_dir z; others := others z |}
  | KSpeed v =>
      {| present := present z; active := active z; brightness := brightness z;
         effect := effect z; colors := colors z; speed := v;
         wave_dir := wave_dir z; others := others z |}
  | KWaveDir v =>
      {| present := present z; active := active z; brightness := brightness z;
         effect := effect z; colors := colors z; speed := speed z;
         wave_dir := v; others := others z |}
  | KOther key v =>
      {| present := present z; active := active z; brightness := brightness z;
         effect := effect z; colors := colors z; speed := speed z;
         wave_dir := wave_dir z; others := (key, v) :: others z |}
  end.

(** What the device does that the outside can see. *)
Inductive event : Type :=
| ECall (name : string) (args : list value)
| ENotifyParent (p : observer) (msg : list value)
| ENotify (o : observer) (msg : list value)
| EWriteMode (mode_id param : Z)
| EBatteryClose.

(** The [device_mode] control file as [open] finds it. *)
Inductive file_status : Type :=
| FilePresent
| FileMissing
| FileDenied.

(** The attributes of one [RazerDevice] that change after construction,
    with the control file and the record of outside effects. *)
Record Device : Type := {
  _serial : option string;
  zone : gmap string zone_entry;
  dpi : Z * Z;
  poll_rate : Z;
  _observer_list : list observer;
  _parent : option observer;
  _effect_sync_propagate_up : bool;
  _disable_notifications : bool;
  _disable_persistence : bool;
  _is_closed : bool;
  _battery_manager : bool;
  persistence_changed : bool;
  device_mode_file : file_status;
  trace : list event
}.

Definition with_serial (v : option string) (d : Device) : Device :=
  {| _serial := v; zone := zone d; dpi := dpi d; poll_rate := poll_rate d;
     _observer_list := _observer_list d; _parent := _parent d;
     _effect_sync_propagate_up := _effect_sync_propagate_up d;
     _disable_notifications := _disable_notifications d;
     _disable_persistence := _disable_persistence d;
     _is_closed := _is_closed d; _battery_manager := _battery_manager d;
     persistence_changed := persistence_changed d;
     device_mode_file := device_mode_file d; trace := trace d |}.

Definition with_zone (v : gmap string zone_entry) (d : Device) : Device :=
  {| _serial := _serial d; zone := v; dpi := dpi d; poll_rate := poll_rate d;
     _observer_list := _observer_list d; _parent := _parent d;
     _effect_sync_propagate_up := _effect_sync_propagate_up d;
     _disable_notifications := _disable_notifications d;
     _disable_persistence := _disable_persistence d;
     _is_closed := _is_closed d; _battery_manager := _battery_manager d;
     persistence_changed := persistence_changed d;
     device_mode_file := device_mode_file d; trace := trace d |}.

Definition with_dpi (v : Z * Z) (d : Device) : Device :=
  {| _serial := _serial d; zone := zone d; dpi := v; poll_rate := poll_rate d;
     _observer_list := _observer_list d; _parent := _parent d;
     _effect_sync_propagate_up := _effect_sync_propagate_up d;
     _disable_notifications := _disable_notifications d;
     _disable_persistence := _disable_persistence d;
     _is_closed := _is_closed d; _battery_manager := _battery_manager d;
     persistence_changed := persistence_changed d;
     device_mode_file := device_mode_file d; trace := trace d |}.

Definition with_poll_rate (v : Z) (d : Device) : Device :=
  {| _serial := _serial d; zone := zone d; dpi := dpi d; poll_rate := v;
     _observer_list := _observer_list d; _parent := _parent d;
     _effect_sync_propagate_up := _effect_sync_propagate_up d;
     _disable_notifications := _disable_notifications d;
     _disable_persistence := _disable_persistence d;
     _is_closed := _is_closed d; _battery_manager := _battery_manager d;
     persistence_changed := persistence_changed d;
     device_mode_file := device_mode_file d; trace := trace d |}.

Definition with_observer_list (v : list observer) (d : Device) : Device :=
  {| _serial := _serial d; zone := zone d; dpi := dpi d; poll_rate := poll_rate d;
     _observer_list := v; _parent := _parent d;
     _effect_sync_propagate_up := _effect_sync_propagate_up d;
     _disable_notifications := _disable_notifications d;
     _disable_persistence := _disable_persistence d;
     _is_closed := _is_closed d; _battery_manager := _battery_manager d;
     persistence_changed := persistence_changed d;
     device_mode_file := device_mode_file d; trace := trace d |}.

Definition with_parent (v : option observer) (d : Device) : Device :=
  {| _serial := _serial d; zone := zone d; dpi := dpi d; poll_rate := poll_rate d;
     _observer_list := _observer_list d; _parent := v;
     _effect_sync_propagate_up := _effect_sync_propagate_up d;
     _disable_notifications := _disable_notifications d;
     _disable_persistence := _disable_persistence d;
     _is_closed := _is_closed d; _battery_manager := _battery_manager d;
     persistence_changed := persistence_changed d;
     device_mode_file := device_mode_file d; trace := trace d |}.

Definition with_effect_sync (v : bool) (d : Device) : Device :=
  {| _serial := _serial d; zone := zone d; dpi := dpi d; poll_rate := poll_rate d;
     _observer_list := _observer_list d; _parent := _parent d;
     _effect_sync_propagate_up := v;
     _disable_notifications := _disable_notifications d;
     _disable_persistence := _disable_persistence d;
     _is_closed := _is_closed d; _battery_manager := _battery_manager d;
     persistence_changed := persistence_changed d;
     device_mode_file := device_mode_file d; trace := trace d |}.

Definition with_disable_notify (v : bool) (d : Device) : Device :=
  {| _serial := _serial d; zone := zone d; dpi := dpi d; poll_rate := poll_rate d;
     _observer_list := _observer_list d; _parent := _parent d;
     _effect_sync_propagate_up := _effect_sync_propagate_up d;
     _disable_notifications := v;
     _disable_persistence := _disable_persistence d;
     _is_closed := _is_closed d; _battery_manager := _battery_manager d;
     persistence_changed := persistence_changed d;
     device_mode_file := device_mode_file d; trace := trace d |}.

Definition with_disable_persistence (v : bool) (d : Device) : Device :=
  {| _serial := _serial d; zone := zone d; dpi := dpi d; poll_rate := poll_rate d;
     _observer_list := _observer_list d; _parent := _parent d;
     _effect_sync_propagate_up := _effect_sync_propagate_up d;
     _disable_notifications := _disable_notifications d;
     _disable_persistence := v;
     _is_closed := _is_closed d; _battery_manager := _battery_manager d;
     persistence_changed := persistence_changed d;
     device_mode_file := device_mode_file d; trace := trace d |}.

Definition with_is_closed (v : bool) (d : Device) : Device :=
  {| _serial := _serial d; zone := zone d; dpi := dpi d; poll_rate := poll_rate d;
     _observer_list := _observer_list d; _parent := _parent d;
     _effect_sync_propagate_up := _effect_sync_propagate_up d;
     _disable_notifications := _disable_notifications d;
     _disable_persistence := _disable_persistence d;
     _is_closed := v; _battery_manager := _battery_manager d;
     persistence_changed := persistence_changed d;
     device_mode_file := device_mode_file d; trace := trace d |}.

Definition with_persistence_changed (v : bool) (d : Device) : Device :=
  {| _serial := _serial d; zone := zone d; dpi := dpi d; poll_rate := poll_rate d;
     _observer_list := _observer_list d; _parent := _parent d;
     _effect_sync_propagate_up := _effect_sync_propagate_up d;
     _disable_notifications := _disable_notifications d;
     _disable_persistence := _disable_persistence d;
     _is_closed := _is_closed d; _battery_manager := _battery_manager d;
     persistence_changed := v;
     device_mode_file := device_mode_file d; trace := trace d |}.

Definition with_device_mode_file (v : file_status) (d : Device) : Device :=
  {| _serial := _serial d; zone := zone d; dpi := dpi d; poll_rate := poll_rate d;
     _observer_list := _observer_list d; _parent := _parent d;
     _effect_sync_propagate_up := _effect_sync_propagate_up d;
     _disable_notifications := _disable_notifications d;
     _disable_persistence := _disable_persistence d;
     _is_closed := _is_closed d; _battery_manager := _battery_manager d;
     persistence_changed := persistence_changed d;
     device_mode_file := v; trace := trace d |}.

Definition with_trace (v : list event) (d : Device) : Device :=
  {| _serial := _serial d; zone := zone d; dpi := dpi d; poll_rate := poll_rate d;
     _observer_list := _observer_list d; _parent := _parent d;
     _effect_sync_propagate_up := _effect_sync_propagate_up d;
     _disable_notifications := _disable_notifications d;
     _disable_persistence := _disable_persistence d;
     _is_closed := _is_closed d; _battery_manager := _battery_manager d;
     persistence_changed := persistence_changed d;
     device_mode_file := device_mode_file d; trace := v |}.

(** ** Methods as state transformers that may raise *)

Definition M (A : Type) : Type := Device -> outcome A * Device.

Definition ret {A : Type} (a : A) : M A := fun d => (Return a, d).

Definition raise {A : Type} (e : exn) : M A := fun d => (Raise e, d).

Definition bind {A B : Type} (m : M A) (k : A -> M B) : M B :=
  fun d =>
    match m d with
    | (Return a, d') => k a d'
    | (Raise e, d') => (Raise e, d')
    end.

Notation "x <- m ;; k" := (bind m (fun x => k))
  (at level 100, m at next level, right associativity).
Notation "m ;; k" := (bind m (fun _ => k))
  (at level 100, right associativity).

Definition get : M Device := fun d => (Return d, d).

Definition modify (f : Device -> Device) : M unit := fun d => (Return tt, f d).

(** A pure computation that may raise, run inside a method. *)
Definition lift {A : Type} (o : outcome A) : M A :=
  match o with
  | Return a => ret a
  | Raise e => raise e
  end.

Definition emit (e : event) : M unit :=
  modify (fun d => with_trace (trace d ++ [e]) d).

(** [for x in l: body(x)] *)
Fixpoint for_each {A : Type} (l : list A) (body : A -> M unit) : M unit :=
  match l with
  | [] => ret tt
  | x :: r => body x ;; for_each r body
  end.

(** [try: m except FileNotFoundError: pass] *)
Definition except_FileNotFoundError (m : M unit) : M unit :=
  fun d =>
    match m d with
    | (Raise FileNotFoundError, d') => (Return tt, d')
    | r => r
    end.

(** [self.zone[i]], used as a dictionary. *)
Definition get_zone (i : string) : M zone_dict :=
  fun d =>
    match zone d !! i with
    | Some (Zone z) => (Return z, d)
    | Some (Plain _) => (Raise TypeError, d)
    | None => (Raise KeyError, d)
    end.

(** [colors[k]] *)
Definition item (colors : list Z) (k : nat) : M value :=
  match colors !! k with
  | Some c => ret (VInt c)
  | None => raise IndexError
  end.

(** ** Setters and the device class *)

(** Modelled from the spec: the D-Bus methods that [load_methods] binds to
    the device ([dbus_methods], outside this file). The spec has a zone
    "mutated only through the persistence-setter contract" and every mutation
    "mirrored to the store and broadcast": what a bound method does to the
    device is a sequence of calls of [set_persistence], [notify_observers]
    and [send_effect_event]; its writes to the control files stay outside. *)
Inductive callback : Type :=
| CbSetPersistence (zone_name : option string) (kv : keyval)
| CbNotifyObservers (msg : list value)
| CbSendEffectEvent (effect_name : string) (args : list value).

(** Modelled from the spec: an attribute found by [getattr(self, name, None)]:
    [arity] is what [get_num_arguments] reports for it, [run] the calls it
    makes back into the device for given arguments and device state. The
    device code calls an attribute with as many arguments as it declares. *)
Record Setter : Type := {
  arity : nat;
  run : list value -> Device -> list callback
}.

(** The class constants of a device model, the attributes bound at
    construction and the hooks a subclass overrides ([_suspend_device] and
    [_resume_device] are empty in the base class: [fun _ => []]). [DPI_MAX]
    and the USB ids are integers for every class that is instantiated. *)
Record DeviceClass : Type := {
  METHODS : list string;
  USB_VID : Z;
  USB_PID : Z;
  POLL_RATES : list Z;
  DPI_MAX : Z;
  DRIVER_MODE : bool;
  attrs : string -> option Setter;
  getDPI : option (Device -> Z * Z);
  _suspend_device : Device -> list callback;
  _resume_device : Device -> list callback
}.

Definition ZONES : list string :=
  ["backlight"; "logo"; "scroll"; "left"; "right"; "charging";
   "fast_charging"; "fully_charged"; "channel1"; "channel2"; "channel3";
   "channel4"; "channel5"; "channel6"].

(** The dictionary [__init__] gives every zone. *)
Definition default_zone : zone_dict :=
  {| present := false; active := true; brightness := 75 # 1;
     effect := "spectrum"; colors := default_colors; speed := 1;
     wave_dir := 1; others := [] |}.

(** [__init__], "try reading the effect name from the persistence": the
    stored string is taken as it is, a missing key keeps the default. *)
Definition load_effect (stored : option string) (z : zone_dict) : zone_dict :=
  match stored with
  | Some s => set_key (KEffect s) z
  | None => z
  end.

(** ** The observer bus *)

(** [register_observer] *)
Definition register_observer (o : observer) : M unit :=
  modify (fun d =>
    if bool_decide (o ∈ _observer_list d) then d
    else with_observer_list (_observer_list d ++ [o]) d).

(** [register_parent] *)
Definition register_parent (p : observer) : M unit :=
  modify (with_parent (Some p)).

(** [list.remove]: the first equal item goes; [None] is the [ValueError]. *)
Fixpoint list_remove (o : observer) (l : list observer) : option (list observer) :=
  match l with
  | [] => None
  | x :: r => if bool_decide (x = o) then Some r else cons x <$> list_remove o r
  end.

(** [remove_observer] *)
Definition remove_observer (o : observer) : M unit :=
  modify (fun d =>
    match list_remove o (_observer_list d) with
    | Some l => with_observer_list l d
    | None => d
    end).

(** [notify_observers] *)
Definition notify_observers (msg : list value) : M unit :=
  d <- get ;;
  if negb (_disable_notifications d) then
    (if _effect_sync_propagate_up d then
       match _parent d with
       | Some p => emit (ENotifyParent p msg)
       | None => ret tt
       end
     else ret tt) ;;
    for_each (_observer_list d) (fun o => emit (ENotify o msg))
  else ret tt.

(** [notify] *)
Definition notify (msg : list value) : M unit :=
  d <- get ;;
  for_each (_observer_list d) (fun o => emit (ENotify o msg)).

(** [send_effect_event] *)
Definition send_effect_event (effect_name : string) (args : list value) : M unit :=
  let payload := [VStr "effect"; VSelf; VStr effect_name] in
  notify_observers (payload ++ args).

(** ** Persistence of the in-memory state *)

(** Truth value of the [zone] argument: [None] and [''] are false. *)
Definition truthy (zone_name : option string) : option string :=
  match zone_name with
  | Some EmptyString => None
  | other => other
  end.

(** [set_persistence] *)
Definition set_persistence (zone_name : option string) (kv : keyval) : M unit :=
  d <- get ;;
  if _disable_persistence d then ret tt
  else
    modify (with_persistence_changed true) ;;
    match truthy zone_name with
    | Some zn =>
        z <- get_zone zn ;;
        modify (fun d => with_zone (<[zn := Zone (set_key kv z)]> (zone d)) d)
    | None =>
        modify (fun d => with_zone (<[key_of kv := Plain (value_of kv)]> (zone d)) d)
    end.

Definition run_callback (cb : callback) : M unit :=
  match cb with
  | CbSetPersistence zone_name kv => set_persistence zone_name kv
  | CbNotifyObservers msg => notify_observers msg
  | CbSendEffectEvent effect_name args => send_effect_event effect_name args
  end.

(** A call of a bound attribute: the call is recorded, then the
    attribute calls back into the device. *)
Definition call (name : string) (func : Setter) (args : list value) : M unit :=
  emit (ECall name args) ;;
  d <- get ;;
  for_each (run func args d) run_callback.

(** ** DPI and poll rate *)

(** [min(l, key=key)] after its first item: an item replaces the best one
    only when its key is smaller. *)
Fixpoint min_by (key : Z -> Z) (best : Z) (l : list Z) : Z :=
  match l with
  | [] => best
  | x :: r => if key x <? key best then min_by key x r else min_by key best r
  end.

(** [min(l, key=key)]; the empty list raises. *)
Definition py_min (key : Z -> Z) (l : list Z) : outcome Z :=
  match l with
  | [] => Raise ValueError
  | x :: r => Return (min_by key x r)
  end.

(** First half of [restore_dpi_poll_rate]: the DPI. *)
Definition restore_dpi (C : DeviceClass) : M unit :=
  match attrs C "setDPI" with
  | Some dpi_func =>
      modify (fun d =>
        if fst (dpi d) >? DPI_MAX C then with_dpi (DPI_MAX C, snd (dpi d)) d else d) ;;
      modify (fun d =>
        if snd (dpi d) >? DPI_MAX C then with_dpi (fst (dpi d), DPI_MAX C) d else d) ;;
      d <- get ;;
      call "setDPI" dpi_func [VInt (fst (dpi d)); VInt (snd (dpi d))]
  | None => ret tt
  end.

(** Second half of [restore_dpi_poll_rate]: the poll rate. *)
Definition restore_poll_rate (C : DeviceClass) : M unit :=
  match attrs C "setPollRate" with
  | Some poll_rate_func =>
      d <- get ;;
      (if negb (bool_decide (poll_rate d ∈ POLL_RATES C)) then
         r <- lift (py_min (fun x => Z.abs (x - poll_rate d)) (POLL_RATES C)) ;;
         modify (with_poll_rate r)
       else ret tt) ;;
      d <- get ;;
      call "setPollRate" poll_rate_func [VInt (poll_rate d)]
  | None => ret tt
  end.

(** [restore_dpi_poll_rate] *)
Definition restore_dpi_poll_rate (C : DeviceClass) : M unit :=
  restore_dpi C ;; restore_poll_rate C.

(** ** Brightness *)

(** [getattr(self, name, None)], keeping the name for the record of calls. *)
Definition getattr (C : DeviceClass) (name : string) : option (string * Setter) :=
  pair name <$> attrs C name.

(** The lookup of [active_func] shared by [restore_brightness] and
    [disable_brightness]. *)
Definition find_active_func (C : DeviceClass) (i : string)
  : M (option (string * Setter)) :=
  if bool_decide ("set_" +:+ i +:+ "_active" ∈ METHODS C) then
    zn <- lift (capitalize_first_char i) ;;
    ret (getattr C ("set" +:+ zn +:+ "Active"))
  else ret None.

(** The lookup of [bright_func] shared by the same two methods. *)
Definition find_bright_func (C : DeviceClass) (i : string)
  : M (option (string * Setter)) :=
  if String.eqb i "backlight" then ret (getattr C "setBrightness")
  else if bool_decide ("set_" +:+ i +:+ "_brightness" ∈ METHODS C) then
    zn <- lift (capitalize_first_char i) ;;
    ret (getattr C ("set" +:+ zn +:+ "Brightness"))
  else ret None.

(** [restore_brightness] *)
Definition restore_brightness (C : DeviceClass) : M unit :=
  for_each ZONES (fun i =>
    z <- get_zone i ;;
    if present z then
      active_func <- find_active_func C i ;;
      match active_func with
      | Some (name, func) =>
          z <- get_zone i ;; call name func [VBool (active z)]
      | None => ret tt
      end ;;
      bright_func <- find_bright_func C i ;;
      match bright_func with
      | Some (name, func) =>
          z <- get_zone i ;; call name func [VFloat (brightness z)]
      | None => ret tt
      end
    else ret tt).

(** [disable_brightness] *)
Definition disable_brightness (C : DeviceClass) : M unit :=
  for_each ZONES (fun i =>
    z <- get_zone i ;;
    if present z then
      active_func <- find_active_func C i ;;
      match active_func with
      | Some (name, func) => call name func [VBool false]
      | None => ret tt
      end ;;
      bright_func <- find_bright_func C i ;;
      match bright_func with
      | Some (name, func) => call name func [VInt 0]
      | None => ret tt
      end
    else ret tt).

(** ** Restoring the effect of every zone *)

(** The name composed at the head of the loop body of [restore_effect]. *)
Definition effect_func_name (i effect_name : string) : outcome string :=
  if String.eqb i "backlight" then
    match capitalize_first_char effect_name with
    | Return e => Return ("set" +:+ e)
    | Raise x => Raise x
    end
  else
    match capitalize_first_char i with
    | Return zn =>
        match capitalize_first_char effect_name with
        | Return e => Return ("set" +:+ handle_underscores zn +:+ e)
        | Raise x => Raise x
        end
    | Raise x => Raise x
    end.

(** The name composed when the effect is reset to Spectrum. *)
Definition spectrum_func_name (i : string) : outcome string :=
  if String.eqb i "backlight" then Return "setSpectrum"
  else
    match capitalize_first_char i with
    | Return zn => Return ("set" +:+ zn +:+ "Spectrum")
    | Raise x => Raise x
    end.

(** [self.zone[i]["effect"] = 'spectrum'] *)
Definition reset_to_spectrum (i : string) : M unit :=
  z <- get_zone i ;;
  modify (fun d => with_zone (<[i := Zone (set_key (KEffect "spectrum") z)]> (zone d)) d).

(** The chain on [get_num_arguments(effect_func)]. The two branches that log
    an error and the two that [pass] do nothing to the device. *)
Definition dispatch (name : string) (effect_func : Setter) (z : zone_dict) : M unit :=
  let cs := colors z in
  match arity effect_func with
  | 0%nat => call name effect_func []
  | 1%nat =>
      if String.eqb (effect z) "starlightRandom" then
        call name effect_func [VInt (speed z)]
      else if String.eqb (effect z) "wave" then
        call name effect_func [VInt (wave_dir z)]
      else if String.eqb (effect z) "wheel" then
        call name effect_func [VInt (wave_dir z)]
      else if String.eqb (effect z) "rippleRandomColour" then ret tt
      else ret tt
  | 3%nat =>
      c0 <- item cs 0 ;; c1 <- item cs 1 ;; c2 <- item cs 2 ;;
      call name effect_func [c0; c1; c2]
  | 4%nat =>
      if String.eqb (effect z) "starlightSingle" || String.eqb (effect z) "reactive" then
        c0 <- item cs 0 ;; c1 <- item cs 1 ;; c2 <- item cs 2 ;;
        call name effect_func [c0; c1; c2; VInt (speed z)]
      else if String.eqb (effect z) "ripple" then ret tt
      else ret tt
  | 6%nat =>
      c0 <- item cs 0 ;; c1 <- item cs 1 ;; c2 <- item cs 2 ;;
      c3 <- item cs 3 ;; c4 <- item cs 4 ;; c5 <- item cs 5 ;;
      call name effect_func [c0; c1; c2; c3; c4; c5]
  | 7%nat =>
      c0 <- item cs 0 ;; c1 <- item cs 1 ;; c2 <- item cs 2 ;;
      c3 <- item cs 3 ;; c4 <- item cs 4 ;; c5 <- item cs 5 ;;
      call name effect_func [c0; c1; c2; c3; c4; c5; VInt (speed z)]
  | 9%nat =>
      c0 <- item cs 0 ;; c1 <- item cs 1 ;; c2 <- item cs 2 ;;
      c3 <- item cs 3 ;; c4 <- item cs 4 ;; c5 <- item cs 5 ;;
      c6 <- item cs 6 ;; c7 <- item cs 7 ;; c8 <- item cs 8 ;;
      call name effect_func [c0; c1; c2; c3; c4; c5; c6; c7; c8]
  | _ => ret tt
  end.

(** The body of the loop of [restore_effect] for the zone [i]. *)
Definition restore_zone_effect (C : DeviceClass) (i : string) : M unit :=
  z <- get_zone i ;;
  if present z then
    name <- lift (effect_func_name i (effect z)) ;;
    found <-
      match attrs C name with
      | None =>
          if negb (String.eqb (effect z) "spectrum") then
            reset_to_spectrum i ;;
            name' <- lift (spectrum_func_name i) ;;
            ret (getattr C name')
          else ret None
      | Some effect_func => ret (Some (name, effect_func))
      end ;;
    match found with
    | Some (name', effect_func) =>
        z' <- get_zone i ;; dispatch name' effect_func z'
    | None => ret tt
    end
  else ret tt.

(** [restore_effect] *)
Definition restore_effect (C : DeviceClass) : M unit :=
  for_each ZONES (restore_zone_effect C).

(** ** Device mode, suspend, resume and close *)

(** [set_device_mode]: the file is opened first, then the arguments are
    checked and the two bytes written. *)
Definition set_device_mode (mode_id param : Z) : M unit :=
  d <- get ;;
  match device_mode_file d with
  | FileMissing => raise FileNotFoundError
  | FileDenied => raise PermissionError
  | FilePresent =>
      let mode_id' := if (mode_id =? 0) || (mode_id =? 3) then mode_id else 0 in
      let param' := if negb (param =? 0) then 0 else param in
      emit (EWriteMode mode_id' param')
  end.

(** [suspend_device] *)
Definition suspend_device (C : DeviceClass) : M unit :=
  modify (with_disable_notify true) ;;
  modify (with_disable_persistence true) ;;
  disable_brightness C ;;
  (d <- get ;; for_each (_suspend_device C d) run_callback) ;;
  modify (with_disable_notify false) ;;
  modify (with_disable_persistence false).

(** [resume_device] *)
Definition resume_device (C : DeviceClass) : M unit :=
  modify (with_disable_notify true) ;;
  modify (with_disable_persistence true) ;;
  (if DRIVER_MODE C then set_device_mode 3 0 else ret tt) ;;
  restore_brightness C ;;
  (d <- get ;; for_each (_resume_device C d) run_callback) ;;
  modify (with_disable_notify false) ;;
  modify (with_disable_persistence false).

(** [_close] of the base class. *)
Definition _close : M unit :=
  modify (with_observer_list []) ;;
  d <- get ;;
  if _battery_manager d then emit EBatteryClose else ret tt.

(** [close] *)
Definition close (C : DeviceClass) : M unit :=
  d <- get ;;
  if negb (_is_closed d) then
    (if bool_decide ("get_dpi_xy" ∈ METHODS C) then
       match getDPI C with
       | Some dpi_func => modify (fun d => with_dpi (dpi_func d) d)
       | None => ret tt
       end
     else ret tt) ;;
    (if DRIVER_MODE C then except_FileNotFoundError (set_device_mode 0 0)
     else ret tt) ;;
    _close ;;
    modify (with_is_closed true)
  else ret tt.

(** ** The serial number *)

(** The retry loop of [get_serial]. [serial_file count] is what reading the
    file gives at the attempt [count], [None] for an attempt that raises;
    [tries] is what is left of the five attempts. *)
Fixpoint read_serial (serial_file : nat -> option string) (tries count : nat)
  : string :=
  match tries with
  | O => EmptyString
  | S k =>
      let serial :=
        match serial_file count with
        | Some text => Py.strip text
        | None => EmptyString
        end in
      match Py.len serial with
      | O => read_serial serial_file k (S count)
      | S _ => serial
      end
  end.

(** ["UNKNOWN_{0:04X}{1:04X}_{2:04d}".format(vid, pid, idx)] *)
Definition unknown_serial (vid pid idx : Z) : string :=
  "UNKNOWN_" +:+ Py.format_04X vid +:+ Py.format_04X pid +:+ "_" +:+ Py.format_04d idx.

(** [get_serial]. The counter is the dictionary all devices of the daemon
    share: it comes in and goes out next to the device. *)
Definition get_serial (C : DeviceClass) (serial_file : nat -> option string)
    (counter : gmap (Z * Z) Z) (d : Device)
  : string * Device * gmap (Z * Z) Z :=
  match _serial d with
  | Some s => (s, d, counter)
  | None =>
      let serial := read_serial serial_file 5 0 in
      let '(serial, counter) :=
        if negb (Py.fullmatch_serial serial) then
          let vid := USB_VID C in
          let pid := USB_PID C in
          let idx := default 0 (counter !! (vid, pid)) in
          (unknown_serial vid pid idx, <[(vid, pid) := idx + 1]> counter)
        else (serial, counter) in
      let s := Py.replace_blank serial in
      (s, with_serial (Some s) d, counter)
  end.

(** ** Devices and classes to run the methods on *)

(** [self.zone] as the first loop of [__init__] leaves it. *)
Definition init_zones : gmap string zone_entry :=
  list_to_map ((fun i => (i, Zone default_zone)) <$> ZONES).

(** The attributes as [__init__] sets them before anything is loaded, with
    the control file in place. *)
Definition new_device : Device :=
  {| _serial := None; zone := init_zones; dpi := (1800, 1800); poll_rate := 500;
     _observer_list := []; _parent := None; _effect_sync_propagate_up := false;
     _disable_notifications := false; _disable_persistence := false;
     _is_closed := false; _battery_manager := false;
     persistence_changed := false; device_mode_file := FilePresent;
     trace := [] |}.

(** Marks the zone [i] present and loads [f] into it. *)
Definition load_zone (i : string) (f : zone_dict -> zone_dict) (d : Device) : Device :=
  match zone d !! i with
  | Some (Zone z) =>
      let z' :=
        {| present := true; active := active z; brightness := brightness z;
           effect := effect z; colors := colors z; speed := speed z;
           wave_dir := wave_dir z; others := others z |} in
      with_zone (<[i := Zone (f z')]> (zone d)) d
  | _ => d
  end.

(** An attribute table given by a list of bound names. *)
Fixpoint attrs_of (table : list (string * Setter)) (name : string) : option Setter :=
  match table with
  | [] => None
  | (n, f) :: r => if String.eqb n name then Some f else attrs_of r name
  end.

(** A setter of [n] parameters that only writes to its control file. *)
Definition plain_setter (n : nat) : Setter :=
  {| arity := n; run := fun _ _ => [] |}.

(** A setter of one parameter written the way the D-Bus methods are: it
    stores its argument in the zone and broadcasts the effect. *)
Definition storing_setter (zone_name effect_name : string) (kv : value -> keyval) : Setter :=
  {| arity := 1;
     run := fun args _ =>
       match args with
       | [v] => [CbSetPersistence (Some zone_name) (kv v);
                 CbSendEffectEvent effect_name [v]]
       | _ => []
       end |}.

Definition class_with (methods : list string) (driver_mode : bool)
    (table : list (string * Setter)) : DeviceClass :=
  {| METHODS := methods; USB_VID := 5426; USB_PID := 67;
     POLL_RATES := [125; 500; 1000]; DPI_MAX := 1600;
     DRIVER_MODE := driver_mode; attrs := attrs_of table; getDPI := None;
     _suspend_device := fun _ => []; _resume_device := fun _ => [] |}.

(** The state of a result, and the events a run added to the record. *)
Definition state_of {A : Type} (r : outcome A * Device) : Device := snd r.

Definition is_notification (e : event) : bool :=
  match e with
  | ENotifyParent _ _ | ENotify _ _ => true
  | _ => false
  end.

(** The pair [setLogoActive] stores for its argument. *)
Definition active_of_value (v : value) : keyval :=
  KActive match v with VBool b => b | _ => false end.

(** A device with the logo zone present and one observer, of a class whose
    [setLogoActive] stores and broadcasts. *)
Definition logo_class : DeviceClass :=
  class_with ["set_logo_active"] false
    [("setLogoActive", storing_setter "logo" "setLogoActive" active_of_value)].

Definition logo_device : Device :=
  with_observer_list [5%nat] (load_zone "logo" (fun z => z) new_device).

(** A device whose reads of the serial file give a known bad serial. *)
Definition default_string_file (count : nat) : option string :=
  Some "Default string".

(** The logo zone persisted with the effect "wave" and the direction 2, on
    a class whose [setLogoWave] takes one parameter. *)
Definition logo_wave_class : DeviceClass :=
  class_with ["set_logo_wave"] false [("setLogoWave", plain_setter 1)].

Definition logo_wave_device : Device :=
  load_zone "logo" (fun z => set_key (KWaveDir 2) (load_effect (Some "wave") z))
    new_device.

(** The fast-charging zone persisted with an effect the class has no setter
    for, on a class that has the Spectrum setter of that zone. *)
Definition fast_charging_class : DeviceClass :=
  class_with ["set_fast_charging_spectrum"] false
    [("setFastChargingSpectrum", plain_setter 0)].

Definition fast_charging_device (effect_name : string) : Device :=
  load_zone "fast_charging" (load_effect (Some effect_name)) new_device.

(** The logo zone whose persisted effect name is the empty string. *)
Definition logo_empty_effect_device : Device :=
  load_zone "logo" (load_effect (Some "")) new_device.

(** A device with three observers, a parent and the propagation on. *)
Definition observed_device : Device :=
  with_effect_sync true
    (with_parent (Some 9%nat) (with_observer_list [3; 1; 2]%nat new_device)).

(** A class in driver mode without any setter. *)
Definition driver_class : DeviceClass := class_with [] true [].

(** A mouse whose persisted DPI is (5000, 5000), with [DPI_MAX] 1600. *)
Definition mouse_class : DeviceClass :=
  class_with ["set_dpi_xy"; "set_poll_rate"] false
    [("setDPI", plain_setter 2); ("setPollRate", plain_setter 1)].

Definition mouse_device : Device := with_dpi (5000, 5000) new_device.

(** ** Predicates of the statements *)

(** A string on which [replace(' ', '_')] changes nothing. *)
Definition no_blank (s : string) : Prop := Py.replace_blank s = s.

(** Both flags are set. *)
Definition muted (d : Device) : Prop :=
  _disable_notifications d = true /\ _disable_persistence d = true.

(** Events none of which is a delivery to an observer or to the parent. *)
Definition silent (evs : list event) : Prop :=
  Forall (fun e => is_notification e = false) evs.

(** Every zone of [ZONES] is there as a dictionary. *)
Definition zones_ok (d : Device) : Prop :=
  forall i, i ∈ ZONES -> exists z, zone d !! i = Some (Zone z).

(** [runs P m]: from a muted device, [m] changes nothing but the record, to
    which it adds silent events only; and from a device in [P], it returns. *)
Definition runs (P : Device -> Prop) {A : Type} (m : M A) : Prop :=
  forall d, muted d ->
    exists r evs,
      m d = (r, with_trace (trace d ++ evs) d)
      /\ silent evs
      /\ (P d -> exists a, r = Return a).

(** The flags as a run of [suspend_device] or [resume_device] leaves them:
    cleared on return, still set when an exception left the method. *)
Definition reflag {A : Type} (r : outcome A) (d : Device) : Device :=
  match r with
  | Return _ => with_disable_persistence false (with_disable_notify false d)
  | Raise _ => with_disable_persistence true (with_disable_notify true d)
  end.

(** A pair that keeps a zone restorable: no empty effect name, nine colors. *)
Definition kv_ok (kv : keyval) : Prop :=
  match kv with
  | KEffect s => s <> ""
  | KColors l => length l = 9%nat
  | _ => True
  end.

(** A call back into the device that keeps the zones restorable: a zone
    that is named is one of [ZONES], a key stored without a zone is not the
    name of a zone. *)
Definition cb_ok (cb : callback) : Prop :=
  match cb with
  | CbSetPersistence zone_name kv =>
      match truthy zone_name with
      | Some zn => zn ∈ ZONES /\ kv_ok kv
      | None => key_of kv ∉ ZONES
      end
  | _ => True
  end.

Definition class_ok (C : DeviceClass) : Prop :=
  forall name f args d, attrs C name = Some f -> Forall cb_ok (run f args d).

(** Every zone of [ZONES] is in place with nine colors, and no present zone
    has the empty effect name. *)
Definition restorable (d : Device) : Prop :=
  forall i, i ∈ ZONES ->
    exists z, zone d !! i = Some (Zone z)
              /\ (present z = true -> effect z <> "")
              /\ length (colors z) = 9%nat.

(** ** Reading numbers back *)

(** The value of one digit as [Py.digit_char] writes it. *)
Definition digit_value (c : ascii) : N :=
  if Py.is_digit c then (Py.code c - 48)%N else (Py.code c - 55)%N.

(** The number a string of digits writes in [base], most significant digit
    first. *)
Fixpoint number_of (base : N) (s : string) : N :=
  match s with
  | EmptyString => 0%N
  | String c r => (digit_value c * base ^ N.of_nat (Py.len r) + number_of base r)%N
  end.
(** ** The constructor: zones present, persisted state *)

(** Sequencing of two steps that may raise. *)
Definition and_then {A B : Type} (o : outcome A) (k : A -> outcome B) : outcome B :=
  match o with
  | Return a => k a
  | Raise e => Raise e
  end.

Definition set_present (b : bool) (z : zone_dict) : zone_dict :=
  {| present := b; active := active z; brightness := brightness z;
     effect := effect z; colors := colors z; speed := speed z;
     wave_dir := wave_dir z; others := others z |}.

(** [self.zone[i]["present"] = True] *)
Definition mark_present (i : string) (zones : gmap string zone_entry)
  : outcome (gmap string zone_entry) :=
  match zones !! i with
  | Some (Zone z) => Return (<[i := Zone (set_present true z)]> zones)
  | Some (Plain _) => Raise TypeError
  | None => Raise KeyError
  end.

(** The keys of the local dictionary [effect_methods] of [__init__]. *)
Definition effect_methods : list string :=
  ["backlight_chroma"; "backlight"; "logo"; "scroll"; "left"; "right";
   "charging"; "fast_charging"; "fully_charged"].

(** The test on [METHODS] that marks the backlight zone, and the test of
    the loop on [ZONES]. *)
Definition has_backlight_methods (methods : list string) : bool :=
  bool_decide ("set_static_effect" ∈ methods) || bool_decide ("bw_set_static" ∈ methods).

Definition has_zone_methods (methods : list string) (i : string) : bool :=
  bool_decide ("set_" +:+ i +:+ "_static_classic" ∈ methods)
  || bool_decide ("set_" +:+ i +:+ "_static" ∈ methods)
  || bool_decide ("set_" +:+ i +:+ "_active" ∈ methods)
  || bool_decide ("set_" +:+ i +:+ "_on" ∈ methods).

(** The loop [for i in self.ZONES] that marks the zones present: the zone
    is marked, then [effect_methods[i]] is looked up to add its methods to
    the bus. *)
Fixpoint detect_loop (methods : list string) (l : list string)
    (zones : gmap string zone_entry) : outcome (gmap string zone_entry) :=
  match l with
  | [] => Return zones
  | i :: r =>
      if has_zone_methods methods i then
        and_then (mark_present i zones) (fun zones' =>
          if bool_decide (i ∈ effect_methods) then detect_loop methods r zones'
          else Raise KeyError)
      else detect_loop methods r zones
  end.

(** The two steps of [__init__] that set ["present"]. *)
Definition detect_zones (methods : list string) (zones : gmap string zone_entry)
  : outcome (gmap string zone_entry) :=
  and_then
    (if has_backlight_methods methods then mark_present "backlight" zones
     else Return zones)
    (detect_loop methods ZONES).

(** [str.lower] on ASCII. *)
Definition lower_char (c : ascii) : ascii :=
  if Py.is_upper c then ascii_of_N (Py.code c + 32) else c.

Fixpoint lower (s : string) : string :=
  match s with
  | EmptyString => EmptyString
  | String c r => String (lower_char c) (lower r)
  end.

(** [ConfigParser._convert_to_boolean], behind [getboolean]. *)
Definition convert_to_boolean (value : string) : outcome bool :=
  let v := lower value in
  if bool_decide (v ∈ ["1"; "yes"; "true"; "on"]) then Return true
  else if bool_decide (v ∈ ["0"; "no"; "false"; "off"]) then Return false
  else Raise ValueError.

(** [int(section[key])] inside [try ... except (KeyError, NoOptionError)]:
    a missing key keeps [old], a value that is no integer raises. *)
Definition load_int (stored : option string) (old : Z) : outcome Z :=
  match stored with
  | None => Return old
  | Some s =>
      match Py.int s with
      | Some v => Return v
      | None => Raise ValueError
      end
  end.

Section Load.

(** [float(s)] on the stored brightness, [None] for its [ValueError]. *)
Variable py_float : string -> option Q.

(** The loads of one present zone from the section of the device, in the
    order of [__init__]: effect, active, brightness, colors, speed, wave
    direction. *)
Definition load_zone_fields (section : gmap string string) (i : string)
    (z : zone_dict) : outcome zone_dict :=
  let z1 := load_effect (section !! (i +:+ "_effect")) z in
  and_then
    (match section !! (i +:+ "_active") with
     | Some s => and_then (convert_to_boolean s) (fun b => Return (set_key (KActive b) z1))
     | None => Return z1
     end)
    (fun z2 =>
  and_then
    (match section !! (i +:+ "_brightness") with
     | Some s =>
         match py_float s with
         | Some q => Return (set_key (KBrightness q) z2)
         | None => Raise ValueError
         end
     | None => Return z2
     end)
    (fun z3 =>
  and_then (load_colors (section !! (i +:+ "_colors")) (colors z3)) (fun cs =>
  let z4 := set_key (KColors cs) z3 in
  and_then (load_int (section !! (i +:+ "_speed")) (speed z4)) (fun v =>
  let z5 := set_key (KSpeed v) z4 in
  and_then (load_int (section !! (i +:+ "_wave_dir")) (wave_dir z5)) (fun w =>
  Return (set_key (KWaveDir w) z5)))))).

(** The body of the loop "load last effects" for the zone [i]; [persisted]
    is the section of the device, [None] when [has_section] is false. *)
Definition load_persisted_zone (persisted : option (gmap string string))
    (i : string) (z : zone_dict) : outcome zone_dict :=
  if present z then
    match persisted with
    | Some section => load_zone_fields section i z
    | None => Return z
    end
  else Return z.

End Load.

(** "load last DPI/poll rate state": the DPI. *)
Definition load_dpi (methods : list string) (section : gmap string string)
    (dpi : Z * Z) : outcome (Z * Z) :=
  if bool_decide ("set_dpi_xy" ∈ methods) || bool_decide ("set_dpi_xy_byte" ∈ methods) then
    match section !! "dpi_x" with
    | None => Return dpi
    | Some sx =>
        match Py.int sx with
        | None => Raise ValueError
        | Some x =>
            match section !! "dpi_y" with
            | None => Return (x, snd dpi)
            | Some sy =>
                match Py.int sy with
                | None => Raise ValueError
                | Some y => Return (x, y)
                end
            end
        end
    end
  else Return dpi.

(** "load last DPI/poll rate state": the poll rate. *)
Definition load_poll_rate (methods : list string) (section : gmap string string)
    (poll_rate : Z) : outcome Z :=
  if bool_decide ("set_poll_rate" ∈ methods) then
    load_int (section !! "poll_rate") poll_rate
  else Return poll_rate.

(** A section of the persistence file for the logo zone, and a stand-in
    for [float] on a section without brightness. *)
Definition logo_section : gmap string string :=
  {[ "logo_effect" := "wave"; "logo_active" := "True";
     "logo_speed" := "3"; "logo_wave_dir" := "2" ]}.

Definition no_float (s : string) : option Q := None.
(** Every zone of [ZONES] is the default dictionary, with [flag] for its
    presence. *)
Definition zones_flagged (flag : string -> bool) (zones : gmap string zone_entry)
  : Prop :=
  forall j, j ∈ ZONES -> zones !! j = Some (Zone (set_present (flag j) default_zone)).

(** The fast-charging zone persisted with the effect "wave", on a class
    whose [setFastChargingWave] takes one parameter. *)
Definition fast_charging_wave_class : DeviceClass :=
  class_with ["set_fast_charging_wave"] false
    [("setFastChargingWave", plain_setter 1)].

(** The backlight persisted with the effect "static", on a class whose
    [setStatic] takes three parameters. *)
Definition backlight_static_class : DeviceClass :=
  class_with ["set_static_effect"] false [("setStatic", plain_setter 3)].

Definition backlight_static_device : Device :=
  load_zone "backlight" (load_effect (Some "static")) new_device.

(** Every zone of [ZONES] but [i] is there as a dictionary and is not
    present. *)
Definition only_present (i : string) (d : Device) : Prop :=
  forall j, j ∈ ZONES -> j <> i ->
    exists z, zone d !! j = Some (Zone z) /\ present z = false.

(** ** The getters of the current effect *)

(** [self.zone[i]["effect"]] and its three siblings, which the getters
    [get_current_effect], [get_current_logo_effect], ... return for their
    zone. *)
Definition get_current_zone_effect (i : string) : M string :=
  z <- get_zone i ;; ret (effect z).

Definition get_current_zone_effect_colors (i : string) : M (list Z) :=
  z <- get_zone i ;; ret (colors z).

Definition get_current_zone_effect_speed (i : string) : M Z :=
  z <- get_zone i ;; ret (speed z).

Definition get_current_zone_wave_dir (i : string) : M Z :=
  z <- get_zone i ;; ret (wave_dir z).

Definition get_current_effect : M string :=
  get_current_zone_effect "backlight".
Definition get_current_effect_colors : M (list Z) :=
  get_current_zone_effect_colors "backlight".
Definition get_current_effect_speed : M Z :=
  get_current_zone_effect_speed "backlight".
Definition get_current_wave_dir : M Z :=
  get_current_zone_wave_dir "backlight".

Definition get_current_logo_effect : M string :=
  get_current_zone_effect "logo".
Definition get_current_logo_effect_colors : M (list Z) :=
  get_current_zone_effect_colors "logo".
Definition get_current_logo_effect_speed : M Z :=
  get_current_zone_effect_speed "logo".
Definition get_current_logo_wave_dir : M Z :=
  get_current_zone_wave_dir "logo".

Definition get_current_scroll_effect : M string :=
  get_current_zone_effect "scroll".
Definition get_current_scroll_effect_colors : M (list Z) :=
  get_current_zone_effect_colors "scroll".
Definition get_current_scroll_effect_speed : M Z :=
  get_current_zone_effect_speed "scroll".
Definition get_current_scroll_wave_dir : M Z :=
  get_current_zone_wave_dir "scroll".

Definition get_current_left_effect : M string :=
  get_current_zone_effect "left".
Definition get_current_left_effect_colors : M (list Z) :=
  get_current_zone_effect_colors "left".
Definition get_current_left_effect_speed : M Z :=
  get_current_zone_effect_speed "left".
Definition get_current_left_wave_dir : M Z :=
  get_current_zone_wave_dir "left".

Definition get_current_right_effect : M string :=
  get_current_zone_effect "right".
Definition get_current_right_effect_colors : M (list Z) :=
  get_current_zone_effect_colors "right".
Definition get_current_right_effect_speed : M Z :=
  get_current_zone_effect_speed "right".
Definition get_current_right_wave_dir : M Z :=
  get_current_zone_wave_dir "right".

Definition get_current_charging_effect : M string :=
  get_current_zone_effect "charging".
Definition get_current_charging_effect_colors : M (list Z) :=
  get_current_zone_effect_colors "charging".
Definition get_current_charging_effect_speed : M Z :=
  get_current_zone_effect_speed "charging".
Definition get_current_charging_wave_dir : M Z :=
  get_current_zone_wave_dir "charging".

Definition get_current_fast_charging_effect : M string :=
  get_current_zone_effect "fast_charging".
Definition get_current_fast_charging_effect_colors : M (list Z) :=
  get_current_zone_effect_colors "fast_charging".
Definition get_current_fast_charging_effect_speed : M Z :=
  get_current_zone_effect_speed "fast_charging".
Definition get_current_fast_charging_wave_dir : M Z :=
  get_current_zone_wave_dir "fast_charging".

Definition get_current_fully_charged_effect : M string :=
  get_current_zone_effect "fully_charged".
Definition get_current_fully_charged_effect_colors : M (list Z) :=
  get_current_zone_effect_colors "fully_charged".
Definition get_current_fully_charged_effect_speed : M Z :=
  get_current_zone_effect_speed "fully_charged".
Definition get_current_fully_charged_wave_dir : M Z :=
  get_current_zone_wave_dir "fully_charged".


(** * Properties *)

(** ** The string methods on samples *)

Example capitalize_logo : capitalize_first_char "logo" = Return "Logo".
Proof. reflexivity. Qed.

Example handle_underscores_samples :
  handle_underscores "Fast_charging" = "FastCharging"
  /\ handle_underscores "a__b_1_" = "aB_1_".
Proof. split; reflexivity. Qed.

Example py_int_samples :
  Py.int "255" = Some 255 /\ Py.int " +1_0 " = Some 10 /\ Py.int "-3" = Some (-3)
  /\ Py.int "" = None /\ Py.int "1__0" = None /\ Py.int "ff" = None.
Proof. repeat split; reflexivity. Qed.

(** What [int] skips and what it refuses: a TAB around the digits is
    skipped, the separator 0x1c, which [str.strip] drops, is not; a literal of
    4300 digits is read, one of 4301 digits is refused. *)
Example py_int_limits :
  Py.int (String (ascii_of_N 9) "2") = Some 2
  /\ Py.int (String (ascii_of_N 28) "2") = None
  /\ Py.int ("2" +:+ String (ascii_of_N 31) "") = None
  /\ Py.strip (String (ascii_of_N 28) "2") = "2"
  /\ Py.int (Py.zeros 4299 "7") = Some 7
  /\ Py.int (Py.zeros 4300 "7") = None.
Proof. repeat split; vm_compute; reflexivity. Qed.

Example py_split_samples :
  Py.split_blank "1 2  3" = ["1"; "2"; ""; "3"] /\ Py.split_blank "" = [""].
Proof. split; reflexivity. Qed.

Example py_format_samples :
  Py.format_04X 5426 = "1532" /\ Py.format_04X 67 = "0043"
  /\ Py.format_04X 3847 = "0F07" /\ Py.format_04d 12 = "0012"
  /\ Py.format_04d 12345 = "12345" /\ Py.format_04d (-1) = "-001".
Proof. repeat split; reflexivity. Qed.

(** ** Loading colors *)

Example load_colors_valid :
  load_colors (Some "1 2 3 4 5 6 7 8 9") default_colors
  = Return [1; 2; 3; 4; 5; 6; 7; 8; 9].
Proof. reflexivity. Qed.

Example load_colors_out_of_range :
  load_colors (Some "1 2 3 4 256 6 7 8 9") default_colors = Return default_colors.
Proof. reflexivity. Qed.

Example load_colors_not_a_number :
  load_colors (Some "1 2 x 4 5 6 7 8 9") default_colors = Return default_colors.
Proof. reflexivity. Qed.

Example load_colors_separator_item :
  load_colors (Some ("1 " +:+ String (ascii_of_N 28) "2 3 4 5 6 7 8 9"))
    default_colors
  = Return default_colors.
Proof. vm_compute. reflexivity. Qed.

Example load_colors_missing_key :
  load_colors None default_colors = Return default_colors.
Proof. reflexivity. Qed.

(** The loop on a run of items that all convert to values in range: the
    values overwrite the list from [index] on, as long as they fit, and the
    loop goes on with the items that follow. *)
Lemma store_colors_app (items rest : list string) (vs : list Z) :
  Forall2 (fun it v => Py.int it = Some v) items vs ->
  Forall (fun v => 0 <= v <= 255) vs ->
  forall (index : nat) (colors : list Z),
    (index + length vs <= length colors)%nat ->
    store_colors (items ++ rest) index colors
    = store_colors rest (index + length vs)
        (take index colors ++ vs ++ drop (index + length vs) colors).
Proof.
  induction 1 as [|it v items vs Hit _ IH]; intros Hr index cs Hlen.
  - simpl. rewrite Nat.add_0_r, take_drop. reflexivity.
  - apply Forall_cons in Hr as [Hv Hr]. simpl in Hlen |- *. rewrite Hit.
    assert (Hlt : (index <? length cs)%nat = true) by (apply Nat.ltb_lt; lia).
    rewrite Hlt.
    assert (Hin : (0 <=? v) && (v <=? 255) = true).
    { apply andb_true_intro; split; apply Z.leb_le; lia. }
    rewrite Hin, (IH Hr); [|rewrite length_insert; lia].
    rewrite take_insert_lt, drop_insert_lt by lia.
    destruct (lookup_lt_is_Some_2 cs index) as [x Hx]; [lia|].
    rewrite (take_S_r cs index x Hx).
    replace index with (length (take index cs) + 0)%nat at 2
      by (rewrite length_take; lia).
    rewrite insert_app_r. simpl. rewrite <- app_assoc. simpl.
    replace (index + S (length vs))%nat with (S (index + length vs)) by lia.
    reflexivity.
Qed.

Lemma store_colors_in_range (items : list string) (vs : list Z) :
  Forall2 (fun it v => Py.int it = Some v) items vs ->
  Forall (fun v => 0 <= v <= 255) vs ->
  forall (index : nat) (colors : list Z),
    (index + length vs <= length colors)%nat ->
    store_colors items index colors
    = Return (take index colors ++ vs ++ drop (index + length vs) colors).
Proof.
  intros H2 Hr index cs Hlen.
  rewrite <- (app_nil_r items), (store_colors_app _ [] vs H2 Hr) by lia.
  reflexivity.
Qed.

(** Nine items that convert to values in [0, 255] become the colors. *)
Lemma load_colors_accepts (s : string) (vs colors : list Z) :
  Forall2 (fun it v => Py.int it = Some v) (Py.split_blank s) vs ->
  Forall (fun v => 0 <= v <= 255) vs ->
  length vs = 9%nat -> length colors = 9%nat ->
  load_colors (Some s) colors = Return vs.
Proof.
  intros H2 Hr Hvs Hcs. unfold load_colors, try_load_colors.
  rewrite (store_colors_in_range _ vs H2 Hr) by lia.
  rewrite take_0, drop_ge by (simpl; lia). simpl. rewrite app_nil_r.
  rewrite Hvs. reflexivity.
Qed.

(** An item that is not an integer, or is one out of the range, resets the
    colors to the default palette, when it comes among the first nine and
    the items before it are in range. *)
Lemma load_colors_bad_item (s bad : string) (pre post : list string)
    (vs colors : list Z) :
  Py.split_blank s = pre ++ bad :: post ->
  Forall2 (fun it v => Py.int it = Some v) pre vs ->
  Forall (fun v => 0 <= v <= 255) vs ->
  (length vs < length colors)%nat ->
  (Py.int bad = None \/ exists v, Py.int bad = Some v /\ ~ 0 <= v <= 255) ->
  load_colors (Some s) colors = Return default_colors.
Proof.
  intros Hs H2 Hr Hlen Hbad. unfold load_colors, try_load_colors.
  rewrite Hs, (store_colors_app _ _ vs H2 Hr) by lia. simpl.
  destruct Hbad as [-> | (v & -> & Hv)]; [reflexivity|].
  match goal with |- context [(?a <? ?b)%nat] =>
    assert (Hlt : (a <? b)%nat = true)
  end.
  { apply Nat.ltb_lt. rewrite ?length_app, ?length_take, ?length_drop. simpl. lia. }
  rewrite Hlt.
  assert (Hout : (0 <=? v) && (v <=? 255) = false).
  { apply andb_false_iff. destruct (Z.leb_spec 0 v); [right|left; reflexivity].
    apply Z.leb_gt. lia. }
  rewrite Hout. reflexivity.
Qed.

(** Fewer than nine items, all in range: the list keeps its nine places,
    the check of the length passes and the colors are not reset. *)
Lemma load_colors_too_few (s : string) (vs colors : list Z) :
  Forall2 (fun it v => Py.int it = Some v) (Py.split_blank s) vs ->
  Forall (fun v => 0 <= v <= 255) vs ->
  (length vs <= 9)%nat -> length colors = 9%nat ->
  load_colors (Some s) colors = Return (vs ++ drop (length vs) colors).
Proof.
  intros H2 Hr Hvs Hcs. unfold load_colors, try_load_colors.
  rewrite (store_colors_in_range _ vs H2 Hr) by lia.
  rewrite take_0. simpl.
  assert (Hl : length (vs ++ drop (length vs) colors) = 9%nat).
  { rewrite length_app, length_drop. lia. }
  rewrite Hl. reflexivity.
Qed.

(** A tenth item in range is stored past the end of the list: the
    [IndexError] is not handled and leaves the load. *)
Lemma load_colors_too_many (s item10 : string) (pre post : list string)
    (vs colors : list Z) (v : Z) :
  Py.split_blank s = pre ++ item10 :: post ->
  Forall2 (fun it v => Py.int it = Some v) pre vs ->
  Forall (fun v => 0 <= v <= 255) vs ->
  length vs = 9%nat -> length colors = 9%nat ->
  Py.int item10 = Some v ->
  load_colors (Some s) colors = Raise IndexError.
Proof.
  intros Hs H2 Hr Hvs Hcs Hv. unfold load_colors, try_load_colors.
  rewrite Hs, (store_colors_app _ _ vs H2 Hr) by lia. simpl. rewrite Hv.
  match goal with |- context [(?a <? ?b)%nat] =>
    assert (Hlt : (a <? b)%nat = false)
  end.
  { apply Nat.ltb_ge. rewrite ?length_app, ?length_take, ?length_drop. simpl. lia. }
  rewrite Hlt. reflexivity.
Qed.

(** C2. The specification has every colors string of the wrong length reset to the
    default palette and the load never fail. On the code, a string of fewer
    than nine integers in range overwrites the first colors of the zone's
    list and passes the check of the length, which looks at the zone's list
    and not at the number of items: the colors are the new values followed
    by what the list held, not the default palette. A string of more than
    nine integers in range raises an [IndexError] at the tenth assignment,
    which no handler of the [try] catches: the load fails. *)
Theorem load_colors_wrong_length (s : string) (vs colors : list Z) :
  Forall2 (fun it v => Py.int it = Some v) (Py.split_blank s) vs ->
  Forall (fun v => 0 <= v <= 255) vs ->
  length colors = 9%nat ->
  ((length vs < 9)%nat ->
   load_colors (Some s) colors = Return (vs ++ drop (length vs) colors))
  /\ ((length vs > 9)%nat -> load_colors (Some s) colors = Raise IndexError).
Proof.
  intros H2 Hr Hcs. split; intros Hlen.
  - apply load_colors_too_few; [exact H2|exact Hr|lia|exact Hcs].
  - pose proof (Forall2_length _ _ _ H2) as Hl.
    destruct (lookup_lt_is_Some_2 vs 9) as [v Hv]; [lia|].
    destruct (lookup_lt_is_Some_2 (Py.split_blank s) 9) as [it Hit]; [lia|].
    apply (load_colors_too_many s it (take 9 (Py.split_blank s))
             (drop 10 (Py.split_blank s)) (take 9 vs) colors v).
    + rewrite <- (take_drop_middle _ 9 it Hit) at 1. reflexivity.
    + apply Forall2_take, H2.
    + apply Forall_take, Hr.
    + rewrite length_take. lia.
    + exact Hcs.
    + exact (Forall2_lookup_lr _ _ _ 9%nat it v H2 Hit Hv).
Qed.

(** The statement of C2 on the strings "1 2 3" and of ten zeros, as the
    constructor finds the zone's list. *)
Lemma load_colors_wrong_length_witness :
  load_colors (Some "1 2 3") default_colors
  = Return [1; 2; 3; 0; 255; 255; 0; 0; 255]
  /\ load_colors (Some "0 0 0 0 0 0 0 0 0 0") default_colors = Raise IndexError.
Proof.
  split.
  - apply (load_colors_wrong_length "1 2 3" [1; 2; 3] default_colors).
    + vm_compute (Py.split_blank _). repeat constructor.
    + repeat constructor; lia.
    + reflexivity.
    + simpl. lia.
  - apply (load_colors_wrong_length "0 0 0 0 0 0 0 0 0 0"
             [0; 0; 0; 0; 0; 0; 0; 0; 0; 0] default_colors).
    + vm_compute (Py.split_blank _). repeat constructor.
    + repeat constructor; lia.
    + reflexivity.
    + simpl. lia.
Defined.

(** ** The serial number *)

(** What [fullmatch_serial] decides: at least one character, and every
    character a decimal digit or a capital letter. *)
Lemma fullmatch_serial_true (s : string) :
  Py.fullmatch_serial s = true <->
  s <> EmptyString
  /\ Forall (fun c => Py.is_digit c = true \/ Py.is_upper c = true)
       (list_ascii_of_string s).
Proof.
  assert (Hall : forall t, Py.all_serial_chars t = true <->
            Forall (fun c => Py.is_digit c = true \/ Py.is_upper c = true)
              (list_ascii_of_string t)).
  { induction t as [|c t IH]; simpl.
    - split; [constructor|reflexivity].
    - rewrite andb_true_iff, orb_true_iff, Forall_cons, IH. reflexivity. }
  destruct s as [|c s].
  - simpl. split; [discriminate|]. intros [H _]. contradiction.
  - change (Py.fullmatch_serial (String c s)) with (Py.all_serial_chars (String c s)).
    rewrite Hall. split; [intros H; split; [discriminate|exact H]|intros [_ H]; exact H].
Qed.

Example known_bad_serials :
  Py.fullmatch_serial "" = false
  /\ Py.fullmatch_serial "Default string" = false
  /\ Py.fullmatch_serial "empty (NULL)" = false
  /\ Py.fullmatch_serial "PM1234567890AB" = true.
Proof. repeat split; reflexivity. Qed.

Lemma no_blank_cons (c : ascii) (s : string) :
  Py.is_space_char c = false -> no_blank s -> no_blank (String c s).
Proof. unfold no_blank. intros Hc Hs. simpl. rewrite Hc, Hs. reflexivity. Qed.

Lemma no_blank_app (a b : string) :
  no_blank a -> no_blank b -> no_blank (a +:+ b).
Proof.
  unfold no_blank. induction a as [|c a IH]; simpl; intros Ha Hb; [exact Hb|].
  injection Ha as Hc Ha. rewrite Hc, (IH Ha Hb). reflexivity.
Qed.

Lemma digit_char_not_blank (d : N) :
  (d < 16)%N -> Py.is_space_char (Py.digit_char d) = false.
Proof.
  intros Hd.
  assert (H : In d (map N.of_nat (seq 0 16))).
  { apply in_map_iff. exists (N.to_nat d). split; [lia|]. apply in_seq. lia. }
  simpl in H.
  repeat (destruct H as [<- | H]; [reflexivity|]). contradiction.
Qed.

Lemma digits_of_no_blank (fuel : nat) (base n : N) (acc : string) :
  (0 < base <= 16)%N -> no_blank acc -> no_blank (Py.digits_of fuel base n acc).
Proof.
  intros Hb. revert n acc. induction fuel as [|k IH]; simpl; intros n acc Hacc.
  - exact Hacc.
  - assert (Hd : no_blank (String (Py.digit_char (n mod base)) acc)).
    { apply no_blank_cons; [|exact Hacc]. apply digit_char_not_blank.
      pose proof (N.mod_lt n base). lia. }
    destruct (n / base =? 0)%N; [exact Hd|]. apply IH, Hd.
Qed.

Lemma zeros_no_blank (k : nat) (s : string) : no_blank s -> no_blank (Py.zeros k s).
Proof.
  intros Hs. induction k as [|k IH]; simpl; [exact Hs|].
  apply no_blank_cons; [reflexivity|exact IH].
Qed.

Lemma format_04_no_blank (base : N) (z : Z) :
  (0 < base <= 16)%N -> no_blank (Py.format_04 base z).
Proof.
  intros Hb. unfold Py.format_04.
  assert (Hd : no_blank (Py.str_base base (Z.abs_N z))).
  { apply digits_of_no_blank; [exact Hb|reflexivity]. }
  destruct (z <? 0).
  - apply no_blank_cons; [reflexivity|]. apply zeros_no_blank, Hd.
  - apply zeros_no_blank, Hd.
Qed.

(** A generated serial holds no blank: the last step of [get_serial]
    returns it as it is. *)
Lemma unknown_serial_no_blank (vid pid idx : Z) :
  Py.replace_blank (unknown_serial vid pid idx) = unknown_serial vid pid idx.
Proof.
  unfold unknown_serial.
  repeat apply no_blank_app;
    try (apply format_04_no_blank; lia); reflexivity.
Qed.

Lemma append_inv_head (p x y : string) : p +:+ x = p +:+ y -> x = y.
Proof.
  induction p as [|c p IH]; simpl; intros H; [exact H|].
  injection H as H. exact (IH H).
Qed.

(** The generated serials of the indices 0 and 1 differ, whatever the ids. *)
Lemma unknown_serial_0_1 (vid pid : Z) :
  unknown_serial vid pid 0 <> unknown_serial vid pid 1.
Proof.
  unfold unknown_serial. intros H.
  do 4 apply append_inv_head in H. discriminate H.
Qed.

(** A serial already resolved is returned from the cache: nothing is read
    and the counter is left alone. *)
Lemma get_serial_cached (C : DeviceClass) (serial_file : nat -> option string)
    (counter : gmap (Z * Z) Z) (d : Device) (s : string) :
  _serial d = Some s -> get_serial C serial_file counter d = (s, d, counter).
Proof. intros H. unfold get_serial. rewrite H. reflexivity. Qed.

(** A serial that matches is kept, blanks replaced, and the counter is
    left alone. *)
Lemma get_serial_valid (C : DeviceClass) (serial_file : nat -> option string)
    (counter : gmap (Z * Z) Z) (d : Device) :
  _serial d = None ->
  Py.fullmatch_serial (read_serial serial_file 5 0) = true ->
  get_serial C serial_file counter d
  = (Py.replace_blank (read_serial serial_file 5 0),
     with_serial (Some (Py.replace_blank (read_serial serial_file 5 0))) d,
     counter).
Proof. intros H Hm. unfold get_serial. rewrite H, Hm. reflexivity. Qed.

(** C4. When the serial read from the device (the result of the retry loop)
    is not one or more decimal digits and capital letters, [get_serial]
    returns [UNKNOWN_{VID:04X}{PID:04X}_{index:04d}], where the index is the
    entry of the shared counter for the pair of ids, 0 when there is none,
    and the counter goes up by one. A second device of the same ids with an
    invalid serial, asked after the first one on the same counter, gets the
    index 1 after the index 0, and the two serials differ. *)
Theorem get_serial_generated (C : DeviceClass)
    (serial_file : nat -> option string) (counter : gmap (Z * Z) Z) (d : Device) :
  _serial d = None ->
  Py.fullmatch_serial (read_serial serial_file 5 0) = false ->
  let vid := USB_VID C in
  let pid := USB_PID C in
  let idx := default 0 (counter !! (vid, pid)) in
  let s := "UNKNOWN_" +:+ Py.format_04X vid +:+ Py.format_04X pid +:+ "_"
           +:+ Py.format_04d idx in
  get_serial C serial_file counter d
  = (s, with_serial (Some s) d, <[(vid, pid) := idx + 1]> counter)
  /\ forall (serial_file2 : nat -> option string) (d2 : Device),
       counter !! (vid, pid) = None ->
       _serial d2 = None ->
       Py.fullmatch_serial (read_serial serial_file2 5 0) = false ->
       let '(s1, _, counter1) := get_serial C serial_file counter d in
       let '(s2, _, counter2) := get_serial C serial_file2 counter1 d2 in
       s1 = unknown_serial vid pid 0 /\ s2 = unknown_serial vid pid 1
       /\ s1 <> s2 /\ counter2 !! (vid, pid) = Some 2.
Proof.
  intros Hd Hbad vid pid idx s.
  assert (Hgen : forall f c d0, _serial d0 = None ->
            Py.fullmatch_serial (read_serial f 5 0) = false ->
            get_serial C f c d0
            = (unknown_serial vid pid (default 0 (c !! (vid, pid))),
               with_serial (Some (unknown_serial vid pid (default 0 (c !! (vid, pid))))) d0,
               <[(vid, pid) := default 0 (c !! (vid, pid)) + 1]> c)).
  { intros f c d0 H0 Hf. unfold get_serial. rewrite H0, Hf.
    cbn [negb]. cbv beta iota zeta. fold vid pid.
    rewrite unknown_serial_no_blank. reflexivity. }
  split; [exact (Hgen _ _ _ Hd Hbad)|].
  intros f2 d2 Hnone Hd2 Hbad2.
  rewrite (Hgen _ _ _ Hd Hbad), (Hgen _ _ _ Hd2 Hbad2).
  rewrite Hnone, lookup_insert_eq. simpl.
  repeat split; [apply unknown_serial_0_1|].
  rewrite lookup_insert_eq. reflexivity.
Qed.

(** The statement of C4 on the Razer vendor id, two devices that report
    "Default string" and a counter with no entry. *)
Lemma get_serial_generated_witness :
  _serial new_device = None
  /\ Py.fullmatch_serial (read_serial default_string_file 5 0) = false
  /\ get_serial logo_class default_string_file ∅ new_device
     = ("UNKNOWN_15320043_0000",
        with_serial (Some "UNKNOWN_15320043_0000") new_device,
        {[ (5426, 67) := 1 ]}).
Proof.
  split; [reflexivity|]. split; [reflexivity|].
  exact (proj1 (get_serial_generated logo_class default_string_file ∅ new_device
                  eq_refl eq_refl)).
Defined.

(** ** Running methods *)

Lemma with_trace_same (d : Device) : with_trace (trace d) d = d.
Proof. destruct d. reflexivity. Qed.

Lemma with_trace_nil (d : Device) : with_trace (trace d ++ []) d = d.
Proof. rewrite app_nil_r. apply with_trace_same. Qed.

Lemma with_trace_twice (d : Device) (a b : list event) :
  with_trace (trace (with_trace (trace d ++ a) d) ++ b) (with_trace (trace d ++ a) d)
  = with_trace (trace d ++ a ++ b) d.
Proof. simpl. rewrite <- app_assoc. reflexivity. Qed.

Lemma for_each_app {A : Type} (l1 l2 : list A) (body : A -> M unit) (d : Device) :
  for_each (l1 ++ l2) body d = (for_each l1 body ;; for_each l2 body) d.
Proof.
  revert d. induction l1 as [|x l1 IH]; intros d; simpl.
  - reflexivity.
  - unfold bind in IH |- *. destruct (body x d) as [[[]|e] d']; [|reflexivity].
    apply IH.
Qed.

(** A loop that only records one event per item. *)
Lemma for_each_emit {A : Type} (l : list A) (f : A -> event) (d : Device) :
  for_each l (fun x => emit (f x)) d
  = (Return tt, with_trace (trace d ++ map f l) d).
Proof.
  revert d. induction l as [|x l IH]; intros d; simpl.
  - rewrite with_trace_nil. reflexivity.
  - unfold bind, emit, modify. rewrite IH. simpl.
    rewrite <- app_assoc. reflexivity.
Qed.

(** A call records itself, then runs what the attribute calls back. *)
Lemma call_eq (name : string) (func : Setter) (args : list value) (d : Device) :
  call name func args d
  = for_each (run func args (with_trace (trace d ++ [ECall name args]) d))
      run_callback (with_trace (trace d ++ [ECall name args]) d).
Proof. reflexivity. Qed.

(** ** The observer bus *)

(** Registering observers one after the other keeps the order of their
    first registration. *)
Lemma register_observers_order (os : list observer) (d : Device) :
  NoDup (_observer_list d ++ os) ->
  for_each os register_observer d
  = (Return tt, with_observer_list (_observer_list d ++ os) d).
Proof.
  revert d. induction os as [|o os IH]; intros d Hnd; simpl.
  - rewrite app_nil_r. destruct d. reflexivity.
  - unfold bind. unfold register_observer at 1. unfold modify.
    assert (Hno : o ∉ _observer_list d).
    { apply NoDup_app in Hnd as (_ & Hd & _). intros Hin.
      apply (Hd o Hin). left. }
    rewrite (bool_decide_eq_false_2 _ Hno).
    rewrite IH; simpl; rewrite <- app_assoc; [reflexivity|exact Hnd].
Qed.

Example register_twice :
  _observer_list (state_of (for_each [3; 1; 3; 2]%nat register_observer new_device))
  = [3; 1; 2]%nat.
Proof. reflexivity. Qed.

Example remove_unregistered :
  remove_observer 7%nat new_device = (Return tt, new_device).
Proof. reflexivity. Qed.

(** C6. [notify_observers] delivers nothing when notifications are
    disabled. When they are enabled, with the propagation to the parent on
    and a parent registered, the event goes to the parent first, then to
    every observer in the order of the observer list; without propagation or
    without a parent it goes to the observers alone. The observer list is in
    registration order. *)
Theorem notify_observers_delivery (msg : list value) (d : Device) :
  (_disable_notifications d = true -> notify_observers msg d = (Return tt, d))
  /\ (forall p : observer,
        _disable_notifications d = false ->
        _effect_sync_propagate_up d = true -> _parent d = Some p ->
        notify_observers msg d
        = (Return tt,
           with_trace (trace d ++ ENotifyParent p msg
                         :: map (fun o => ENotify o msg) (_observer_list d)) d))
  /\ (_disable_notifications d = false ->
      _effect_sync_propagate_up d = false \/ _parent d = None ->
      notify_observers msg d
      = (Return tt,
         with_trace (trace d ++ map (fun o => ENotify o msg) (_observer_list d)) d))
  /\ (forall os : list observer,
        _observer_list d = [] -> NoDup os ->
        _observer_list (state_of (for_each os register_observer d)) = os).
Proof.
  repeat split.
  - intros H. unfold notify_observers, bind, get. rewrite H. reflexivity.
  - intros p H Hup Hp. unfold notify_observers, bind, get.
    rewrite H, Hup, Hp. simpl. rewrite for_each_emit. simpl.
    rewrite <- app_assoc. reflexivity.
  - intros H Hno. unfold notify_observers, bind, get. rewrite H. simpl.
    assert (Hskip : (if _effect_sync_propagate_up d
                     then match _parent d with
                          | Some p => emit (ENotifyParent p msg)
                          | None => ret tt
                          end
                     else ret tt) d = (Return tt, d)).
    { destruct Hno as [-> | ->]; [reflexivity|].
      destruct (_effect_sync_propagate_up d); reflexivity. }
    rewrite Hskip. apply for_each_emit.
  - intros os Hnil Hnd. rewrite register_observers_order.
    + simpl. rewrite Hnil. reflexivity.
    + rewrite Hnil. exact Hnd.
Qed.

(** ** DPI and poll rate *)

(** [min_by] returns an item of least key among [best] and the list. *)
Lemma min_by_least (key : Z -> Z) (l : list Z) (best : Z) :
  (min_by key best l = best \/ In (min_by key best l) l)
  /\ key (min_by key best l) <= key best
  /\ forall x, In x l -> key (min_by key best l) <= key x.
Proof.
  revert best. induction l as [|y l IH]; intros best; simpl.
  - repeat split; [left; reflexivity|lia|contradiction].
  - destruct (Z.ltb_spec (key y) (key best)) as [Hlt|Hge].
    + destruct (IH y) as (Hin & Hle & Hall). repeat split.
      * right. destruct Hin as [-> | Hin]; [left; reflexivity|right; exact Hin].
      * lia.
      * intros x [<- | Hx]; [exact Hle|exact (Hall x Hx)].
    + destruct (IH best) as (Hin & Hle & Hall). repeat split.
      * destruct Hin as [-> | Hin]; [left; reflexivity|right; right; exact Hin].
      * exact Hle.
      * intros x [<- | Hx]; [lia|exact (Hall x Hx)].
Qed.

Lemma py_min_least (key : Z -> Z) (l : list Z) :
  l <> [] ->
  exists r, py_min key l = Return r /\ In r l /\ forall x, In x l -> key r <= key x.
Proof.
  destruct l as [|y l]; [contradiction|]. intros _. simpl.
  destruct (min_by_least key l y) as (Hin & Hle & Hall).
  exists (min_by key y l). split; [reflexivity|]. split.
  - destruct Hin as [-> | Hin]; [left; reflexivity|right; exact Hin].
  - intros x [<- | Hx]; [exact Hle|exact (Hall x Hx)].
Qed.

Lemma with_dpi_same (d : Device) : with_dpi (fst (dpi d), snd (dpi d)) d = d.
Proof. destruct d as [? ? [] ? ? ? ? ? ? ? ? ? ? ?]. reflexivity. Qed.

Lemma with_poll_rate_same (d : Device) : with_poll_rate (poll_rate d) d = d.
Proof. destruct d. reflexivity. Qed.

(** The DPI half: both components are cut down to [DPI_MAX], stored, and
    the setter is called with the stored pair. *)
Lemma restore_dpi_clamps (C : DeviceClass) (d : Device) (dpi_func : Setter) :
  attrs C "setDPI" = Some dpi_func ->
  restore_dpi C d
  = call "setDPI" dpi_func
      [VInt (Z.min (fst (dpi d)) (DPI_MAX C)); VInt (Z.min (snd (dpi d)) (DPI_MAX C))]
      (with_dpi (Z.min (fst (dpi d)) (DPI_MAX C), Z.min (snd (dpi d)) (DPI_MAX C)) d).
Proof.
  intros Hf. unfold restore_dpi. rewrite Hf. unfold bind, modify, get.
  destruct d as [? ? [x y] ? ? ? ? ? ? ? ? ? ? ?].
  cbn [dpi fst snd].
  destruct (Z.gtb_spec x (DPI_MAX C)) as [Hx|Hx]; cbn [dpi with_dpi fst snd];
    destruct (Z.gtb_spec y (DPI_MAX C)) as [Hy|Hy]; cbn [dpi with_dpi fst snd];
    first [ rewrite (Z.min_l x) by lia | rewrite (Z.min_r x) by lia ];
    first [ rewrite (Z.min_l y) by lia | rewrite (Z.min_r y) by lia ];
    reflexivity.
Qed.

(** The poll-rate half: a rate that is not available is replaced by an
    available one at the least distance, stored, and the setter is called
    with the stored rate. *)
Lemma restore_poll_rate_nearest (C : DeviceClass) (d : Device) (poll_rate_func : Setter) :
  attrs C "setPollRate" = Some poll_rate_func ->
  POLL_RATES C <> [] ->
  exists r,
    In r (POLL_RATES C)
    /\ (forall x, In x (POLL_RATES C) ->
          Z.abs (r - poll_rate d) <= Z.abs (x - poll_rate d))
    /\ (In (poll_rate d) (POLL_RATES C) -> r = poll_rate d)
    /\ restore_poll_rate C d
       = call "setPollRate" poll_rate_func [VInt r] (with_poll_rate r d).
Proof.
  intros Hf Hne. unfold restore_poll_rate. rewrite Hf. unfold bind, get.
  destruct (decide (poll_rate d ∈ POLL_RATES C)) as [Hin|Hout].
  - exists (poll_rate d). rewrite (bool_decide_eq_true_2 _ Hin). simpl.
    rewrite with_poll_rate_same.
    split; [apply list_elem_of_In, Hin|]. split; [|split; reflexivity].
    intros x _. rewrite Z.sub_diag. simpl. lia.
  - rewrite (bool_decide_eq_false_2 _ Hout). simpl.
    destruct (py_min_least (fun x => Z.abs (x - poll_rate d)) (POLL_RATES C) Hne)
      as (r & Hr & Hin & Hall).
    exists r. rewrite Hr. simpl.
    split; [exact Hin|]. split; [exact Hall|]. split; [|reflexivity].
    intros Hp. apply list_elem_of_In in Hp. contradiction.
Qed.

(** C7. A persisted DPI component above [DPI_MAX] is replaced by
    [DPI_MAX], the nearest value the device accepts, before the DPI setter is
    called, and a component that is not above it is passed as it is; a
    persisted poll rate that is not among [POLL_RATES] is replaced by an
    available rate at the least distance before the poll-rate setter is
    called. With (5000, 5000) persisted and [DPI_MAX] 1600 the DPI setter is
    called with (1600, 1600). *)
Theorem restore_dpi_poll_rate_clamps (C : DeviceClass) (d : Device) :
  (forall dpi_func : Setter,
      attrs C "setDPI" = Some dpi_func ->
      let x := Z.min (fst (dpi d)) (DPI_MAX C) in
      let y := Z.min (snd (dpi d)) (DPI_MAX C) in
      restore_dpi C d
      = call "setDPI" dpi_func [VInt x; VInt y] (with_dpi (x, y) d)
      /\ (fst (dpi d) > DPI_MAX C -> x = DPI_MAX C)
      /\ (snd (dpi d) > DPI_MAX C -> y = DPI_MAX C)
      /\ (forall v, v <= DPI_MAX C ->
            Z.abs (x - fst (dpi d)) <= Z.abs (v - fst (dpi d))
            /\ Z.abs (y - snd (dpi d)) <= Z.abs (v - snd (dpi d))))
  /\ (forall poll_rate_func : Setter,
        attrs C "setPollRate" = Some poll_rate_func ->
        POLL_RATES C <> [] ->
        exists r,
          In r (POLL_RATES C)
          /\ (forall x, In x (POLL_RATES C) ->
                Z.abs (r - poll_rate d) <= Z.abs (x - poll_rate d))
          /\ (In (poll_rate d) (POLL_RATES C) -> r = poll_rate d)
          /\ restore_poll_rate C d
             = call "setPollRate" poll_rate_func [VInt r] (with_poll_rate r d))
  /\ restore_dpi_poll_rate C d = (restore_dpi C ;; restore_poll_rate C) d
  /\ restore_dpi_poll_rate mouse_class (with_poll_rate 300 mouse_device)
     = (Return tt,
        with_trace [ECall "setDPI" [VInt 1600; VInt 1600];
                    ECall "setPollRate" [VInt 125]]
          (with_poll_rate 125 (with_dpi (1600, 1600) new_device))).
Proof.
  split; [|split; [|split]].
  - intros f Hf x y. split; [apply restore_dpi_clamps, Hf|].
    subst x y. split; [lia|]. split; [lia|]. intros v Hv. split; lia.
  - intros f Hf Hne. apply restore_poll_rate_nearest; assumption.
  - reflexivity.
  - reflexivity.
Qed.

(** ** Close *)

Example close_driver_mode_file_gone :
  close (class_with [] true [])
    (with_observer_list [4%nat] (with_device_mode_file FileMissing new_device))
  = (Return tt, with_is_closed true (with_device_mode_file FileMissing new_device)).
Proof. reflexivity. Qed.

Example close_driver_mode_file_denied :
  close (class_with [] true []) (with_device_mode_file FileDenied new_device)
  = (Raise PermissionError, with_device_mode_file FileDenied new_device).
Proof. reflexivity. Qed.

(** C8, amended. On a closed device [close] returns at once and leaves the
    device as it is. On an open device whose control file does not refuse to
    be opened, [close] returns with the device marked closed: the DPI is the
    one read from the device when the class has [get_dpi_xy] and the getter
    is bound, the mode (0, 0) is written when the class is in driver mode and
    the control file is there (a missing file is passed over), the observer
    list is empty, the battery manager is closed when there is one; closing
    again changes nothing. On an open device of a class in driver mode whose
    control file refuses to be opened, the [PermissionError] leaves [close]:
    the DPI has been read, but the device is not marked closed, keeps its
    observers, and nothing was written or closed; closing again raises
    again. *)
Theorem close_idempotent (C : DeviceClass) (d : Device) :
  (_is_closed d = true -> close C d = (Return tt, d))
  /\ (_is_closed d = false ->
      (DRIVER_MODE C = true -> device_mode_file d <> FileDenied) ->
      exists d',
        close C d = (Return tt, d')
        /\ _is_closed d' = true
        /\ dpi d' = (if bool_decide ("get_dpi_xy" ∈ METHODS C)
                     then match getDPI C with
                          | Some dpi_func => dpi_func d
                          | None => dpi d
                          end
                     else dpi d)
        /\ trace d' = trace d
                      ++ (if DRIVER_MODE C
                          then match device_mode_file d with
                               | FilePresent => [EWriteMode 0 0]
                               | _ => []
                               end
                          else [])
                      ++ (if _battery_manager d then [EBatteryClose] else [])
        /\ _observer_list d' = []
        /\ zone d' = zone d
        /\ close C d' = (Return tt, d'))
  /\ (_is_closed d = false -> DRIVER_MODE C = true ->
      device_mode_file d = FileDenied ->
      exists d',
        close C d = (Raise PermissionError, d')
        /\ _is_closed d' = false
        /\ dpi d' = (if bool_decide ("get_dpi_xy" ∈ METHODS C)
                     then match getDPI C with
                          | Some dpi_func => dpi_func d
                          | None => dpi d
                          end
                     else dpi d)
        /\ trace d' = trace d
        /\ _observer_list d' = _observer_list d
        /\ zone d' = zone d
        /\ fst (close C d') = Raise PermissionError).
Proof.
  assert (Hdenied : forall d0, _is_closed d0 = false -> DRIVER_MODE C = true ->
            device_mode_file d0 = FileDenied ->
            close C d0
            = (Raise PermissionError,
               if bool_decide ("get_dpi_xy" ∈ METHODS C)
               then match getDPI C with
                    | Some dpi_func => with_dpi (dpi_func d0) d0
                    | None => d0
                    end
               else d0)).
  { intros d0 Hopen Hdm Hfile.
    unfold close, bind, get. rewrite Hopen, Hdm. cbn [negb].
    unfold except_FileNotFoundError, set_device_mode, modify, bind, get, ret, raise.
    destruct (bool_decide ("get_dpi_xy" ∈ METHODS C));
      destruct (getDPI C) as [dpi_func|];
      cbn [device_mode_file with_dpi]; rewrite Hfile; reflexivity. }
  split; [|split].
  - intros H. unfold close, bind, get. rewrite H. reflexivity.
  - intros Hopen Hfile.
    unfold close, bind, get. rewrite Hopen. cbn [negb].
    unfold _close, except_FileNotFoundError, set_device_mode, emit, modify,
      bind, get, ret, raise.
    destruct (bool_decide ("get_dpi_xy" ∈ METHODS C));
      destruct (getDPI C) as [dpi_func|];
      destruct (DRIVER_MODE C);
      try (specialize (Hfile eq_refl));
      destruct d as [? ? ? ? ? ? ? ? ? ? bm ? mf ?];
      cbn in Hopen, Hfile |- *;
      destruct mf; try contradiction;
      destruct bm; cbn;
      eexists; (split; [reflexivity|]);
      cbn; rewrite <- ?app_assoc, ?app_nil_r; repeat split; reflexivity.
  - intros Hopen Hdm Hfile. eexists. split; [apply Hdenied; assumption|].
    destruct (bool_decide ("get_dpi_xy" ∈ METHODS C));
      destruct (getDPI C) as [dpi_func|];
      (split; [exact Hopen|]); (split; [reflexivity|]); (split; [reflexivity|]);
      (split; [reflexivity|]); (split; [reflexivity|]);
      rewrite Hdenied by assumption; reflexivity.
Qed.

(** C8 as it is stated fails on a device with three observers, of a class in
    driver mode, whose control file refuses to be opened: the first call of
    [close] raises, does not mark the device closed and leaves the observers
    registered, and a second call is no no-op, it raises again. *)
Lemma close_leaves_open_on_permission_error :
  _is_closed (with_device_mode_file FileDenied observed_device) = false
  /\ close driver_class (with_device_mode_file FileDenied observed_device)
     = (Raise PermissionError, with_device_mode_file FileDenied observed_device)
  /\ _observer_list (with_device_mode_file FileDenied observed_device)
     = [3; 1; 2]%nat
  /\ ~ (exists d',
          close driver_class (with_device_mode_file FileDenied observed_device)
          = (Return tt, d')
          /\ _is_closed d' = true)
  /\ close driver_class
       (state_of (close driver_class
                    (with_device_mode_file FileDenied observed_device)))
     <> (Return tt,
         state_of (close driver_class
                     (with_device_mode_file FileDenied observed_device))).
Proof.
  assert (H : close driver_class (with_device_mode_file FileDenied observed_device)
              = (Raise PermissionError,
                 with_device_mode_file FileDenied observed_device))
    by reflexivity.
  split; [reflexivity|]. split; [exact H|]. split; [reflexivity|]. split.
  - intros (d' & H' & _). rewrite H in H'. discriminate H'.
  - rewrite H. unfold state_of. cbn [snd]. rewrite H. discriminate.
Qed.

(** ** Suspend and resume *)

Section Runs.
Variable P : Device -> Prop.
Hypothesis P_trace : forall d evs, P d -> P (with_trace (trace d ++ evs) d).
Hypothesis P_zones : forall d, P d -> zones_ok d.

Lemma runs_ret {A : Type} (a : A) : runs P (ret a).
Proof.
  intros d _. exists (Return a), []. rewrite with_trace_nil.
  split; [reflexivity|]. split; [constructor|]. intros _. exists a. reflexivity.
Qed.

Lemma runs_get : runs P get.
Proof.
  intros d _. exists (Return d), []. rewrite with_trace_nil.
  split; [reflexivity|]. split; [constructor|]. intros _. exists d. reflexivity.
Qed.

Lemma runs_bind {A B : Type} (m : M A) (k : A -> M B) :
  runs P m -> (forall a, runs P (k a)) -> runs P (bind m k).
Proof.
  intros Hm Hk d Hd. destruct (Hm d Hd) as (r & evs & Hr & Hs & Hg).
  unfold bind. rewrite Hr. destruct r as [a|e].
  - destruct (Hk a (with_trace (trace d ++ evs) d) Hd)
      as (r' & evs' & Hr' & Hs' & Hg').
    exists r', (evs ++ evs'). rewrite Hr', with_trace_twice.
    split; [reflexivity|]. split; [apply Forall_app; split; assumption|].
    intros HP. apply Hg', P_trace, HP.
  - exists (Raise e), evs. split; [reflexivity|]. split; [exact Hs|].
    intros HP. destruct (Hg HP) as [a Ha]. discriminate Ha.
Qed.

Lemma runs_emit (e : event) : is_notification e = false -> runs P (emit e).
Proof.
  intros He d _. exists (Return tt), [e].
  split; [reflexivity|]. split; [repeat constructor; exact He|].
  intros _. exists tt. reflexivity.
Qed.

Lemma runs_for_each {A : Type} (l : list A) (body : A -> M unit) :
  (forall x, x ∈ l -> runs P (body x)) -> runs P (for_each l body).
Proof.
  induction l as [|x l IH]; intros Hb; simpl.
  - apply runs_ret.
  - apply runs_bind; [apply Hb; left|].
    intros _. apply IH. intros y Hy. apply Hb. right. exact Hy.
Qed.

Lemma runs_get_zone (i : string) : i ∈ ZONES -> runs P (get_zone i).
Proof.
  intros Hi d _. unfold get_zone.
  destruct (zone d !! i) as [[z|v]|] eqn:Hz.
  - exists (Return z), []. rewrite with_trace_nil.
    split; [reflexivity|]. split; [constructor|]. intros _. exists z. reflexivity.
  - exists (Raise TypeError), []. rewrite with_trace_nil.
    split; [reflexivity|]. split; [constructor|].
    intros HP. destruct (P_zones d HP i Hi) as [z Hz']. congruence.
  - exists (Raise KeyError), []. rewrite with_trace_nil.
    split; [reflexivity|]. split; [constructor|].
    intros HP. destruct (P_zones d HP i Hi) as [z Hz']. congruence.
Qed.

(** With both flags set, [set_persistence] and [notify_observers] return
    at once. *)
Lemma run_callback_muted (cb : callback) (d : Device) :
  muted d -> run_callback cb d = (Return tt, d).
Proof.
  intros [Hn Hp]. destruct cb as [zn kv|msg|en args]; simpl.
  - unfold set_persistence, bind, get. rewrite Hp. reflexivity.
  - unfold notify_observers, bind, get. rewrite Hn. reflexivity.
  - unfold send_effect_event, notify_observers, bind, get. rewrite Hn. reflexivity.
Qed.

Lemma runs_run_callback (cb : callback) : runs P (run_callback cb).
Proof.
  intros d Hd. exists (Return tt), []. rewrite with_trace_nil.
  split; [apply run_callback_muted, Hd|]. split; [constructor|].
  intros _. exists tt. reflexivity.
Qed.

Lemma runs_call (name : string) (func : Setter) (args : list value) :
  runs P (call name func args).
Proof.
  unfold call. apply runs_bind; [apply runs_emit; reflexivity|].
  intros _. apply runs_bind; [apply runs_get|].
  intros d. apply runs_for_each. intros cb _. apply runs_run_callback.
Qed.

Lemma runs_capitalize (i : string) :
  i ∈ ZONES -> runs P (lift (capitalize_first_char i)).
Proof.
  intros Hi. unfold ZONES in Hi.
  repeat (apply elem_of_cons in Hi as [->|Hi]; [apply runs_ret|]).
  inversion Hi.
Qed.

Lemma runs_find_active_func (C : DeviceClass) (i : string) :
  i ∈ ZONES -> runs P (find_active_func C i).
Proof.
  intros Hi. unfold find_active_func. case_bool_decide; [|apply runs_ret].
  apply runs_bind; [apply runs_capitalize, Hi|]. intros zn. apply runs_ret.
Qed.

Lemma runs_find_bright_func (C : DeviceClass) (i : string) :
  i ∈ ZONES -> runs P (find_bright_func C i).
Proof.
  intros Hi. unfold find_bright_func.
  destruct (String.eqb i "backlight"); [apply runs_ret|].
  case_bool_decide; [|apply runs_ret].
  apply runs_bind; [apply runs_capitalize, Hi|]. intros zn. apply runs_ret.
Qed.

Lemma runs_disable_brightness (C : DeviceClass) : runs P (disable_brightness C).
Proof.
  unfold disable_brightness. apply runs_for_each. intros i Hi.
  apply runs_bind; [apply runs_get_zone, Hi|]. intros z.
  destruct (present z); [|apply runs_ret].
  apply runs_bind; [apply runs_find_active_func, Hi|].
  intros [[name func]|]; (apply runs_bind; [first [apply runs_call|apply runs_ret]|]);
    intros _;
    (apply runs_bind; [apply runs_find_bright_func, Hi|]);
    intros [[name' func']|]; first [apply runs_call|apply runs_ret].
Qed.

Lemma runs_restore_brightness (C : DeviceClass) : runs P (restore_brightness C).
Proof.
  unfold restore_brightness. apply runs_for_each. intros i Hi.
  apply runs_bind; [apply runs_get_zone, Hi|]. intros z.
  destruct (present z); [|apply runs_ret].
  apply runs_bind; [apply runs_find_active_func, Hi|].
  assert (Hcall : forall name func (arg : zone_dict -> value),
            runs P (z0 <- get_zone i ;; call name func [arg z0])).
  { intros name func arg. apply runs_bind; [apply runs_get_zone, Hi|].
    intros z0. apply runs_call. }
  intros [[name func]|]; (apply runs_bind; [first [apply Hcall|apply runs_ret]|]);
    intros _;
    (apply runs_bind; [apply runs_find_bright_func, Hi|]);
    intros [[name' func']|]; first [apply Hcall|apply runs_ret].
Qed.

Lemma runs_hook (hook : Device -> list callback) :
  runs P (d <- get ;; for_each (hook d) run_callback).
Proof.
  apply runs_bind; [apply runs_get|]. intros d.
  apply runs_for_each. intros cb _. apply runs_run_callback.
Qed.

Lemma runs_set_device_mode (mode_id param : Z) :
  (forall d, P d -> device_mode_file d = FilePresent) ->
  runs P (set_device_mode mode_id param).
Proof.
  intros Hfile d _. unfold set_device_mode, bind, get.
  destruct (device_mode_file d) eqn:Hf.
  - eexists (Return tt), [_]. split; [reflexivity|].
    split; [repeat constructor|]. intros _. exists tt. reflexivity.
  - exists (Raise FileNotFoundError), []. rewrite with_trace_nil.
    split; [reflexivity|]. split; [constructor|].
    intros HP. rewrite (Hfile d HP) in Hf. discriminate Hf.
  - exists (Raise PermissionError), []. rewrite with_trace_nil.
    split; [reflexivity|]. split; [constructor|].
    intros HP. rewrite (Hfile d HP) in Hf. discriminate Hf.
Qed.

End Runs.

Section Windows.
Variable P : Device -> Prop.
Hypothesis P_trace : forall d evs, P d -> P (with_trace (trace d ++ evs) d).
Hypothesis P_zones : forall d, P d -> zones_ok d.
Variable C : DeviceClass.

(** A method that sets both flags, runs [m] and clears both flags. *)
Lemma runs_between_flags (m : M unit) (d : Device) :
  runs P m ->
  exists r evs,
    (modify (with_disable_notify true) ;;
     modify (with_disable_persistence true) ;;
     m ;;
     modify (with_disable_notify false) ;;
     modify (with_disable_persistence false)) d
    = (r, reflag r (with_trace (trace d ++ evs) d))
    /\ silent evs
    /\ (P (with_disable_persistence true (with_disable_notify true d)) ->
        r = Return tt).
Proof.
  intros Hm.
  destruct (Hm (with_disable_persistence true (with_disable_notify true d)))
    as (r & evs & Hr & Hs & Hg); [split; reflexivity|].
  unfold bind at 1 2. unfold modify at 1 2. unfold bind at 1. rewrite Hr.
  destruct r as [[]|e].
  - exists (Return tt), evs. split; [reflexivity|]. split; [exact Hs|].
    intros _. reflexivity.
  - exists (Raise e), evs. split; [reflexivity|]. split; [exact Hs|].
    intros HP. destruct (Hg HP) as [a Ha]. discriminate Ha.
Qed.

Lemma suspend_device_runs (d : Device) :
  exists r evs,
    suspend_device C d = (r, reflag r (with_trace (trace d ++ evs) d))
    /\ silent evs
    /\ (P (with_disable_persistence true (with_disable_notify true d)) ->
        r = Return tt).
Proof.
  destruct (runs_between_flags
              (disable_brightness C ;;
               (d <- get ;; for_each (_suspend_device C d) run_callback)) d)
    as (r & evs & Hr & Hs & Hg).
  - apply (runs_bind P P_trace); [apply (runs_disable_brightness P P_trace P_zones)|].
    intros _. apply (runs_hook P P_trace).
  - exists r, evs. split; [|split; assumption].
    rewrite <- Hr. unfold suspend_device, bind, modify.
    destruct (disable_brightness C _) as [[[]|e] d1]; [|reflexivity].
    destruct (get d1) as [[a|e] d2]; [|reflexivity].
    destruct (for_each _ _ d2) as [[[]|e] d3]; reflexivity.
Qed.

Lemma resume_device_runs (d : Device) :
  (DRIVER_MODE C = true -> forall d, P d -> device_mode_file d = FilePresent) ->
  exists r evs,
    resume_device C d = (r, reflag r (with_trace (trace d ++ evs) d))
    /\ silent evs
    /\ (P (with_disable_persistence true (with_disable_notify true d)) ->
        r = Return tt).
Proof.
  intros Hfile.
  destruct (runs_between_flags
              ((if DRIVER_MODE C then set_device_mode 3 0 else ret tt) ;;
               restore_brightness C ;;
               (d <- get ;; for_each (_resume_device C d) run_callback)) d)
    as (r & evs & Hr & Hs & Hg).
  - apply (runs_bind P P_trace).
    { destruct (DRIVER_MODE C).
      - apply (runs_set_device_mode P), Hfile. reflexivity.
      - apply runs_ret. }
    intros _.
    apply (runs_bind P P_trace); [apply (runs_restore_brightness P P_trace P_zones)|].
    intros _. apply (runs_hook P P_trace).
  - exists r, evs. split; [|split; assumption].
    rewrite <- Hr. unfold resume_device, bind, modify.
    destruct (DRIVER_MODE C);
      [destruct (set_device_mode 3 0 _) as [[[]|e] d0]; [|reflexivity]
      |unfold ret];
      (destruct (restore_brightness C _) as [[[]|e] d1]; [|reflexivity]);
      (destruct (get d1) as [[a|e] d2]; [|reflexivity]);
      destruct (for_each _ _ d2) as [[[]|e] d3]; reflexivity.
Qed.

End Windows.

Lemma zone_reflag {A : Type} (r : outcome A) (d : Device) (evs : list event) :
  zone (reflag r (with_trace (trace d ++ evs) d)) = zone d
  /\ trace (reflag r (with_trace (trace d ++ evs) d)) = trace d ++ evs.
Proof. destruct r; split; reflexivity. Qed.

(** Outside the window the same setter does store and broadcast: the
    silence of suspend and resume comes from the flags. *)
Example setter_outside_the_window :
  trace (state_of (disable_brightness logo_class logo_device))
  = [ECall "setLogoActive" [VBool false];
     ENotify 5%nat [VStr "effect"; VSelf; VStr "setLogoActive"; VBool false]]
  /\ (active <$> (match zone (state_of (disable_brightness logo_class logo_device))
                        !! "logo" with
                  | Some (Zone z) => Some z
                  | _ => None
                  end)) = Some false
  /\ trace (state_of (suspend_device logo_class logo_device))
     = [ECall "setLogoActive" [VBool false]]
  /\ trace (state_of (resume_device logo_class
                        (state_of (suspend_device logo_class logo_device))))
     = [ECall "setLogoActive" [VBool false]; ECall "setLogoActive" [VBool true]]
  /\ zone (state_of (resume_device logo_class
                       (state_of (suspend_device logo_class logo_device))))
     = zone logo_device.
Proof. repeat split; vm_compute; reflexivity. Qed.

(** C5. From any device state, [suspend_device] followed by
    [resume_device] leaves [self.zone] as it was, so that every zone has the
    brightness and the active flag it had before, and the events the two
    methods add to the record hold no delivery to an observer or to the
    parent: every [set_persistence] and [notify_observers] that a setter or a
    hook calls inside the two methods finds the flags set. *)
Theorem suspend_resume_silent (C : DeviceClass) (d : Device) :
  let d1 := state_of (suspend_device C d) in
  let d2 := state_of (resume_device C d1) in
  zone d1 = zone d
  /\ zone d2 = zone d
  /\ (forall i z, zone d !! i = Some (Zone z) ->
        exists z2, zone d2 !! i = Some (Zone z2)
                   /\ brightness z2 = brightness z /\ active z2 = active z)
  /\ exists evs1 evs2,
       trace d1 = trace d ++ evs1 /\ trace d2 = trace d1 ++ evs2
       /\ Forall (fun e => is_notification e = false) (evs1 ++ evs2).
Proof.
  intros d1 d2.
  assert (Ht : forall (d0 : Device) (evs : list event),
            False -> False) by (intros _ _ H; exact H).
  assert (Hno : forall d0 : Device, False -> zones_ok d0) by (intros _ []).
  destruct (suspend_device_runs (fun _ => False) Ht Hno C d)
    as (r1 & evs1 & H1 & Hs1 & _).
  destruct (resume_device_runs (fun _ => False) Ht Hno C d1)
    as (r2 & evs2 & H2 & Hs2 & _).
  { intros _ d0 []. }
  assert (Hd1 : d1 = reflag r1 (with_trace (trace d ++ evs1) d)).
  { unfold d1, state_of. rewrite H1. reflexivity. }
  assert (Hd2 : d2 = reflag r2 (with_trace (trace d1 ++ evs2) d1)).
  { unfold d2, state_of. rewrite H2. reflexivity. }
  destruct (zone_reflag r1 d evs1) as [Hz1 Ht1].
  destruct (zone_reflag r2 d1 evs2) as [Hz2 Ht2].
  rewrite <- Hd1 in Hz1, Ht1. rewrite <- Hd2 in Hz2, Ht2.
  assert (Hz : zone d2 = zone d) by (rewrite Hz2; exact Hz1).
  split; [exact Hz1|]. split; [exact Hz|]. split.
  - intros i z Hi. exists z. rewrite Hz. repeat split. exact Hi.
  - exists evs1, evs2. split; [exact Ht1|]. split; [exact Ht2|].
    apply Forall_app. split; assumption.
Qed.

(** C10. When [suspend_device] or [resume_device] returns, both flags are
    off, whatever they were before the call. [suspend_device] does return
    when every zone of [ZONES] is in place, [resume_device] when moreover a
    class in driver mode finds its control file. *)
Theorem suspend_resume_flags (C : DeviceClass) (d : Device) :
  (forall d', suspend_device C d = (Return tt, d') ->
     _disable_notifications d' = false /\ _disable_persistence d' = false)
  /\ (forall d', resume_device C d = (Return tt, d') ->
        _disable_notifications d' = false /\ _disable_persistence d' = false)
  /\ (zones_ok d -> exists d', suspend_device C d = (Return tt, d'))
  /\ (zones_ok d ->
      (DRIVER_MODE C = true -> device_mode_file d = FilePresent) ->
      exists d', resume_device C d = (Return tt, d')).
Proof.
  assert (Ht : forall (d0 : Device) (evs : list event),
            zones_ok d0 -> zones_ok (with_trace (trace d0 ++ evs) d0))
    by (intros d0 evs H; exact H).
  assert (Hz : forall d0 : Device, zones_ok d0 -> zones_ok d0) by (intros d0 H; exact H).
  split; [|split; [|split]].
  - intros d' H.
    destruct (suspend_device_runs zones_ok Ht Hz C d) as (r & evs & Hr & _ & _).
    rewrite Hr in H. injection H as -> <-. split; reflexivity.
  - intros d' H.
    destruct (resume_device_runs (fun _ => False) (fun _ _ H => H)
                (fun _ (H : False) => match H with end) C d)
      as (r & evs & Hr & _ & _); [intros _ d0 []|].
    rewrite Hr in H. injection H as -> <-. split; reflexivity.
  - intros Hok.
    destruct (suspend_device_runs zones_ok Ht Hz C d) as (r & evs & Hr & _ & Hg).
    rewrite (Hg Hok) in Hr. eexists. exact Hr.
  - intros Hok Hfile.
    set (P := fun d0 : Device =>
                zones_ok d0 /\ (DRIVER_MODE C = true -> device_mode_file d0 = FilePresent)).
    destruct (resume_device_runs P (fun _ _ H => H) (fun _ H => proj1 H) C d)
      as (r & evs & Hr & _ & Hg).
    { intros Hdm d0 [_ H0]. exact (H0 Hdm). }
    rewrite Hg in Hr; [eexists; exact Hr|]. split; [exact Hok|exact Hfile].
Qed.

(** ** Restoring the effect *)

Lemma restore_effect_at_zone (C : DeviceClass) (pre post : list string)
    (i : string) (d : Device) :
  ZONES = pre ++ i :: post ->
  restore_effect C d
  = (for_each pre (restore_zone_effect C) ;;
     restore_zone_effect C i ;;
     for_each post (restore_zone_effect C)) d.
Proof. intros H. unfold restore_effect. rewrite H, for_each_app. reflexivity. Qed.

Lemma restore_zone_effect_not_present (C : DeviceClass) (i : string)
    (d : Device) (z : zone_dict) :
  zone d !! i = Some (Zone z) -> present z = false ->
  restore_zone_effect C i d = (Return tt, d).
Proof.
  intros Hz Hp. unfold restore_zone_effect, bind, get_zone. rewrite Hz, Hp.
  reflexivity.
Qed.

(** The setter is found under the composed name: it is dispatched on the
    zone as it is. *)
Lemma restore_zone_effect_found (C : DeviceClass) (i name : string)
    (d : Device) (z : zone_dict) (effect_func : Setter) :
  zone d !! i = Some (Zone z) -> present z = true ->
  effect_func_name i (effect z) = Return name ->
  attrs C name = Some effect_func ->
  restore_zone_effect C i d = dispatch name effect_func z d.
Proof.
  intros Hz Hp Hn Hf. unfold restore_zone_effect, bind, get_zone.
  rewrite Hz, Hp, Hn. simpl. rewrite Hf. simpl. rewrite Hz. reflexivity.
Qed.

(** No setter under the composed name, and the effect is Spectrum already:
    nothing is corrected and nothing is called. *)
Lemma restore_zone_effect_spectrum_missing (C : DeviceClass) (i name : string)
    (d : Device) (z : zone_dict) :
  zone d !! i = Some (Zone z) -> present z = true ->
  effect_func_name i (effect z) = Return name ->
  attrs C name = None -> effect z = "spectrum" ->
  restore_zone_effect C i d = (Return tt, d).
Proof.
  intros Hz Hp Hn Hf He. unfold restore_zone_effect, bind, get_zone.
  rewrite Hz, Hp, Hn. simpl. rewrite Hf, He. reflexivity.
Qed.

(** No setter under the composed name, and the effect is not Spectrum: the
    effect of the zone becomes Spectrum, and the setter looked up under the
    name composed for Spectrum is dispatched if there is one. *)
Lemma restore_zone_effect_fallback (C : DeviceClass) (i name name' : string)
    (d : Device) (z : zone_dict) :
  zone d !! i = Some (Zone z) -> present z = true ->
  effect_func_name i (effect z) = Return name ->
  attrs C name = None -> effect z <> "spectrum" ->
  spectrum_func_name i = Return name' ->
  let z' := set_key (KEffect "spectrum") z in
  let d' := with_zone (<[i := Zone z']> (zone d)) d in
  restore_zone_effect C i d
  = match attrs C name' with
    | Some effect_func => dispatch name' effect_func z' d'
    | None => (Return tt, d')
    end.
Proof.
  intros Hz Hp Hn Hf He Hs z' d'.
  unfold restore_zone_effect, bind, get_zone.
  rewrite Hz, Hp, Hn. simpl. rewrite Hf.
  apply String.eqb_neq in He. rewrite He. simpl.
  unfold reset_to_spectrum, bind, get_zone, modify. rewrite Hz, Hs. simpl.
  unfold getattr. fold z' d'. destruct (attrs C name') as [f|]; simpl.
  - unfold d' at 1. simpl. rewrite lookup_insert_eq. reflexivity.
  - reflexivity.
Qed.

(** An empty effect name: the composition of the name raises, before any
    lookup and any correction. *)
Lemma restore_zone_effect_empty (C : DeviceClass) (i : string)
    (d : Device) (z : zone_dict) :
  zone d !! i = Some (Zone z) -> present z = true -> effect z = "" ->
  restore_zone_effect C i d = (Raise IndexError, d).
Proof.
  intros Hz Hp He. unfold restore_zone_effect, bind, get_zone.
  rewrite Hz, Hp, He. unfold effect_func_name.
  destruct (String.eqb i "backlight"); [reflexivity|].
  destruct i; reflexivity.
Qed.

(** What [dispatch] calls, by the number of parameters of the setter, on a
    zone with nine colors. *)
Lemma dispatch_table (name : string) (f : Setter) (z : zone_dict) (d : Device)
    (c0 c1 c2 c3 c4 c5 c6 c7 c8 : Z) :
  colors z = [c0; c1; c2; c3; c4; c5; c6; c7; c8] ->
  (arity f = 0%nat -> dispatch name f z d = call name f [] d)
  /\ (arity f = 1%nat -> effect z = "starlightRandom" ->
      dispatch name f z d = call name f [VInt (speed z)] d)
  /\ (arity f = 1%nat -> effect z = "wave" \/ effect z = "wheel" ->
      dispatch name f z d = call name f [VInt (wave_dir z)] d)
  /\ (arity f = 3%nat ->
      dispatch name f z d = call name f [VInt c0; VInt c1; VInt c2] d)
  /\ (arity f = 4%nat -> effect z = "starlightSingle" \/ effect z = "reactive" ->
      dispatch name f z d
      = call name f [VInt c0; VInt c1; VInt c2; VInt (speed z)] d)
  /\ (arity f = 6%nat ->
      dispatch name f z d
      = call name f [VInt c0; VInt c1; VInt c2; VInt c3; VInt c4; VInt c5] d)
  /\ (arity f = 7%nat ->
      dispatch name f z d
      = call name f [VInt c0; VInt c1; VInt c2; VInt c3; VInt c4; VInt c5;
                     VInt (speed z)] d)
  /\ (arity f = 9%nat ->
      dispatch name f z d
      = call name f [VInt c0; VInt c1; VInt c2; VInt c3; VInt c4; VInt c5;
                     VInt c6; VInt c7; VInt c8] d).
Proof.
  intros Hc. unfold dispatch. rewrite Hc.
  repeat split.
  - intros ->. reflexivity.
  - intros -> ->. reflexivity.
  - intros -> [-> | ->]; reflexivity.
  - intros ->. reflexivity.
  - intros -> [-> | ->]; reflexivity.
  - intros ->. reflexivity.
  - intros ->. reflexivity.
  - intros ->. reflexivity.
Qed.

(** The branches of [dispatch] that call nothing: one parameter and an
    effect that is none of the three with one argument, four parameters and
    an effect other than Starlight (single) and Reactive, and a number of
    parameters the chain does not know. *)
Lemma dispatch_nothing (name : string) (f : Setter) (z : zone_dict) (d : Device) :
  (arity f = 1%nat -> effect z <> "starlightRandom" -> effect z <> "wave" ->
   effect z <> "wheel" -> dispatch name f z d = (Return tt, d))
  /\ (arity f = 4%nat -> effect z <> "starlightSingle" -> effect z <> "reactive" ->
      dispatch name f z d = (Return tt, d))
  /\ (arity f <> 0%nat -> arity f <> 1%nat -> arity f <> 3%nat -> arity f <> 4%nat ->
      arity f <> 6%nat -> arity f <> 7%nat -> arity f <> 9%nat ->
      dispatch name f z d = (Return tt, d)).
Proof.
  unfold dispatch. repeat split.
  - intros -> H1 H2 H3. apply String.eqb_neq in H1, H2, H3.
    rewrite H1, H2, H3.
    destruct (String.eqb (effect z) "rippleRandomColour"); reflexivity.
  - intros -> H1 H2. apply String.eqb_neq in H1, H2. rewrite H1, H2. simpl.
    destruct (String.eqb (effect z) "ripple"); reflexivity.
  - intros H0 H1 H3 H4 H6 H7 H9.
    destruct (arity f) as [|[|[|[|[|[|[|[|[|[|n]]]]]]]]]]; try contradiction;
      reflexivity.
Qed.

(** What a call adds to the record: the call itself, then deliveries to
    observers and to the parent only, so that no other setter is called. *)
Lemma run_callback_trace (cb : callback) (d : Device) :
  exists evs,
    trace (state_of (run_callback cb d)) = trace d ++ evs
    /\ Forall (fun e => is_notification e = true) evs.
Proof.
  assert (Hn : forall msg, exists evs,
            trace (state_of (notify_observers msg d)) = trace d ++ evs
            /\ Forall (fun e => is_notification e = true) evs).
  { intros msg.
    assert (Hmap : forall l : list observer,
              Forall (fun e => is_notification e = true)
                (map (fun o => ENotify o msg) l)).
    { induction l as [|o l IH]; simpl; constructor; [reflexivity|exact IH]. }
    unfold notify_observers, bind, get.
    destruct (_disable_notifications d); simpl.
    - exists []. rewrite app_nil_r. split; [reflexivity|constructor].
    - destruct (_effect_sync_propagate_up d); [destruct (_parent d) as [p|]|];
        simpl; rewrite for_each_emit; simpl; rewrite <- ?app_assoc;
        eexists; (split; [reflexivity|]);
        first [apply Hmap | constructor; [reflexivity|apply Hmap]]. }
  destruct cb as [zn kv|msg|en args]; simpl.
  - exists []. rewrite app_nil_r. split; [|constructor].
    unfold set_persistence, bind, get, modify, get_zone.
    destruct (_disable_persistence d); [reflexivity|]. simpl.
    destruct (truthy zn) as [n|]; [|reflexivity]. simpl.
    destruct (zone d !! n) as [[z|v]|]; reflexivity.
  - apply Hn.
  - apply Hn.
Qed.

Lemma run_callbacks_trace (cbs : list callback) (d : Device) :
  exists evs,
    trace (state_of (for_each cbs run_callback d)) = trace d ++ evs
    /\ Forall (fun e => is_notification e = true) evs.
Proof.
  revert d. induction cbs as [|cb cbs IH]; intros d; simpl.
  - exists []. rewrite app_nil_r. split; [reflexivity|constructor].
  - unfold bind. destruct (run_callback_trace cb d) as (evs & He & Hs).
    destruct (run_callback cb d) as [[[]|e] d1]; simpl in He.
    + destruct (IH d1) as (evs' & He' & Hs'). exists (evs ++ evs').
      rewrite He', He, <- app_assoc. split; [reflexivity|].
      apply Forall_app. split; assumption.
    + exists evs. split; [exact He|exact Hs].
Qed.

Lemma call_trace (name : string) (f : Setter) (args : list value) (d : Device) :
  exists evs,
    trace (state_of (call name f args d)) = trace d ++ ECall name args :: evs
    /\ Forall (fun e => is_notification e = true) evs.
Proof.
  rewrite call_eq.
  destruct (run_callbacks_trace
              (run f args (with_trace (trace d ++ [ECall name args]) d))
              (with_trace (trace d ++ [ECall name args]) d)) as (evs & He & Hs).
  exists evs. rewrite He. simpl. rewrite <- app_assoc. split; [reflexivity|exact Hs].
Qed.

(** The name composed for the reset to Spectrum is the name under which the
    Spectrum setter of the zone is looked up in the first place, for every
    zone but the two whose name has an underscore. *)
Lemma spectrum_names (i : string) :
  i ∈ ZONES ->
  (i <> "fast_charging" -> i <> "fully_charged" ->
   spectrum_func_name i = effect_func_name i "spectrum")
  /\ (i = "fast_charging" \/ i = "fully_charged" ->
      spectrum_func_name i <> effect_func_name i "spectrum").
Proof.
  intros Hi. unfold ZONES in Hi.
  repeat (apply elem_of_cons in Hi as [->|Hi];
          [split; [intros H1 H2; try reflexivity; contradiction
                  |intros [H|H]; try discriminate H; vm_compute; discriminate]|]).
  inversion Hi.
Qed.

(** A zone whose effect has no setter, on a class that has the Spectrum
    setter of the zone under the name of the reset, without parameters: the
    effect becomes Spectrum, the setter is called, and a second pass finds
    the Spectrum setter under the composed name and corrects nothing. *)
Lemma restore_zone_effect_corrects (C : DeviceClass) (i name name' : string)
    (d : Device) (z : zone_dict) (f : Setter) :
  zone d !! i = Some (Zone z) -> present z = true ->
  effect_func_name i (effect z) = Return name ->
  attrs C name = None -> effect z <> "spectrum" ->
  spectrum_func_name i = Return name' ->
  attrs C name' = Some f -> arity f = 0%nat ->
  let z' := set_key (KEffect "spectrum") z in
  let d' := with_zone (<[i := Zone z']> (zone d)) d in
  restore_zone_effect C i d = call name' f [] d'
  /\ (effect_func_name i "spectrum" = Return name' ->
      restore_zone_effect C i d' = call name' f [] d').
Proof.
  intros Hz Hp Hn Hf He Hs Hf' Ha z' d'. split.
  - rewrite (restore_zone_effect_fallback C i name name' d z Hz Hp Hn Hf He Hs).
    rewrite Hf'. unfold dispatch. rewrite Ha. reflexivity.
  - intros Hn'.
    rewrite (restore_zone_effect_found C i name' d' z' f);
      [unfold dispatch; rewrite Ha; reflexivity| |exact Hp|exact Hn'|exact Hf'].
    unfold d'. simpl. apply lookup_insert_eq.
Qed.

Example restore_effect_fallback_logo :
  restore_effect (class_with [] false [("setLogoSpectrum", plain_setter 0)])
    logo_wave_device
  = (Return tt,
     with_trace [ECall "setLogoSpectrum" []]
       (load_zone "logo"
          (fun z => set_key (KWaveDir 2) (load_effect (Some "spectrum") z))
          new_device)).
Proof. reflexivity. Qed.

(** C3. The specification has the Spectrum setter of the zone called for every
    zone, the zones with an underscore in their name among them. On the code,
    the fast-charging zone persisted with an effect that has no setter is
    corrected to Spectrum, but the name composed for the reset keeps the
    underscore ([setFast_chargingSpectrum]), where the name composed at the
    head of the loop drops it ([setFastChargingSpectrum]): on a class that
    has the Spectrum setter of the zone under the name of the loop head, the
    setter is not found and nothing is called. The next pass finds the setter
    under the composed name and dispatches it, without any correction. *)
Theorem restore_effect_fallback_multiword (C : DeviceClass) (d : Device)
    (z : zone_dict) (name : string) (f : Setter) :
  zone d !! "fast_charging" = Some (Zone z) -> present z = true ->
  effect_func_name "fast_charging" (effect z) = Return name ->
  attrs C name = None -> effect z <> "spectrum" ->
  attrs C "setFastChargingSpectrum" = Some f ->
  attrs C "setFast_chargingSpectrum" = None ->
  let z' := set_key (KEffect "spectrum") z in
  let d' := with_zone (<["fast_charging" := Zone z']> (zone d)) d in
  effect_func_name "fast_charging" "spectrum" = Return "setFastChargingSpectrum"
  /\ spectrum_func_name "fast_charging" = Return "setFast_chargingSpectrum"
  /\ restore_zone_effect C "fast_charging" d = (Return tt, d')
  /\ trace d' = trace d
  /\ restore_zone_effect C "fast_charging" d'
     = dispatch "setFastChargingSpectrum" f z' d'.
Proof.
  intros Hz Hp Hn Hf He Hs Hs' z' d'.
  split; [reflexivity|]. split; [reflexivity|]. split; [|split; [reflexivity|]].
  - rewrite (restore_zone_effect_fallback C "fast_charging" name
               "setFast_chargingSpectrum" d z Hz Hp Hn Hf He eq_refl).
    rewrite Hs'. reflexivity.
  - apply (restore_zone_effect_found C "fast_charging" "setFastChargingSpectrum"
             d' z' f); [|exact Hp|reflexivity|exact Hs].
    unfold d'. simpl. apply lookup_insert_eq.
Qed.

(** The statement of C3 on the fast-charging zone persisted with "wave", on
    a class that has [setFastChargingSpectrum] and no wave setter: the whole
    [restore_effect] corrects the effect and calls nothing; run again, it
    calls the Spectrum setter. *)
Lemma restore_effect_fallback_multiword_witness :
  restore_zone_effect fast_charging_class "fast_charging" (fast_charging_device "wave")
  = (Return tt, fast_charging_device "spectrum")
  /\ restore_effect fast_charging_class (fast_charging_device "wave")
     = (Return tt, fast_charging_device "spectrum")
  /\ trace (fast_charging_device "spectrum") = []
  /\ restore_effect fast_charging_class (fast_charging_device "spectrum")
     = (Return tt,
        with_trace [ECall "setFastChargingSpectrum" []]
          (fast_charging_device "spectrum")).
Proof.
  split; [|repeat split; reflexivity].
  refine (proj1 (proj2 (proj2
    (restore_effect_fallback_multiword fast_charging_class
       (fast_charging_device "wave")
       (load_effect (Some "wave")
          {| present := true; active := true; brightness := 75 # 1;
             effect := "spectrum"; colors := default_colors; speed := 1;
             wave_dir := 1; others := [] |})
       "setFastChargingWave" (plain_setter 0)
       eq_refl eq_refl eq_refl eq_refl _ eq_refl eq_refl)))).
  discriminate.
Defined.

(** ** Totality of [restore_effect] *)

Lemma set_key_ok (kv : keyval) (z : zone_dict) :
  kv_ok kv ->
  (present z = true -> effect z <> "") -> length (colors z) = 9%nat ->
  (present (set_key kv z) = true -> effect (set_key kv z) <> "")
  /\ length (colors (set_key kv z)) = 9%nat.
Proof. destruct kv; simpl; intros Hk He Hc; split; auto. Qed.

Lemma restorable_insert_zone (d : Device) (i : string) (z : zone_dict) :
  restorable d ->
  (present z = true -> effect z <> "") -> length (colors z) = 9%nat ->
  restorable (with_zone (<[i := Zone z]> (zone d)) d).
Proof.
  intros Hd He Hc j Hj. simpl. destruct (decide (i = j)) as [->|Hne].
  - exists z. rewrite lookup_insert_eq. auto.
  - rewrite lookup_insert_ne by exact Hne. apply Hd, Hj.
Qed.

Lemma set_persistence_ok (zone_name : option string) (kv : keyval) (d : Device) :
  cb_ok (CbSetPersistence zone_name kv) -> restorable d ->
  exists d', set_persistence zone_name kv d = (Return tt, d') /\ restorable d'.
Proof.
  intros Hcb Hd. unfold set_persistence, bind, get.
  destruct (_disable_persistence d); [exists d; split; [reflexivity|exact Hd]|].
  simpl in Hcb. unfold modify at 1.
  destruct (truthy zone_name) as [zn|].
  - destruct Hcb as [Hzn Hkv]. destruct (Hd zn Hzn) as (z & Hz & He & Hc).
    unfold get_zone. simpl. rewrite Hz. unfold modify. eexists. split; [reflexivity|].
    destruct (set_key_ok kv z Hkv He Hc) as [He' Hc'].
    apply (restorable_insert_zone (with_persistence_changed true d) zn _ Hd He' Hc').
  - unfold modify. eexists. split; [reflexivity|].
    intros j Hj. simpl. rewrite lookup_insert_ne; [apply Hd, Hj|].
    intros Heq. apply Hcb. rewrite Heq. exact Hj.
Qed.

(** [notify_observers] always returns and only adds to the record. *)
Lemma notify_observers_trace (msg : list value) (d : Device) :
  exists evs, notify_observers msg d = (Return tt, with_trace (trace d ++ evs) d).
Proof.
  unfold notify_observers, bind, get.
  destruct (_disable_notifications d); simpl.
  - exists []. rewrite with_trace_nil. reflexivity.
  - destruct (_effect_sync_propagate_up d); [destruct (_parent d) as [p|]|];
      simpl; rewrite for_each_emit; simpl; rewrite <- ?app_assoc; eexists; reflexivity.
Qed.

Lemma run_callback_ok (cb : callback) (d : Device) :
  cb_ok cb -> restorable d ->
  exists d', run_callback cb d = (Return tt, d') /\ restorable d'.
Proof.
  intros Hcb Hd. destruct cb as [zn kv|msg|en args]; simpl.
  - apply set_persistence_ok; assumption.
  - destruct (notify_observers_trace msg d) as [evs ->].
    eexists. split; [reflexivity|exact Hd].
  - unfold send_effect_event.
    destruct (notify_observers_trace ([VStr "effect"; VSelf; VStr en] ++ args) d)
      as [evs ->].
    eexists. split; [reflexivity|exact Hd].
Qed.

Lemma run_callbacks_ok (cbs : list callback) (d : Device) :
  Forall cb_ok cbs -> restorable d ->
  exists d', for_each cbs run_callback d = (Return tt, d') /\ restorable d'.
Proof.
  intros Hcbs. revert d. induction Hcbs as [|cb cbs Hcb _ IH]; intros d Hd; simpl.
  - exists d. split; [reflexivity|exact Hd].
  - unfold bind. destruct (run_callback_ok cb d Hcb Hd) as (d1 & -> & Hd1).
    apply IH, Hd1.
Qed.

Lemma call_ok (C : DeviceClass) (name : string) (f : Setter) (args : list value)
    (d : Device) :
  class_ok C -> attrs C name = Some f -> restorable d ->
  exists d', call name f args d = (Return tt, d') /\ restorable d'.
Proof.
  intros HC Hf Hd. rewrite call_eq. apply run_callbacks_ok; [|exact Hd].
  apply (HC name f), Hf.
Qed.

Lemma dispatch_ok (C : DeviceClass) (name : string) (f : Setter) (z : zone_dict)
    (d : Device) :
  class_ok C -> attrs C name = Some f -> restorable d ->
  length (colors z) = 9%nat ->
  exists d', dispatch name f z d = (Return tt, d') /\ restorable d'.
Proof.
  intros HC Hf Hd Hc.
  assert (Hcall : forall args, exists d',
            call name f args d = (Return tt, d') /\ restorable d')
    by (intros args; apply (call_ok C); assumption).
  assert (Hskip : exists d', (Return tt, d) = (Return tt, d') /\ restorable d')
    by (exists d; split; [reflexivity|exact Hd]).
  destruct (colors z) as [|c0 [|c1 [|c2 [|c3 [|c4 [|c5 [|c6 [|c7 [|c8 [|c9 l]]]]]]]]]] eqn:Hcs;
    try discriminate Hc.
  unfold dispatch. rewrite Hcs.
  destruct (arity f) as [|[|[|[|[|[|[|[|[|[|n]]]]]]]]]];
    try exact Hskip; try apply Hcall.
  - destruct (String.eqb (effect z) "starlightRandom"); [apply Hcall|].
    destruct (String.eqb (effect z) "wave"); [apply Hcall|].
    destruct (String.eqb (effect z) "wheel"); [apply Hcall|].
    destruct (String.eqb (effect z) "rippleRandomColour"); exact Hskip.
  - destruct (String.eqb (effect z) "starlightSingle" || String.eqb (effect z) "reactive");
      [apply Hcall|].
    destruct (String.eqb (effect z) "ripple"); exact Hskip.
Qed.

Lemma func_names_total (i : string) :
  i ∈ ZONES ->
  (exists name, spectrum_func_name i = Return name)
  /\ forall e, e <> "" -> exists name, effect_func_name i e = Return name.
Proof.
  intros Hi. unfold ZONES in Hi.
  repeat (apply elem_of_cons in Hi as [->|Hi];
          [split; [eexists; reflexivity
                  |intros [|c e] He; [contradiction|eexists; reflexivity]]|]).
  inversion Hi.
Qed.

Lemma restore_zone_effect_ok (C : DeviceClass) (i : string) (d : Device) :
  class_ok C -> i ∈ ZONES -> restorable d ->
  exists d', restore_zone_effect C i d = (Return tt, d') /\ restorable d'.
Proof.
  intros HC Hi Hd. destruct (Hd i Hi) as (z & Hz & He & Hc).
  destruct (present z) eqn:Hp.
  2:{ exists d. split; [|exact Hd].
      apply (restore_zone_effect_not_present C i d z Hz Hp). }
  destruct (func_names_total i Hi) as [[name' Hs] Hnames].
  destruct (Hnames (effect z) (He eq_refl)) as [name Hn].
  destruct (attrs C name) as [f|] eqn:Hf.
  - rewrite (restore_zone_effect_found C i name d z f Hz Hp Hn Hf).
    apply (dispatch_ok C); assumption.
  - destruct (decide (effect z = "spectrum")) as [Hsp|Hsp].
    + exists d. split; [|exact Hd].
      apply (restore_zone_effect_spectrum_missing C i name d z Hz Hp Hn Hf Hsp).
    + rewrite (restore_zone_effect_fallback C i name name' d z Hz Hp Hn Hf Hsp Hs).
      assert (Hd' : restorable
                (with_zone (<[i := Zone (set_key (KEffect "spectrum") z)]> (zone d)) d)).
      { apply restorable_insert_zone; [exact Hd| |exact Hc]. intros _. discriminate. }
      destruct (attrs C name') as [f'|] eqn:Hf'.
      * apply (dispatch_ok C); assumption.
      * eexists. split; [reflexivity|exact Hd'].
Qed.

Lemma restore_zones_ok (C : DeviceClass) (l : list string) (d : Device) :
  class_ok C -> (forall i, i ∈ l -> i ∈ ZONES) -> restorable d ->
  exists d', for_each l (restore_zone_effect C) d = (Return tt, d') /\ restorable d'.
Proof.
  intros HC. revert d. induction l as [|i l IH]; intros d Hl Hd; simpl.
  - exists d. split; [reflexivity|exact Hd].
  - unfold bind.
    destruct (restore_zone_effect_ok C i d HC (Hl i (list_elem_of_here i l)) Hd)
      as (d1 & -> & Hd1).
    apply IH; [|exact Hd1]. intros j Hj. apply Hl. right. exact Hj.
Qed.

Lemma plain_class_ok (methods : list string) (b : bool) (table : list (string * nat)) :
  class_ok (class_with methods b (map (fun p => (fst p, plain_setter (snd p))) table)).
Proof.
  intros name f args d. simpl. induction table as [|[n k] table IH]; simpl.
  - discriminate.
  - destruct (String.eqb n name); [|exact IH].
    intros [= <-]. constructor.
Qed.

(** ** The setter a zone resolves to *)

(** The name composed at the head of the loop body, zone by zone: "set",
    the name of the zone in camel case (nothing for the backlight), and the
    name of the effect with its first letter as a capital. *)
Lemma effect_func_name_composed (i prefix : string) (c : ascii) (r : string) :
  (i, prefix) ∈ [("backlight", ""); ("logo", "Logo"); ("scroll", "Scroll");
                 ("left", "Left"); ("right", "Right"); ("charging", "Charging");
                 ("fast_charging", "FastCharging");
                 ("fully_charged", "FullyCharged");
                 ("channel1", "Channel1"); ("channel2", "Channel2");
                 ("channel3", "Channel3"); ("channel4", "Channel4");
                 ("channel5", "Channel5"); ("channel6", "Channel6")] ->
  i ∈ ZONES
  /\ effect_func_name i (String c r)
     = Return ("set" +:+ prefix +:+ String (Py.upper c) r).
Proof.
  intros H.
  repeat (apply elem_of_cons in H as [H|H];
          [injection H as -> ->; split;
           [apply (bool_decide_unpack _); vm_compute; exact I|reflexivity]|]).
  inversion H.
Qed.

Lemma for_each_unchanged {A : Type} (l : list A) (body : A -> M unit) (d : Device) :
  (forall x, x ∈ l -> body x d = (Return tt, d)) ->
  for_each l body d = (Return tt, d).
Proof.
  induction l as [|x l IH]; intros H; simpl; [reflexivity|].
  unfold bind. rewrite (H x) by left. apply IH. intros y Hy. apply H. right. exact Hy.
Qed.

Lemma ZONES_NoDup : NoDup ZONES.
Proof. apply (bool_decide_unpack _). vm_compute. exact I. Qed.

Lemma set_key_present (kv : keyval) (z : zone_dict) :
  present (set_key kv z) = present z.
Proof. destruct kv; reflexivity. Qed.

(** A call back into the device leaves the zones that are not present as
    they are found: in place, and not present. *)
Lemma run_callback_only_present (i : string) (cb : callback) (d : Device) :
  cb_ok cb -> only_present i d ->
  only_present i (state_of (run_callback cb d)).
Proof.
  intros Hcb Hd. destruct cb as [zn kv|msg|en args]; simpl.
  - unfold set_persistence, bind, get, modify, get_zone.
    destruct (_disable_persistence d); [exact Hd|]. simpl in Hcb |- *.
    destruct (truthy zn) as [n|].
    + unfold state_of. cbn [zone with_persistence_changed].
      destruct (zone d !! n) as [[z|v]|] eqn:Hn; cbn [snd]; try exact Hd.
      intros j Hj Hne. simpl. destruct (decide (n = j)) as [->|Hnj].
      * rewrite lookup_insert_eq. destruct (Hd j Hj Hne) as (zj & Hzj & Hpj).
        exists (set_key kv z). split; [reflexivity|].
        rewrite set_key_present. congruence.
      * rewrite lookup_insert_ne by exact Hnj. apply Hd; assumption.
    + intros j Hj Hne. simpl. rewrite lookup_insert_ne; [apply Hd; assumption|].
      intros Heq. apply Hcb. rewrite Heq. exact Hj.
  - destruct (notify_observers_trace msg d) as [evs ->]. exact Hd.
  - unfold send_effect_event.
    destruct (notify_observers_trace ([VStr "effect"; VSelf; VStr en] ++ args) d)
      as [evs ->].
    exact Hd.
Qed.

Lemma run_callbacks_only_present (i : string) (cbs : list callback) (d : Device) :
  Forall cb_ok cbs -> only_present i d ->
  only_present i (state_of (for_each cbs run_callback d)).
Proof.
  intros Hcbs. revert d. induction Hcbs as [|cb cbs Hcb _ IH]; intros d Hd; simpl.
  - exact Hd.
  - unfold bind. pose proof (run_callback_only_present i cb d Hcb Hd) as H1.
    destruct (run_callback cb d) as [[[]|e] d1]; simpl in H1.
    + apply IH, H1.
    + exact H1.
Qed.

Lemma call_only_present (C : DeviceClass) (i name : string) (f : Setter)
    (args : list value) (d : Device) :
  class_ok C -> attrs C name = Some f -> only_present i d ->
  only_present i (state_of (call name f args d)).
Proof.
  intros HC Hf Hd. rewrite call_eq. apply run_callbacks_only_present.
  - apply (HC name f), Hf.
  - exact Hd.
Qed.

Lemma dispatch_only_present (C : DeviceClass) (i name : string) (f : Setter)
    (z : zone_dict) (d : Device) :
  class_ok C -> attrs C name = Some f -> only_present i d ->
  only_present i (state_of (dispatch name f z d)).
Proof.
  intros HC Hf Hd.
  assert (Hcall : forall args, only_present i (state_of (call name f args d))).
  { intros args. apply (call_only_present C); assumption. }
  unfold dispatch, item.
  destruct (arity f) as [|[|[|[|[|[|[|[|[|[|n]]]]]]]]]]; try exact Hd; try apply Hcall;
    repeat match goal with
    | |- context [String.eqb ?a ?b] => destruct (String.eqb a b); simpl
    end;
    try exact Hd; try apply Hcall;
    unfold bind, ret, raise;
    repeat match goal with
    | |- context [colors z !! ?k] => destruct (colors z !! k); simpl
    end;
    try exact Hd; apply Hcall.
Qed.

(** On a device whose only present zone is [i], the loop of
    [restore_effect] does what its body does at [i]. *)
Lemma restore_effect_only_present (C : DeviceClass) (i : string) (d : Device) :
  i ∈ ZONES -> only_present i d ->
  only_present i (state_of (restore_zone_effect C i d)) ->
  restore_effect C d = restore_zone_effect C i d.
Proof.
  intros Hi Hd Hafter.
  destruct (list_elem_of_split _ _ Hi) as (pre & post & HZ).
  pose proof ZONES_NoDup as Hnd. rewrite HZ in Hnd.
  apply NoDup_app in Hnd as (_ & Hpre & Hnd). apply NoDup_cons in Hnd as [Hpost _].
  rewrite (restore_effect_at_zone C pre post i d HZ). unfold bind.
  rewrite for_each_unchanged.
  - destruct (restore_zone_effect C i d) as [[[]|e] d'] eqn:Hb; [|reflexivity].
    simpl in Hafter. apply for_each_unchanged. intros j Hj.
    destruct (Hafter j) as (zj & Hzj & Hpj).
    + rewrite HZ. apply elem_of_app. right. right. exact Hj.
    + intros ->. contradiction.
    + apply (restore_zone_effect_not_present C j d' zj Hzj Hpj).
  - intros j Hj. destruct (Hd j) as (zj & Hzj & Hpj).
    + rewrite HZ. apply elem_of_app. left. exact Hj.
    + intros ->. apply (Hpre i Hj). left.
    + apply (restore_zone_effect_not_present C j d zj Hzj Hpj).
Qed.

(** C1. For a present zone of [ZONES], the setter is looked up under "set",
    the name of the zone in camel case (nothing for the backlight, "Logo",
    "FastCharging", ...) and the name of the effect with a capital first
    letter; when the class has a setter under that name, the body of the loop
    of [restore_effect] calls it, by its number of parameters: 0, no argument;
    1, the speed for "starlightRandom" and the wave direction for "wave" and
    "wheel"; 3, the first three colors; 4, the first three colors and the
    speed for "starlightSingle" and "reactive"; 6, the first six colors; 7,
    the first six colors and the speed; 9, the nine colors. A call adds
    itself to the record, followed by deliveries to observers only. The loop
    of [restore_effect] runs the body on the zones before this one, on this
    one, and on the zones after it; on a device whose only present zone is
    this one, of a class whose setters store under zones of [ZONES] only,
    [restore_effect] as a whole does what the body does on that zone. The
    logo zone persisted with "wave" and the direction 2, on a class whose
    [setLogoWave] takes one parameter, has [restore_effect] call
    [setLogoWave(2)] and nothing else; the fast-charging zone persisted with
    "wave" has it call [setFastChargingWave(1)], and the backlight persisted
    with "static" has it call [setStatic(0, 255, 0)]. *)
Theorem restore_effect_dispatch (C : DeviceClass) (d : Device) (i prefix name : string)
    (z : zone_dict) (c : ascii) (r : string) (f : Setter)
    (c0 c1 c2 c3 c4 c5 c6 c7 c8 : Z) :
  (i, prefix) ∈ [("backlight", ""); ("logo", "Logo"); ("scroll", "Scroll");
                 ("left", "Left"); ("right", "Right"); ("charging", "Charging");
                 ("fast_charging", "FastCharging");
                 ("fully_charged", "FullyCharged");
                 ("channel1", "Channel1"); ("channel2", "Channel2");
                 ("channel3", "Channel3"); ("channel4", "Channel4");
                 ("channel5", "Channel5"); ("channel6", "Channel6")] ->
  zone d !! i = Some (Zone z) -> present z = true ->
  effect z = String c r ->
  name = "set" +:+ prefix +:+ String (Py.upper c) r ->
  attrs C name = Some f ->
  colors z = [c0; c1; c2; c3; c4; c5; c6; c7; c8] ->
  effect_func_name i (effect z) = Return name
  /\ (arity f = 0%nat -> restore_zone_effect C i d = call name f [] d)
  /\ (arity f = 1%nat -> effect z = "starlightRandom" ->
      restore_zone_effect C i d = call name f [VInt (speed z)] d)
  /\ (arity f = 1%nat -> effect z = "wave" \/ effect z = "wheel" ->
      restore_zone_effect C i d = call name f [VInt (wave_dir z)] d)
  /\ (arity f = 3%nat ->
      restore_zone_effect C i d = call name f [VInt c0; VInt c1; VInt c2] d)
  /\ (arity f = 4%nat -> effect z = "starlightSingle" \/ effect z = "reactive" ->
      restore_zone_effect C i d
      = call name f [VInt c0; VInt c1; VInt c2; VInt (speed z)] d)
  /\ (arity f = 6%nat ->
      restore_zone_effect C i d
      = call name f [VInt c0; VInt c1; VInt c2; VInt c3; VInt c4; VInt c5] d)
  /\ (arity f = 7%nat ->
      restore_zone_effect C i d
      = call name f [VInt c0; VInt c1; VInt c2; VInt c3; VInt c4; VInt c5;
                     VInt (speed z)] d)
  /\ (arity f = 9%nat ->
      restore_zone_effect C i d
      = call name f [VInt c0; VInt c1; VInt c2; VInt c3; VInt c4; VInt c5;
                     VInt c6; VInt c7; VInt c8] d)
  /\ (forall args, exists evs,
        trace (state_of (call name f args d)) = trace d ++ ECall name args :: evs
        /\ Forall (fun e => is_notification e = true) evs)
  /\ (forall pre post d0, ZONES = pre ++ i :: post ->
      restore_effect C d0
      = (for_each pre (restore_zone_effect C) ;;
         restore_zone_effect C i ;;
         for_each post (restore_zone_effect C)) d0)
  /\ (class_ok C -> only_present i d ->
      restore_effect C d = restore_zone_effect C i d)
  /\ restore_effect logo_wave_class logo_wave_device
     = (Return tt, with_trace [ECall "setLogoWave" [VInt 2]] logo_wave_device)
  /\ restore_effect fast_charging_wave_class (fast_charging_device "wave")
     = (Return tt,
        with_trace [ECall "setFastChargingWave" [VInt 1]] (fast_charging_device "wave"))
  /\ restore_effect backlight_static_class backlight_static_device
     = (Return tt,
        with_trace [ECall "setStatic" [VInt 0; VInt 255; VInt 0]]
          backlight_static_device).
Proof.
  intros Hi Hz Hp He Hname Hf Hc.
  destruct (effect_func_name_composed i prefix c r Hi) as [HiZ Hn].
  rewrite <- Hname, <- He in Hn.
  pose proof (restore_zone_effect_found C i name d z f Hz Hp Hn Hf) as Hbody.
  split; [exact Hn|]. rewrite Hbody.
  destruct (dispatch_table name f z d c0 c1 c2 c3 c4 c5 c6 c7 c8 Hc)
    as (H0 & H1 & H1' & H3 & H4 & H6 & H7 & H9).
  repeat (split; [assumption|]).
  split; [intros args; apply call_trace|].
  split; [intros pre post d0 H; apply restore_effect_at_zone, H|].
  split; [|split; [reflexivity|split; reflexivity]].
  intros HC Hd. rewrite <- Hbody.
  apply restore_effect_only_present; [exact HiZ|exact Hd|].
  rewrite Hbody. apply (dispatch_only_present C); assumption.
Qed.

(** ** The empty effect name *)

(** C9. A present zone whose effect name is the empty string makes the
    body of the loop of [restore_effect] raise an [IndexError] at the
    composition of the setter name: nothing is looked up, the effect is not
    reset to Spectrum and the device is left as it was. The load takes the
    stored effect name as it is, so the logo zone persisted with the empty
    name is a state the constructor reaches, and [restore_effect] raises on
    it for every class. When no present zone has the empty name, the zones
    are in place with nine colors and the setters keep it so,
    [restore_effect] returns. *)
Theorem restore_effect_empty_effect_name (C : DeviceClass) :
  (forall d i z,
      zone d !! i = Some (Zone z) -> present z = true -> effect z = "" ->
      restore_zone_effect C i d = (Raise IndexError, d))
  /\ (forall s z, effect (load_effect (Some s) z) = s)
  /\ restore_effect C logo_empty_effect_device
     = (Raise IndexError, logo_empty_effect_device)
  /\ (forall d, class_ok C -> restorable d ->
        exists d', restore_effect C d = (Return tt, d') /\ restorable d').
Proof.
  split; [|split; [|split]].
  - intros d i z. apply restore_zone_effect_empty.
  - reflexivity.
  - reflexivity.
  - intros d HC Hd. apply restore_zones_ok; [exact HC| |exact Hd].
    intros i Hi. exact Hi.
Qed.

(** ** The statements on devices *)

Lemma logo_wave_device_restorable : restorable logo_wave_device.
Proof.
  intros i Hi. unfold ZONES in Hi.
  repeat (apply elem_of_cons in Hi as [->|Hi];
          [eexists; split; [reflexivity|]; split; [intros _; discriminate|reflexivity]|]).
  inversion Hi.
Qed.

Lemma logo_device_zones_ok : zones_ok logo_device.
Proof.
  intros i Hi. unfold ZONES in Hi.
  repeat (apply elem_of_cons in Hi as [->|Hi]; [eexists; reflexivity|]).
  inversion Hi.
Qed.

(** C1 on the logo zone persisted with "wave" and the direction 2, and on
    the fast-charging zone persisted with "wave". *)
Lemma restore_effect_dispatch_witness :
  restore_zone_effect logo_wave_class "logo" logo_wave_device
  = call "setLogoWave" (plain_setter 1) [VInt 2] logo_wave_device
  /\ restore_zone_effect fast_charging_wave_class "fast_charging"
       (fast_charging_device "wave")
     = call "setFastChargingWave" (plain_setter 1) [VInt 1]
         (fast_charging_device "wave").
Proof.
  split.
  - refine (proj1 (proj2 (proj2 (proj2
      (restore_effect_dispatch logo_wave_class logo_wave_device "logo" "Logo"
         "setLogoWave"
         (set_key (KWaveDir 2)
            (load_effect (Some "wave")
               {| present := true; active := true; brightness := 75 # 1;
                  effect := "spectrum"; colors := default_colors; speed := 1;
                  wave_dir := 1; others := [] |}))
         "w"%char "ave" (plain_setter 1) 0 255 0 0 255 255 0 0 255
         _ eq_refl eq_refl eq_refl eq_refl eq_refl eq_refl)))) eq_refl
      (or_introl eq_refl)).
    apply (list_elem_of_lookup_2 _ 1%nat). reflexivity.
  - refine (proj1 (proj2 (proj2 (proj2
      (restore_effect_dispatch fast_charging_wave_class (fast_charging_device "wave")
         "fast_charging" "FastCharging" "setFastChargingWave"
         (load_effect (Some "wave")
            {| present := true; active := true; brightness := 75 # 1;
               effect := "spectrum"; colors := default_colors; speed := 1;
               wave_dir := 1; others := [] |})
         "w"%char "ave" (plain_setter 1) 0 255 0 0 255 255 0 0 255
         _ eq_refl eq_refl eq_refl eq_refl eq_refl eq_refl)))) eq_refl
      (or_introl eq_refl)).
    apply (list_elem_of_lookup_2 _ 6%nat). reflexivity.
Defined.

(** C6 on a device with a parent and three observers. *)
Lemma notify_observers_delivery_witness :
  notify_observers [VStr "effect"; VSelf; VStr "setWave"; VInt 2] observed_device
  = (Return tt,
     with_trace
       [ENotifyParent 9%nat [VStr "effect"; VSelf; VStr "setWave"; VInt 2];
        ENotify 3%nat [VStr "effect"; VSelf; VStr "setWave"; VInt 2];
        ENotify 1%nat [VStr "effect"; VSelf; VStr "setWave"; VInt 2];
        ENotify 2%nat [VStr "effect"; VSelf; VStr "setWave"; VInt 2]]
       observed_device).
Proof.
  exact (proj1 (proj2
    (notify_observers_delivery [VStr "effect"; VSelf; VStr "setWave"; VInt 2]
       observed_device)) 9%nat eq_refl eq_refl eq_refl).
Defined.

(** C7 on the DPI (5000, 5000) with [DPI_MAX] 1600. *)
Lemma restore_dpi_poll_rate_clamps_witness :
  restore_dpi mouse_class mouse_device
  = call "setDPI" (plain_setter 2) [VInt 1600; VInt 1600]
      (with_dpi (1600, 1600) mouse_device).
Proof.
  exact (proj1 (proj1 (restore_dpi_poll_rate_clamps mouse_class mouse_device)
                  (plain_setter 2) eq_refl)).
Defined.

(** C8 on a new device of a class in driver mode. *)
Lemma close_idempotent_witness :
  exists d',
    close driver_class new_device = (Return tt, d')
    /\ _is_closed d' = true
    /\ dpi d' = (1800, 1800)
    /\ trace d' = [EWriteMode 0 0]
    /\ _observer_list d' = []
    /\ zone d' = zone new_device
    /\ close driver_class d' = (Return tt, d').
Proof.
  refine (proj1 (proj2 (close_idempotent driver_class new_device)) eq_refl _).
  intros _. discriminate.
Defined.

(** C9 on the logo zone persisted with "wave": no present zone has the empty
    effect name and [restore_effect] returns. *)
Lemma restore_effect_empty_effect_name_witness :
  exists d',
    restore_effect logo_wave_class logo_wave_device = (Return tt, d')
    /\ restorable d'.
Proof.
  exact (proj2 (proj2 (proj2 (restore_effect_empty_effect_name logo_wave_class)))
           logo_wave_device
           (plain_class_ok ["set_logo_wave"] false [("setLogoWave", 1%nat)])
           logo_wave_device_restorable).
Defined.

(** C10 on the device with the logo zone: both methods return. *)
Lemma suspend_resume_flags_witness :
  (exists d', suspend_device logo_class logo_device = (Return tt, d'))
  /\ (exists d', resume_device logo_class logo_device = (Return tt, d')).
Proof.
  split.
  - exact (proj1 (proj2 (proj2 (suspend_resume_flags logo_class logo_device)))
             logo_device_zones_ok).
  - refine (proj2 (proj2 (proj2 (suspend_resume_flags logo_class logo_device)))
              logo_device_zones_ok _).
    intros H. discriminate H.
Defined.

(** * Further properties of the device code *)

(** ** Serial numbers *)

Lemma digit_value_char (d : N) : (d < 16)%N -> digit_value (Py.digit_char d) = d.
Proof.
  intros Hd.
  assert (H : In d (map N.of_nat (seq 0 16))).
  { apply in_map_iff. exists (N.to_nat d). split; [lia|]. apply in_seq. lia. }
  simpl in H.
  repeat (destruct H as [<- | H]; [reflexivity|]). contradiction.
Qed.

Lemma number_of_digits_of (base : N) (fuel : nat) :
  (1 < base <= 16)%N ->
  forall (n : N) (acc : string),
    (n < base ^ N.of_nat fuel)%N ->
    number_of base (Py.digits_of fuel base n acc)
    = (n * base ^ N.of_nat (Py.len acc) + number_of base acc)%N.
Proof.
  intros Hb. induction fuel as [|k IH]; intros n acc Hn.
  - simpl in Hn |- *. assert (n = 0%N) as -> by lia. reflexivity.
  - cbn [Py.digits_of].
    assert (Hd : digit_value (Py.digit_char (n mod base)) = (n mod base)%N).
    { apply digit_value_char. pose proof (N.mod_lt n base). lia. }
    pose proof (N.div_mod n base) as Hdm.
    destruct (N.eqb_spec (n / base) 0) as [H0|Hne].
    + cbn [number_of]. rewrite Hd.
      assert (n mod base = n)%N as -> by (rewrite Hdm at 2 by lia; rewrite H0; lia).
      reflexivity.
    + rewrite IH.
      * cbn [number_of Py.len]. rewrite Hd, Nat2N.inj_succ, N.pow_succ_r'.
        rewrite (Hdm ltac:(lia)) at 3. ring.
      * rewrite Nat2N.inj_succ, N.pow_succ_r' in Hn.
        apply N.Div0.div_lt_upper_bound. exact Hn.
Qed.

Lemma pos_size_nat_gt (p : positive) : (N.pos p < 2 ^ N.of_nat (Pos.size_nat p))%N.
Proof.
  induction p as [p IH|p IH|]; cbn [Pos.size_nat];
    rewrite ?Nat2N.inj_succ, ?N.pow_succ_r'; lia.
Qed.

Lemma number_of_str_base (base n : N) :
  (1 < base <= 16)%N -> number_of base (Py.str_base base n) = n.
Proof.
  intros Hb. unfold Py.str_base. rewrite number_of_digits_of; [simpl; lia|exact Hb|].
  assert (Hs : (n < 2 ^ N.of_nat (N.size_nat n))%N).
  { destruct n as [|p]; [simpl; lia|apply pos_size_nat_gt]. }
  rewrite Nat2N.inj_succ, N.pow_succ_r'.
  assert (2 ^ N.of_nat (N.size_nat n) <= base ^ N.of_nat (N.size_nat n))%N
    by (apply N.pow_le_mono_l; lia).
  nia.
Qed.

Lemma number_of_zeros (base : N) (k : nat) (s : string) :
  number_of base (Py.zeros k s) = number_of base s.
Proof.
  induction k as [|k IH]; cbn [Py.zeros number_of]; [reflexivity|].
  change (digit_value "0") with 0%N. rewrite IH, N.mul_0_l. reflexivity.
Qed.

(** Reading back what [format_04] wrote for a number that is not negative. *)
Lemma number_of_format_04 (base : N) (z : Z) :
  (1 < base <= 16)%N -> 0 <= z ->
  number_of base (Py.format_04 base z) = Z.to_N z.
Proof.
  intros Hb Hz. unfold Py.format_04.
  destruct (Z.ltb_spec z 0); [lia|].
  rewrite number_of_zeros, number_of_str_base by exact Hb.
  lia.
Qed.
Lemma len_digits_of (base : N) (fuel : nat) :
  (1 < base)%N ->
  forall (k : nat) (n : N) (acc : string),
    (n < base ^ N.of_nat (S k))%N ->
    (Py.len (Py.digits_of fuel base n acc) <= S k + Py.len acc)%nat.
Proof.
  intros Hb. induction fuel as [|f IH]; intros k n acc Hn; cbn [Py.digits_of].
  - lia.
  - destruct (N.eqb_spec (n / base) 0) as [H0|Hne]; [cbn [Py.len]; lia|].
    destruct k as [|k].
    + exfalso. apply Hne. apply N.div_small. simpl in Hn. lia.
    + etransitivity; [apply (IH k)|cbn [Py.len]; lia].
      rewrite (Nat2N.inj_succ (S k)), N.pow_succ_r' in Hn.
      apply N.Div0.div_lt_upper_bound. exact Hn.
Qed.

Lemma len_zeros (k : nat) (s : string) : Py.len (Py.zeros k s) = (k + Py.len s)%nat.
Proof. induction k as [|k IH]; simpl; [reflexivity|]. rewrite IH. reflexivity. Qed.

Lemma len_format_04X (v : Z) : 0 <= v < 65536 -> Py.len (Py.format_04X v) = 4%nat.
Proof.
  intros Hv. unfold Py.format_04X, Py.format_04.
  destruct (Z.ltb_spec v 0); [lia|].
  rewrite len_zeros.
  pose proof (len_digits_of 16 (S (N.size_nat (Z.abs_N v))) ltac:(lia) 3
                (Z.abs_N v) EmptyString) as Hl.
  unfold Py.str_base. cbn [Py.len] in Hl.
  assert (Z.abs_N v < 16 ^ N.of_nat 4)%N by (change (16 ^ N.of_nat 4)%N with 65536%N; lia).
  specialize (Hl H0). lia.
Qed.

Lemma append_inj_len (a b x y : string) :
  Py.len a = Py.len b -> a +:+ x = b +:+ y -> a = b /\ x = y.
Proof.
  revert b. induction a as [|c a IH]; intros [|c' b] Hl H; try discriminate Hl.
  - split; [reflexivity|exact H].
  - simpl in H. injection H as -> H. injection Hl as Hl.
    destruct (IH b Hl H) as [-> ->]. split; reflexivity.
Qed.

Lemma format_04_inj (base : N) (x y : Z) :
  (1 < base <= 16)%N -> 0 <= x -> 0 <= y ->
  Py.format_04 base x = Py.format_04 base y -> x = y.
Proof.
  intros Hb Hx Hy H.
  pose proof (number_of_format_04 base x Hb Hx) as Ex.
  pose proof (number_of_format_04 base y Hb Hy) as Ey.
  rewrite H in Ex. lia.
Qed.

(** X1. The generated serials are free of collisions: for ids of sixteen
    bits and indices that are not negative, two generated serials are equal
    only when the vendor id, the product id and the index are. *)
Theorem unknown_serial_injective (vid pid idx vid' pid' idx' : Z) :
  0 <= vid < 65536 -> 0 <= pid < 65536 -> 0 <= idx ->
  0 <= vid' < 65536 -> 0 <= pid' < 65536 -> 0 <= idx' ->
  unknown_serial vid pid idx = unknown_serial vid' pid' idx' ->
  vid = vid' /\ pid = pid' /\ idx = idx'.
Proof.
  intros Hv Hp Hi Hv' Hp' Hi' H. unfold unknown_serial in H.
  apply append_inv_head in H.
  apply append_inj_len in H as [H1 H]; [|rewrite !len_format_04X by assumption; reflexivity].
  apply append_inj_len in H as [H2 H]; [|rewrite !len_format_04X by assumption; reflexivity].
  apply append_inv_head in H.
  split; [apply (format_04_inj 16); [lia|lia|lia|exact H1]|].
  split; [apply (format_04_inj 16); [lia|lia|lia|exact H2]|].
  apply (format_04_inj 10); [lia|lia|lia|exact H].
Qed.

Lemma unknown_serial_injective_witness :
  5426 = 5426 /\ 67 = 67 /\ 12 = 12.
Proof.
  apply (unknown_serial_injective 5426 67 12 5426 67 12); try lia. reflexivity.
Defined.

(** X2. [get_serial] resolves the serial once: a second call returns the
    serial of the first, whatever the file gives then, and leaves the device
    and the shared counter as the first call left them. *)
Theorem get_serial_idempotent (C : DeviceClass)
    (serial_file serial_file' : nat -> option string)
    (counter : gmap (Z * Z) Z) (d : Device) :
  let '(s, d1, counter1) := get_serial C serial_file counter d in
  get_serial C serial_file' counter1 d1 = (s, d1, counter1).
Proof.
  unfold get_serial at 1. destruct (_serial d) as [s|] eqn:Hs.
  - unfold get_serial. rewrite Hs. reflexivity.
  - destruct (negb (Py.fullmatch_serial (read_serial serial_file 5 0))); reflexivity.
Qed.

Lemma fullmatch_no_blank (s : string) :
  Py.fullmatch_serial s = true -> Py.replace_blank s = s.
Proof.
  intros H. apply fullmatch_serial_true in H as [_ H].
  induction s as [|c s IH]; [reflexivity|].
  apply Forall_cons in H as [Hc H]. simpl. rewrite (IH H).
  assert (Hb : Py.is_space_char c = false).
  { unfold Py.is_space_char, Py.is_digit, Py.is_upper, Py.in_range in *.
    destruct (N.eqb_spec (Py.code c) 32) as [E|]; [|reflexivity].
    rewrite E in Hc. destruct Hc as [Hc|Hc]; discriminate Hc. }
  rewrite Hb. reflexivity.
Qed.

(** X3. The serial [get_serial] resolves is never empty and holds no blank;
    a serial read from the device that matches is returned as it was read. *)
Theorem get_serial_well_formed (C : DeviceClass)
    (serial_file : nat -> option string) (counter : gmap (Z * Z) Z) (d : Device) :
  _serial d = None ->
  let s := fst (fst (get_serial C serial_file counter d)) in
  s <> EmptyString
  /\ Py.replace_blank s = s
  /\ (Py.fullmatch_serial (read_serial serial_file 5 0) = true ->
      s = read_serial serial_file 5 0).
Proof.
  intros Hd. unfold get_serial. rewrite Hd.
  destruct (Py.fullmatch_serial (read_serial serial_file 5 0)) eqn:Hm;
    cbn [negb]; cbv beta iota zeta; cbn [fst].
  - rewrite !(fullmatch_no_blank _ Hm). split; [|split; [reflexivity|reflexivity]].
    intros E. rewrite E in Hm. discriminate Hm.
  - rewrite !unknown_serial_no_blank. split; [discriminate|]. split; [reflexivity|].
    discriminate.
Qed.

Lemma get_serial_well_formed_witness :
  fst (fst (get_serial logo_class default_string_file ∅ new_device)) <> EmptyString
  /\ Py.replace_blank (fst (fst (get_serial logo_class default_string_file ∅ new_device)))
     = fst (fst (get_serial logo_class default_string_file ∅ new_device)).
Proof.
  destruct (get_serial_well_formed logo_class default_string_file ∅ new_device eq_refl)
    as (H1 & H2 & _).
  split; [exact H1|exact H2].
Defined.

Lemma read_serial_ext (f g : nat -> option string) (tries count : nat) :
  (forall k, (count <= k < count + tries)%nat -> f k = g k) ->
  read_serial f tries count = read_serial g tries count.
Proof.
  revert count. induction tries as [|t IH]; intros count H; simpl; [reflexivity|].
  rewrite <- (H count) by lia.
  destruct (Py.len _); [|reflexivity]. apply IH. intros k Hk. apply H. lia.
Qed.

Lemma read_serial_skip (f : nat -> option string) (tries count skip : nat) :
  (forall j, (count <= j < count + skip)%nat ->
     match f j with Some text => Py.strip text | None => EmptyString end = EmptyString) ->
  read_serial f (skip + tries) count = read_serial f tries (count + skip).
Proof.
  revert count. induction skip as [|k IH]; intros count H.
  - rewrite Nat.add_0_r. reflexivity.
  - cbn [Nat.add read_serial]. rewrite (H count) by lia. cbn [Py.len].
    rewrite IH; [f_equal; lia|]. intros j Hj. apply H. lia.
Qed.

(** X4. The retry loop of [get_serial] reads the file at most five times:
    its result depends on the first five attempts alone; it is the stripped
    text of the first attempt that gives anything but whitespace, and the
    empty string when none of the five does. *)
Theorem read_serial_five_attempts (f : nat -> option string) :
  (forall g : nat -> option string,
      (forall k, (k < 5)%nat -> f k = g k) ->
      read_serial f 5 0 = read_serial g 5 0)
  /\ (forall (k : nat) (text : string),
        (k < 5)%nat ->
        (forall j, (j < k)%nat ->
           match f j with Some t => Py.strip t | None => EmptyString end = EmptyString) ->
        f k = Some text -> Py.strip text <> EmptyString ->
        read_serial f 5 0 = Py.strip text)
  /\ ((forall j, (j < 5)%nat ->
         match f j with Some t => Py.strip t | None => EmptyString end = EmptyString) ->
      read_serial f 5 0 = EmptyString).
Proof.
  split; [|split].
  - intros g H. apply read_serial_ext. intros k Hk. apply H. lia.
  - intros k text Hk Hskip Hf Hne.
    replace 5%nat with (k + S (4 - k))%nat by lia.
    rewrite read_serial_skip by (intros j Hj; apply Hskip; lia).
    cbn [read_serial Nat.add]. rewrite Hf.
    destruct (Py.strip text); [contradiction|reflexivity].
  - intros H. change (read_serial f 5 0) with (read_serial f (5 + 0) 0).
    rewrite (read_serial_skip f 0 0 5) by (intros j Hj; apply H; lia).
    reflexivity.
Qed.

Lemma read_serial_five_attempts_witness :
  read_serial (fun k => if (k <? 2)%nat then None else Some " PM1650 ") 5 0 = "PM1650".
Proof.
  apply (proj1 (proj2 (read_serial_five_attempts
           (fun k => if (k <? 2)%nat then None else Some " PM1650 "))) 2%nat " PM1650 ").
  - lia.
  - intros j Hj. destruct j as [|[|j]]; [reflexivity|reflexivity|lia].
  - reflexivity.
  - discriminate.
Defined.

(** ** The constructor *)

Lemma store_colors_keeps (items : list string) :
  forall (index : nat) (cs cs' : list Z),
    store_colors items index cs = Return cs' ->
    length cs' = length cs
    /\ (Forall (fun v => 0 <= v <= 255) cs -> Forall (fun v => 0 <= v <= 255) cs').
Proof.
  induction items as [|it items IH]; intros index cs cs' H; simpl in H.
  - injection H as <-. auto.
  - destruct (Py.int it) as [v|]; [|discriminate H].
    destruct (index <? length cs)%nat eqn:Hlt; [|discriminate H].
    destruct ((0 <=? v) && (v <=? 255)) eqn:Hr; [|discriminate H].
    apply IH in H as [Hl Hf]. rewrite length_insert in Hl. split; [exact Hl|].
    intros Hcs. apply Hf. apply Forall_insert; [exact Hcs|].
    apply andb_true_iff in Hr as [H1 H2]. apply Z.leb_le in H1, H2. lia.
Qed.

(** X5. The load keeps the shape of the colors: from a list of nine values
    in [0, 255], whatever the stored string, a load that returns gives nine
    values in [0, 255] again. *)
Theorem load_colors_keeps_nine (stored : option string) (cs cs' : list Z) :
  length cs = 9%nat -> Forall (fun v => 0 <= v <= 255) cs ->
  load_colors stored cs = Return cs' ->
  length cs' = 9%nat /\ Forall (fun v => 0 <= v <= 255) cs'.
Proof.
  intros Hl Hr H. unfold load_colors, try_load_colors in H.
  assert (Hdef : length default_colors = 9%nat
                 /\ Forall (fun v => 0 <= v <= 255) default_colors).
  { split; [reflexivity|]. repeat constructor; lia. }
  destruct stored as [s|]; [|injection H as <-; auto].
  destruct (store_colors (Py.split_blank s) 0 cs) as [c1|e] eqn:Hs.
  - destruct (store_colors_keeps _ _ _ _ Hs) as [Hl1 Hr1].
    destruct (length c1 =? 9)%nat eqn:H9.
    + injection H as <-. split; [lia|auto].
    + injection H as <-. exact Hdef.
  - destruct e; try discriminate H; injection H as <-; auto.
Qed.

Lemma load_colors_keeps_nine_witness :
  length [1; 2; 3; 0; 255; 255; 0; 0; 255] = 9%nat
  /\ Forall (fun v => 0 <= v <= 255) [1; 2; 3; 0; 255; 255; 0; 0; 255].
Proof.
  apply (load_colors_keeps_nine (Some "1 2 3") default_colors).
  - reflexivity.
  - repeat constructor; lia.
  - reflexivity.
Defined.

(** X6. Nine stored integers in [0, 255] become the colors of the zone,
    unchanged and in order; a stored item among the first nine that is no
    integer, or an integer out of the range, after items in range, puts the
    default palette back. *)
Theorem load_colors_valid_or_reset (s : string) (cs : list Z) :
  length cs = 9%nat ->
  (forall vs : list Z,
      Forall2 (fun it v => Py.int it = Some v) (Py.split_blank s) vs ->
      Forall (fun v => 0 <= v <= 255) vs -> length vs = 9%nat ->
      load_colors (Some s) cs = Return vs)
  /\ (forall (pre post : list string) (bad : string) (vs : list Z),
        Py.split_blank s = pre ++ bad :: post ->
        Forall2 (fun it v => Py.int it = Some v) pre vs ->
        Forall (fun v => 0 <= v <= 255) vs -> (length vs < 9)%nat ->
        Py.int bad = None \/ (exists v, Py.int bad = Some v /\ ~ 0 <= v <= 255) ->
        load_colors (Some s) cs = Return default_colors).
Proof.
  intros Hl. split.
  - intros vs H2 Hr Hv. apply load_colors_accepts; assumption.
  - intros pre post bad vs Hs H2 Hr Hv Hbad.
    apply (load_colors_bad_item s bad pre post vs cs); try assumption. lia.
Qed.

Lemma load_colors_valid_or_reset_witness :
  load_colors (Some "255 0 0 0 255 0 0 0 255") default_colors
  = Return [255; 0; 0; 0; 255; 0; 0; 0; 255]
  /\ load_colors (Some "255 0 300") default_colors = Return default_colors.
Proof.
  split.
  - apply (proj1 (load_colors_valid_or_reset "255 0 0 0 255 0 0 0 255"
                    default_colors eq_refl)).
    + vm_compute (Py.split_blank _). repeat constructor.
    + repeat constructor; lia.
    + reflexivity.
  - apply (proj2 (load_colors_valid_or_reset "255 0 300" default_colors eq_refl)
             ["255"; "0"] [] "300" [255; 0]).
    + reflexivity.
    + repeat constructor.
    + repeat constructor; lia.
    + simpl. lia.
    + right. exists 300. split; [reflexivity|lia].
Defined.

Lemma zone_key_ne (i a b : string) : a <> b -> i +:+ a <> i +:+ b.
Proof. intros Hne H. apply Hne. exact (append_inv_head i a b H). Qed.

Section LoadFacts.
Variable py_float : string -> option Q.

(** X7. The fields of a zone are loaded independently: when the load of a
    zone returns, the load of the same section without one of the six keys
    returns too, with the same zone but for the field of that key, which
    keeps the value it had before the load. *)
Theorem load_zone_fields_missing_key (section : gmap string string) (i : string)
    (z z1 : zone_dict) :
  load_zone_fields py_float section i z = Return z1 ->
  load_zone_fields py_float (delete (i +:+ "_effect") section) i z
  = Return (set_key (KEffect (effect z)) z1)
  /\ load_zone_fields py_float (delete (i +:+ "_active") section) i z
     = Return (set_key (KActive (active z)) z1)
  /\ load_zone_fields py_float (delete (i +:+ "_brightness") section) i z
     = Return (set_key (KBrightness (brightness z)) z1)
  /\ load_zone_fields py_float (delete (i +:+ "_colors") section) i z
     = Return (set_key (KColors (colors z)) z1)
  /\ load_zone_fields py_float (delete (i +:+ "_speed") section) i z
     = Return (set_key (KSpeed (speed z)) z1)
  /\ load_zone_fields py_float (delete (i +:+ "_wave_dir") section) i z
     = Return (set_key (KWaveDir (wave_dir z)) z1).
Proof.
  intros H. unfold load_zone_fields, load_effect, load_int in *.
  repeat split;
    rewrite lookup_delete_eq,
      !(lookup_delete_ne section) by (apply zone_key_ne; discriminate);
    destruct (section !! (i +:+ "_effect")) as [e|];
    destruct (section !! (i +:+ "_active")) as [a|];
    try (destruct (convert_to_boolean a) as [b|x]; [|discriminate H]);
    destruct (section !! (i +:+ "_brightness")) as [br|];
    try (destruct (py_float br) as [q|]; [|discriminate H]);
    destruct z; cbn in H |- *;
    try (destruct (load_colors (section !! (_ +:+ "_colors")) _) as [cs|x];
         [|discriminate H]);
    cbn in H |- *;
    destruct (section !! (i +:+ "_speed")) as [sp|];
    try (destruct (Py.int sp) as [v|]; [|discriminate H]);
    destruct (section !! (i +:+ "_wave_dir")) as [wd|];
    try (destruct (Py.int wd) as [w|]; [|discriminate H]);
    cbn in H |- *; injection H as <-; reflexivity.
Qed.

End LoadFacts.
Lemma load_zone_fields_missing_key_witness :
  load_zone_fields no_float (delete ("logo" +:+ "_speed") logo_section) "logo"
    default_zone
  = Return (set_key (KSpeed 1)
              (set_key (KWaveDir 2) (set_key (KSpeed 3)
                 (set_key (KActive true) (set_key (KEffect "wave") default_zone))))).
Proof.
  refine (proj1 (proj2 (proj2 (proj2 (proj2
    (load_zone_fields_missing_key no_float logo_section "logo" default_zone
       (set_key (KWaveDir 2) (set_key (KSpeed 3)
          (set_key (KActive true) (set_key (KEffect "wave") default_zone)))) _)))))).
  reflexivity.
Defined.

Section LoadErrors.
Variable py_float : string -> option Q.

(** X8. Only the colors recover from a stored value that cannot be
    converted: a stored speed or wave direction that is no integer, a stored
    active flag that is no boolean word, or a stored brightness that is no
    number makes the load of the zone raise, and no default takes its
    place. *)
Theorem load_zone_fields_bad_value (section : gmap string string) (i s : string)
    (z : zone_dict) :
  (section !! (i +:+ "_active") = Some s /\ convert_to_boolean s = Raise ValueError)
  \/ (section !! (i +:+ "_brightness") = Some s /\ py_float s = None)
  \/ (section !! (i +:+ "_speed") = Some s /\ Py.int s = None)
  \/ (section !! (i +:+ "_wave_dir") = Some s /\ Py.int s = None) ->
  exists e, load_zone_fields py_float section i z = Raise e.
Proof.
  intros H. unfold load_zone_fields, load_effect, load_int, and_then.
  destruct H as [[H1 H2]|[[H1 H2]|[[H1 H2]|[H1 H2]]]]; rewrite ?H1, ?H2;
    repeat match goal with
           | |- context [match ?x with _ => _ end] =>
               lazymatch x with
               | Raise _ => fail
               | _ => destruct x eqn:?
               end
           end;
    try (eexists; reflexivity); congruence.
Qed.

End LoadErrors.

Lemma load_zone_fields_bad_value_witness :
  exists e,
    load_zone_fields no_float (<["logo_speed" := "fast"]> logo_section) "logo"
      default_zone = Raise e.
Proof.
  apply (load_zone_fields_bad_value no_float _ "logo" "fast" default_zone).
  right. right. left. split; reflexivity.
Defined.

Example convert_to_boolean_samples :
  convert_to_boolean "True" = Return true /\ convert_to_boolean "off" = Return false
  /\ convert_to_boolean "" = Raise ValueError
  /\ convert_to_boolean "2" = Raise ValueError.
Proof. repeat split; reflexivity. Qed.

Lemma init_zones_flagged : zones_flagged (fun _ => false) init_zones.
Proof.
  intros j Hj. unfold ZONES in Hj.
  repeat (apply elem_of_cons in Hj as [->|Hj]; [reflexivity|]).
  inversion Hj.
Qed.

Lemma mark_present_flagged (flag : string -> bool) (zones : gmap string zone_entry)
    (i : string) :
  i ∈ ZONES -> zones_flagged flag zones ->
  exists zones',
    mark_present i zones = Return zones'
    /\ zones_flagged (fun j => flag j || bool_decide (j = i)) zones'.
Proof.
  intros Hi Hz. unfold mark_present. rewrite (Hz i Hi). eexists. split; [reflexivity|].
  intros j Hj. destruct (decide (j = i)) as [->|Hne].
  - rewrite lookup_insert_eq, bool_decide_eq_true_2, orb_true_r by reflexivity.
    reflexivity.
  - rewrite lookup_insert_ne by congruence.
    rewrite (bool_decide_eq_false_2 _ Hne), orb_false_r. apply Hz, Hj.
Qed.

Lemma zones_flagged_ext (f g : string -> bool) (zones : gmap string zone_entry) :
  (forall j, f j = g j) -> zones_flagged f zones -> zones_flagged g zones.
Proof. intros E H j Hj. rewrite <- E. apply H, Hj. Qed.

Lemma detect_loop_returns (methods : list string) (l : list string) :
  forall (flag : string -> bool) (zones : gmap string zone_entry),
    (forall i, i ∈ l -> i ∈ ZONES) ->
    (forall i, i ∈ l -> has_zone_methods methods i = true -> i ∈ effect_methods) ->
    zones_flagged flag zones ->
    exists zones',
      detect_loop methods l zones = Return zones'
      /\ zones_flagged
           (fun j => flag j || (bool_decide (j ∈ l) && has_zone_methods methods j))
           zones'.
Proof.
  induction l as [|i l IH]; intros flag zones Hin Hem Hz; cbn [detect_loop].
  - exists zones. split; [reflexivity|].
    apply (zones_flagged_ext flag); [|exact Hz].
    intros j. cbv beta. rewrite bool_decide_eq_false_2 by apply not_elem_of_nil.
    rewrite orb_false_r. reflexivity.
  - assert (Hi : i ∈ ZONES) by (apply Hin; left).
    assert (Hin' : forall k, k ∈ l -> k ∈ ZONES) by (intros k Hk; apply Hin; right; exact Hk).
    assert (Hem' : forall k, k ∈ l -> has_zone_methods methods k = true -> k ∈ effect_methods)
      by (intros k Hk; apply Hem; right; exact Hk).
    destruct (has_zone_methods methods i) eqn:Hm.
    + destruct (mark_present_flagged flag zones i Hi Hz) as (z1 & -> & Hz1).
      cbn [and_then].
      rewrite bool_decide_eq_true_2 by (apply Hem; [left|exact Hm]).
      destruct (IH _ z1 Hin' Hem' Hz1) as (z2 & -> & Hz2).
      exists z2. split; [reflexivity|].
      apply (zones_flagged_ext _ _ _ ) with (2 := Hz2). intros j. cbv beta.
      destruct (decide (j = i)) as [->|Hne].
      * rewrite (bool_decide_eq_true_2 (i = i)) by reflexivity.
        rewrite (bool_decide_eq_true_2 (i ∈ i :: l)) by left.
        rewrite Hm. destruct (flag i), (bool_decide (i ∈ l)); reflexivity.
      * rewrite (bool_decide_eq_false_2 (j = i)) by exact Hne.
        rewrite orb_false_r.
        rewrite (bool_decide_ext (j ∈ i :: l) (j ∈ l)); [reflexivity|].
        rewrite elem_of_cons. tauto.
    + destruct (IH flag zones Hin' Hem' Hz) as (z2 & -> & Hz2).
      exists z2. split; [reflexivity|].
      apply (zones_flagged_ext _ _ _ ) with (2 := Hz2). intros j. cbv beta.
      destruct (decide (j = i)) as [->|Hne].
      * rewrite Hm, !andb_false_r. reflexivity.
      * rewrite (bool_decide_ext (j ∈ i :: l) (j ∈ l)); [reflexivity|].
        rewrite elem_of_cons. tauto.
Qed.

Lemma detect_loop_raises (methods : list string) (pre post : list string) (i : string)
    (flag : string -> bool) (zones : gmap string zone_entry) :
  (forall k, k ∈ pre ++ [i] -> k ∈ ZONES) ->
  (forall k, k ∈ pre -> has_zone_methods methods k = true -> k ∈ effect_methods) ->
  has_zone_methods methods i = true -> i ∉ effect_methods ->
  zones_flagged flag zones ->
  detect_loop methods (pre ++ i :: post) zones = Raise KeyError.
Proof.
  revert flag zones. induction pre as [|k pre IH]; intros flag zones Hin Hem Hm Hi Hz.
  - simpl. rewrite Hm.
    destruct (mark_present_flagged flag zones i) as (z1 & -> & _);
      [apply Hin; left|exact Hz|].
    simpl. rewrite bool_decide_eq_false_2 by exact Hi. reflexivity.
  - assert (Hin' : forall j, j ∈ pre ++ [i] -> j ∈ ZONES)
      by (intros j Hj; apply Hin; right; exact Hj).
    assert (Hem' : forall j, j ∈ pre -> has_zone_methods methods j = true -> j ∈ effect_methods)
      by (intros j Hj; apply Hem; right; exact Hj).
    simpl. destruct (has_zone_methods methods k) eqn:Hk.
    + destruct (mark_present_flagged flag zones k) as (z1 & -> & Hz1);
        [apply Hin; left|exact Hz|].
      simpl. rewrite bool_decide_eq_true_2 by (apply Hem; [left|exact Hk]).
      apply (IH _ z1 Hin' Hem' Hm Hi Hz1).
    + apply (IH flag zones Hin' Hem' Hm Hi Hz).
Qed.

(** X9. On the zones as [__init__] creates them, when no addressable
    channel has a method of the four kinds, the constructor marks a zone
    present exactly when the class has one of its four methods (or, for the
    backlight, [set_static_effect] or [bw_set_static]) and leaves the other
    fields at their defaults. When a channel has such a method, the lookup of
    its entry in [effect_methods] raises a [KeyError] out of the
    constructor. *)
Theorem detect_zones_present (methods : list string) :
  ((forall i, i ∈ ZONES -> has_zone_methods methods i = true -> i ∈ effect_methods) ->
   exists zones,
     detect_zones methods init_zones = Return zones
     /\ forall j, j ∈ ZONES ->
          zones !! j
          = Some (Zone (set_present
                          ((bool_decide (j = "backlight") && has_backlight_methods methods)
                           || has_zone_methods methods j)
                          default_zone)))
  /\ ((exists i, i ∈ ZONES /\ (i ∉ effect_methods) /\ has_zone_methods methods i = true) ->
      detect_zones methods init_zones = Raise KeyError).
Proof.
  split.
  - intros Hem. unfold detect_zones.
    assert (Hb : exists z0,
              (if has_backlight_methods methods then mark_present "backlight" init_zones
               else Return init_zones) = Return z0
              /\ zones_flagged
                   (fun j => bool_decide (j = "backlight") && has_backlight_methods methods)
                   z0).
    { destruct (has_backlight_methods methods).
      - destruct (mark_present_flagged (fun _ => false) init_zones "backlight")
          as (z0 & Hz0 & Hf); [left|apply init_zones_flagged|].
        exists z0. split; [exact Hz0|].
        apply (zones_flagged_ext _ _ _ ) with (2 := Hf). intros j. cbv beta.
        rewrite andb_true_r. reflexivity.
      - exists init_zones. split; [reflexivity|].
        apply (zones_flagged_ext _ _ _ ) with (2 := init_zones_flagged). intros j.
        cbv beta. rewrite andb_false_r. reflexivity. }
    destruct Hb as (z0 & -> & Hz0). cbn [and_then].
    destruct (detect_loop_returns methods ZONES _ z0 (fun i H => H) Hem Hz0)
      as (zones & Hz & Hf).
    exists zones. split; [exact Hz|]. intros j Hj. rewrite (Hf j Hj).
    rewrite (bool_decide_eq_true_2 _ Hj). reflexivity.
  - intros (i & Hi & Hne & Hm). unfold detect_zones.
    assert (Hb : exists flag z0,
              (if has_backlight_methods methods then mark_present "backlight" init_zones
               else Return init_zones) = Return z0
              /\ zones_flagged flag z0).
    { destruct (has_backlight_methods methods).
      - destruct (mark_present_flagged (fun _ => false) init_zones "backlight")
          as (z0 & Hz0 & Hf); [left|apply init_zones_flagged|].
        eexists _, z0. split; [exact Hz0|exact Hf].
      - eexists _, init_zones. split; [reflexivity|apply init_zones_flagged]. }
    destruct Hb as (flag & z0 & -> & Hz0). cbn [and_then].
    (* the first channel with a method stops the loop *)
    assert (Hfirst : exists pre k post,
              ZONES = pre ++ k :: post
              /\ (forall j, j ∈ pre -> has_zone_methods methods j = true -> j ∈ effect_methods)
              /\ has_zone_methods methods k = true /\ (k ∉ effect_methods)).
    { clear Hz0 z0 flag. revert Hi.
      assert (Hgen : forall l, i ∈ l ->
                exists pre k post, l = pre ++ k :: post
                  /\ (forall j, j ∈ pre -> has_zone_methods methods j = true -> j ∈ effect_methods)
                  /\ has_zone_methods methods k = true /\ (k ∉ effect_methods)).
      { induction l as [|x l IH]; intros Hl; [inversion Hl|].
        destruct (decide (has_zone_methods methods x = true /\ (x ∉ effect_methods)))
          as [[Hx1 Hx2]|Hx].
        - exists [], x, l. split; [reflexivity|]. split; [|split; assumption].
          intros j Hj. inversion Hj.
        - assert (Hl' : i ∈ l).
          { apply elem_of_cons in Hl as [->|Hl]; [|exact Hl].
            exfalso. apply Hx. split; assumption. }
          destruct (IH Hl') as (pre & k & post & -> & Hpre & Hk1 & Hk2).
          exists (x :: pre), k, post. split; [reflexivity|]. split; [|split; assumption].
          intros j Hj Hmj. apply elem_of_cons in Hj as [->|Hj]; [|apply Hpre; assumption].
          destruct (decide (x ∈ effect_methods)) as [Hin|Hout]; [exact Hin|].
          exfalso. apply Hx. split; assumption. }
      apply Hgen. }
    destruct Hfirst as (pre & k & post & HZ & Hpre & Hk1 & Hk2).
    assert (HinZ : forall j, j ∈ pre ++ [k] -> j ∈ ZONES).
    { intros j Hj. rewrite HZ. apply elem_of_app in Hj as [Hj|Hj].
      - apply elem_of_app. left. exact Hj.
      - apply elem_of_app. right.
        apply elem_of_cons in Hj as [->|Hj]; [left|inversion Hj]. }
    rewrite HZ. apply (detect_loop_raises methods pre post k flag z0); assumption.
Qed.

Lemma detect_zones_present_witness :
  detect_zones ["set_logo_static"; "set_channel1_active"] init_zones = Raise KeyError.
Proof.
  apply (proj2 (detect_zones_present ["set_logo_static"; "set_channel1_active"])).
  exists "channel1". split; [|split].
  - unfold ZONES. do 8 right. left.
  - unfold effect_methods. intros H.
    repeat (apply elem_of_cons in H as [H|H]; [discriminate H|]). inversion H.
  - reflexivity.
Defined.

Example detect_zones_logo :
  exists zones,
    detect_zones ["set_logo_static"; "set_static_effect"] init_zones = Return zones
    /\ zones !! "logo" = Some (Zone (set_present true default_zone))
    /\ zones !! "backlight" = Some (Zone (set_present true default_zone))
    /\ zones !! "scroll" = Some (Zone default_zone).
Proof. eexists. repeat split; reflexivity. Qed.

(** ** Observers *)

Lemma list_remove_spec (o : observer) (l : list observer) :
  (o ∉ l -> list_remove o l = None)
  /\ (forall l', list_remove o l = Some l' ->
        (NoDup l -> NoDup l' /\ (o ∉ l')) /\ forall x, x ∈ l' -> x ∈ l).
Proof.
  induction l as [|x l [IH1 IH2]]; simpl.
  - split; [reflexivity|discriminate].
  - split.
    + intros Hn. rewrite bool_decide_eq_false_2 by (intros ->; apply Hn; left).
      rewrite IH1; [reflexivity|]. intros H. apply Hn. right. exact H.
    + intros l' H. case_bool_decide as Hx.
      * injection H as <-. subst x. split.
        -- intros Hnd. apply NoDup_cons in Hnd as [Ho Hnd]. split; assumption.
        -- intros y Hy. right. exact Hy.
      * destruct (list_remove o l) as [r|] eqn:Hr; [|discriminate H].
        injection H as <-. destruct (IH2 r eq_refl) as [Hnd Hsub]. split.
        -- intros Hc. apply NoDup_cons in Hc as [Hxl Hc].
           destruct (Hnd Hc) as [Hr1 Hr2]. split.
           ++ apply NoDup_cons. split; [|exact Hr1]. intros Hxr. apply Hxl, Hsub, Hxr.
           ++ intros Hin. apply elem_of_cons in Hin as [->|Hin]; [apply Hx; reflexivity|].
              apply Hr2, Hin.
        -- intros y Hy. apply elem_of_cons in Hy as [->|Hy]; [left|right; apply Hsub, Hy].
Qed.

Lemma list_remove_found (o : observer) (l : list observer) :
  o ∈ l -> exists l', list_remove o l = Some l'.
Proof.
  induction l as [|x l IH]; intros Hin; [inversion Hin|]. simpl.
  case_bool_decide as Hx; [eexists; reflexivity|].
  apply elem_of_cons in Hin as [->|Hin]; [contradiction Hx; reflexivity|].
  destruct (IH Hin) as [r ->]. eexists. reflexivity.
Qed.

Lemma list_remove_last (o : observer) (l : list observer) :
  o ∉ l -> list_remove o (l ++ [o]) = Some l.
Proof.
  induction l as [|x l IH]; intros Hn; simpl.
  - rewrite bool_decide_eq_true_2 by reflexivity. reflexivity.
  - rewrite bool_decide_eq_false_2 by (intros ->; apply Hn; left).
    rewrite IH; [reflexivity|]. intros H. apply Hn. right. exact H.
Qed.

(** X10. The observer list never holds an observer twice: registering and
    removing keep it free of duplicates. Registering an observer that is
    there changes nothing, removing one that is not there changes nothing and
    raises nothing, a removed observer is gone from the list, and removing an
    observer that was just registered for the first time gives the device
    back as it was. *)
Theorem observer_list_no_duplicates (o : observer) (d : Device) :
  NoDup (_observer_list d) ->
  NoDup (_observer_list (state_of (register_observer o d)))
  /\ NoDup (_observer_list (state_of (remove_observer o d)))
  /\ o ∈ _observer_list (state_of (register_observer o d))
  /\ (o ∉ _observer_list (state_of (remove_observer o d)))
  /\ (o ∈ _observer_list d -> register_observer o d = (Return tt, d))
  /\ (o ∉ _observer_list d -> remove_observer o d = (Return tt, d))
  /\ (o ∉ _observer_list d ->
      remove_observer o (state_of (register_observer o d)) = (Return tt, d)).
Proof.
  intros Hnd. unfold register_observer, remove_observer, modify, state_of. cbn [snd].
  destruct (list_remove_spec o (_observer_list d)) as [Hnone Hsome].
  split; [|split; [|split; [|split; [|split; [|split]]]]].
  - case_bool_decide as Hin; [exact Hnd|]. simpl.
    apply NoDup_app. split; [exact Hnd|]. split; [|apply NoDup_singleton].
    intros x Hx Hxo. apply list_elem_of_singleton in Hxo as ->. contradiction.
  - destruct (list_remove o (_observer_list d)) as [l|] eqn:Hr; [|exact Hnd].
    simpl. apply (Hsome l eq_refl), Hnd.
  - case_bool_decide as Hin; [exact Hin|]. simpl. apply elem_of_app. right. left.
  - destruct (list_remove o (_observer_list d)) as [l|] eqn:Hr.
    + simpl. apply (Hsome l eq_refl), Hnd.
    + intros Hin. destruct (list_remove_found o _ Hin) as [r Hr']. congruence.
  - intros Hin. rewrite bool_decide_eq_true_2 by exact Hin. reflexivity.
  - intros Hni. rewrite (Hnone Hni). reflexivity.
  - intros Hni. rewrite bool_decide_eq_false_2 by exact Hni. simpl.
    rewrite (list_remove_last o _ Hni). destruct d. reflexivity.
Qed.

Lemma observer_list_no_duplicates_witness :
  remove_observer 7%nat (state_of (register_observer 7%nat observed_device))
  = (Return tt, observed_device).
Proof.
  refine (proj2 (proj2 (proj2 (proj2 (proj2 (proj2
    (observer_list_no_duplicates 7%nat observed_device _)))))) _).
  - simpl. repeat (apply NoDup_cons; split; [intros H; repeat (apply elem_of_cons in H as [H|H]; [discriminate H|]); inversion H|]).
    apply NoDup_nil. exact I.
  - simpl. intros H. repeat (apply elem_of_cons in H as [H|H]; [discriminate H|]).
    inversion H.
Defined.

(** X11. [notify], the device as an observer of another device, relays a
    message to every observer in the order of the list, never to the parent,
    and does not look at the flag that disables notifications: in the window
    of suspend and resume, where [notify_observers] delivers nothing, a
    relayed message still reaches the observers. *)
Theorem notify_ignores_disable (msg : list value) (d : Device) :
  notify msg d
  = (Return tt,
     with_trace (trace d ++ map (fun o => ENotify o msg) (_observer_list d)) d)
  /\ (_disable_notifications d = true ->
      notify_observers msg d = (Return tt, d)
      /\ (_observer_list d <> [] -> notify msg d <> notify_observers msg d)).
Proof.
  assert (Hn : notify msg d
               = (Return tt,
                  with_trace (trace d ++ map (fun o => ENotify o msg) (_observer_list d)) d)).
  { unfold notify, bind, get. apply for_each_emit. }
  split; [exact Hn|]. intros Hdis.
  assert (Ho : notify_observers msg d = (Return tt, d)).
  { unfold notify_observers, bind, get. rewrite Hdis. reflexivity. }
  split; [exact Ho|]. intros Hne. rewrite Hn, Ho. intros H.
  injection H as H. apply (f_equal trace) in H. simpl in H.
  rewrite <- (app_nil_r (trace d)) in H at 2. apply app_inv_head in H.
  destruct (_observer_list d); [contradiction|discriminate H].
Qed.

Lemma notify_ignores_disable_witness :
  notify_observers [VStr "x"] (with_disable_notify true observed_device)
  = (Return tt, with_disable_notify true observed_device)
  /\ (_observer_list (with_disable_notify true observed_device) <> [] ->
      notify [VStr "x"] (with_disable_notify true observed_device)
      <> notify_observers [VStr "x"] (with_disable_notify true observed_device)).
Proof.
  exact (proj2 (notify_ignores_disable [VStr "x"] (with_disable_notify true observed_device))
           eq_refl).
Defined.

(** ** Persistence of a zone *)

(** X12. With persistence enabled, [set_persistence] on a zone of the
    device stores the value where the getters read it: the getter of the
    effect returns the effect just stored, the other fields of the zone and
    every other entry of [self.zone] are as before, the store is marked
    changed and nothing is sent or called. With persistence disabled the
    device is left as it is. A zone that the device does not have raises a
    [KeyError], after the store was marked changed. *)
Theorem set_persistence_round_trip (i : string) (kv : keyval) (d : Device) :
  i <> EmptyString ->
  (_disable_persistence d = true ->
   set_persistence (Some i) kv d = (Return tt, d))
  /\ (forall z, _disable_persistence d = false -> zone d !! i = Some (Zone z) ->
        exists d',
          set_persistence (Some i) kv d = (Return tt, d')
          /\ zone d' = <[i := Zone (set_key kv z)]> (zone d)
          /\ persistence_changed d' = true
          /\ trace d' = trace d
          /\ (forall j, j <> i -> zone d' !! j = zone d !! j)
          /\ (forall e, kv = KEffect e ->
                get_current_zone_effect i d' = (Return e, d')
                /\ get_current_zone_effect_colors i d' = (Return (colors z), d')
                /\ get_current_zone_effect_speed i d' = (Return (speed z), d')
                /\ get_current_zone_wave_dir i d' = (Return (wave_dir z), d')))
  /\ (_disable_persistence d = false -> zone d !! i = None ->
      set_persistence (Some i) kv d
      = (Raise KeyError, with_persistence_changed true d)).
Proof.
  intros Hi.
  assert (Ht : truthy (Some i) = Some i) by (destruct i; [contradiction|reflexivity]).
  unfold set_persistence, bind, get. rewrite Ht.
  split; [|split].
  - intros ->. reflexivity.
  - intros z -> Hz. unfold modify, get_zone. cbn [zone with_persistence_changed].
    rewrite Hz. eexists. split; [reflexivity|]. cbn.
    split; [reflexivity|]. split; [reflexivity|]. split; [reflexivity|].
    split; [intros j Hj; apply lookup_insert_ne; congruence|].
    intros e ->. unfold get_current_zone_effect, get_current_zone_effect_colors,
      get_current_zone_effect_speed, get_current_zone_wave_dir, bind, get_zone, ret.
    cbn. rewrite lookup_insert_eq. repeat split; reflexivity.
  - intros -> Hz. unfold modify, get_zone. cbn [zone with_persistence_changed].
    rewrite Hz. reflexivity.
Qed.

Lemma set_persistence_round_trip_witness :
  exists d',
    set_persistence (Some "logo") (KEffect "static") logo_device = (Return tt, d')
    /\ get_current_logo_effect d' = (Return "static", d').
Proof.
  destruct (proj1 (proj2 (set_persistence_round_trip "logo" (KEffect "static")
                            logo_device ltac:(discriminate)))
              (set_present true default_zone) eq_refl eq_refl)
    as (d' & H1 & _ & _ & _ & _ & H2).
  exists d'. split; [exact H1|]. exact (proj1 (H2 "static" eq_refl)).
Defined.

(** ** Device mode *)

(** X13. [set_device_mode] never writes anything but the mode 0 or 3 with
    the parameter 0: whatever the arguments, it changes the device by at most
    one write, of (mode, 0) when the mode asked for is 0 or 3 and of (0, 0)
    otherwise; when the control file cannot be opened it writes nothing and
    raises. *)
Theorem set_device_mode_sanitised (mode_id param : Z) (d : Device) :
  (device_mode_file d = FilePresent ->
   set_device_mode mode_id param d
   = (Return tt,
      with_trace
        (trace d ++ [EWriteMode (if (mode_id =? 0) || (mode_id =? 3) then mode_id else 0) 0])
        d)
   /\ ((if (mode_id =? 0) || (mode_id =? 3) then mode_id else 0) = 0
       \/ (if (mode_id =? 0) || (mode_id =? 3) then mode_id else 0) = 3))
  /\ (device_mode_file d = FileMissing ->
      set_device_mode mode_id param d = (Raise FileNotFoundError, d))
  /\ (device_mode_file d = FileDenied ->
      set_device_mode mode_id param d = (Raise PermissionError, d)).
Proof.
  unfold set_device_mode, bind, get. split; [|split]; intros ->; try reflexivity.
  split.
  - unfold emit, modify. destruct (Z.eqb_spec param 0) as [->|Hp]; reflexivity.
  - destruct (Z.eqb_spec mode_id 0) as [->|H0]; [left; reflexivity|].
    destruct (Z.eqb_spec mode_id 3) as [->|H3]; [right; reflexivity|left; reflexivity].
Qed.

Lemma set_device_mode_sanitised_witness :
  set_device_mode 7 255 new_device
  = (Return tt, with_trace [EWriteMode 0 0] new_device).
Proof.
  exact (proj1 (proj1 (set_device_mode_sanitised 7 255 new_device) eq_refl)).
Defined.

(** ** Resume when the control file fails *)

(** X14. [resume_device] has no handler around the write of the driver
    mode: for a class in driver mode whose control file cannot be opened it
    raises before any brightness is restored, and leaves both flags set, so
    that from then on [notify_observers] delivers nothing and
    [set_persistence] stores nothing. *)
Theorem resume_device_failure_mutes (C : DeviceClass) (d : Device) :
  DRIVER_MODE C = true -> device_mode_file d <> FilePresent ->
  exists e d',
    resume_device C d = (Raise e, d')
    /\ d' = with_disable_persistence true (with_disable_notify true d)
    /\ (forall msg, notify_observers msg d' = (Return tt, d'))
    /\ (forall zn kv, set_persistence zn kv d' = (Return tt, d')).
Proof.
  intros Hdm Hf. unfold resume_device, bind, modify. rewrite Hdm.
  unfold set_device_mode, bind, get. cbn [device_mode_file with_disable_persistence
    with_disable_notify].
  destruct (device_mode_file d) eqn:Hfile; [contradiction| |];
    eexists _, _; (split; [reflexivity|]); (split; [reflexivity|]); split; intros;
    reflexivity.
Qed.

Lemma resume_device_failure_mutes_witness :
  exists e d',
    resume_device driver_class (with_device_mode_file FileMissing logo_device) = (Raise e, d')
    /\ _disable_notifications d' = true /\ _disable_persistence d' = true.
Proof.
  destruct (resume_device_failure_mutes driver_class
              (with_device_mode_file FileMissing logo_device) eq_refl
              ltac:(discriminate)) as (e & d' & H & -> & _).
  exists e. eexists. split; [exact H|]. split; reflexivity.
Defined.

(** ** Zones that are not present *)

(** X15. A zone that is not present is never touched: on a device none of
    whose zones is present, [restore_effect], [restore_brightness] and
    [disable_brightness] call no setter and leave the device as it is, for
    every class. *)
Theorem absent_zones_untouched (C : DeviceClass) (d : Device) :
  (forall i, i ∈ ZONES -> exists z, zone d !! i = Some (Zone z) /\ present z = false) ->
  restore_effect C d = (Return tt, d)
  /\ restore_brightness C d = (Return tt, d)
  /\ disable_brightness C d = (Return tt, d).
Proof.
  intros H. unfold restore_effect, restore_brightness, disable_brightness.
  repeat split; apply for_each_unchanged; intros i Hi;
    destruct (H i Hi) as (z & Hz & Hp);
    unfold restore_zone_effect, bind, get_zone; rewrite Hz, Hp; reflexivity.
Qed.

Lemma absent_zones_untouched_witness :
  restore_effect logo_class new_device = (Return tt, new_device)
  /\ restore_brightness logo_class new_device = (Return tt, new_device)
  /\ disable_brightness logo_class new_device = (Return tt, new_device).
Proof.
  apply (absent_zones_untouched logo_class new_device).
  intros i Hi. unfold ZONES in Hi.
  repeat (apply elem_of_cons in Hi as [->|Hi]; [eexists; split; reflexivity|]).
  inversion Hi.
Defined.
